(** * Terminator AutoLogger plugin: a shallow embedding of [autologger.py]

    The development follows the plugin class [AutoLogger]:
    - Python [str] values are sequences of Unicode code points ([list N]);
    - the line classifiers ([_looks_like_prompt], [_is_partial_command],
      [_is_empty_prompt], [_is_context_command]) are boolean functions;
    - the per-line filter loop of [_on_contents_changed] is a fold over
      the lines with the flag [skip_until_prompt] and the accumulator
      [filtered_lines];
    - dictionaries are [gmap]s, bounded queues are lists with a capacity,
      exceptions are explicit results. *)

From Stdlib Require Import ZArith NArith Ascii String DecimalString.
From Stdlib Require Import DecimalPos DecimalZ.
From stdpp Require Import base tactics option list gmap.

Local Open Scope N_scope.

(** ** Python strings *)

Module PyStr.

(** A Python [str]: a sequence of code points. *)
Abbreviation str := (list N).

(** An ASCII literal as a [str]. *)
Definition lit (s : string) : str :=
  List.map N_of_ascii (list_ascii_of_string s).

Definition in_ranges (tbl : list (N * N)) (c : N) : bool :=
  existsb (fun r => (fst r <=? c) && (c <=? snd r)) tbl.

(** [str.isspace] on one code point, which is also [\s] of [re] on [str]
    patterns (CPython's [_PyUnicode_IsWhitespace]). *)
Definition whitespace_ranges : list (N * N) :=
  [ (0x09, 0x0d); (0x1c, 0x20); (0x85, 0x85); (0xa0, 0xa0);
    (0x1680, 0x1680); (0x2000, 0x200a); (0x2028, 0x2029);
    (0x202f, 0x202f); (0x205f, 0x205f); (0x3000, 0x3000) ].

Definition isspace (c : N) : bool := in_ranges whitespace_ranges c.

(** Decimal digits (general category Nd, Unicode 14.0 as shipped with
    CPython 3.11): [str.isdecimal] on one code point and [\d] of [re]. *)
Definition decimal_ranges : list (N * N) :=
  [ (48, 57); (1632, 1641); (1776, 1785); (1984, 1993); (2406, 2415);
    (2534, 2543); (2662, 2671); (2790, 2799); (2918, 2927); (3046, 3055);
    (3174, 3183); (3302, 3311); (3430, 3439); (3558, 3567); (3664, 3673);
    (3792, 3801); (3872, 3881); (4160, 4169); (4240, 4249); (6112, 6121);
    (6160, 6169); (6470, 6479); (6608, 6617); (6784, 6793); (6800, 6809);
    (6992, 7001); (7088, 7097); (7232, 7241); (7248, 7257); (42528, 42537);
    (43216, 43225); (43264, 43273); (43472, 43481); (43504, 43513);
    (43600, 43609); (44016, 44025); (65296, 65305); (66720, 66729);
    (68912, 68921); (69734, 69743); (69872, 69881); (69942, 69951);
    (70096, 70105); (70384, 70393); (70736, 70745); (70864, 70873);
    (71248, 71257); (71360, 71369); (71472, 71481); (71904, 71913);
    (72016, 72025); (72784, 72793); (73040, 73049); (73120, 73129);
    (92768, 92777); (92864, 92873); (93008, 93017); (120782, 120831);
    (123200, 123209); (123632, 123641); (125264, 125273);
    (130032, 130041) ].

Definition isdecimal_char (c : N) : bool := in_ranges decimal_ranges c.

(** The further code points with a digit value (superscripts, circled
    digits, ...): [str.isdigit] accepts them, [\d] does not. *)
Definition digit_only_ranges : list (N * N) :=
  [ (178, 179); (185, 185); (4969, 4977); (6618, 6618); (8304, 8304);
    (8308, 8313); (8320, 8329); (9312, 9320); (9332, 9340); (9352, 9360);
    (9450, 9450); (9461, 9469); (9471, 9471); (10102, 10110);
    (10112, 10120); (10122, 10130); (68160, 68163); (69216, 69224);
    (69714, 69722); (127232, 127242) ].

Definition isdigit_char (c : N) : bool :=
  isdecimal_char c || in_ranges digit_only_ranges c.

(** [s.isdigit()]: at least one character and all of them digits. *)
Definition isdigit (s : str) : bool :=
  match s with
  | [] => false
  | _ => forallb isdigit_char s
  end.

(** [s.lstrip()], [s.rstrip()], [s.strip()] without argument. *)
Fixpoint lstrip (s : str) : str :=
  match s with
  | [] => []
  | c :: s' => if isspace c then lstrip s' else s
  end.

Fixpoint rstrip (s : str) : str :=
  match s with
  | [] => []
  | c :: s' =>
      match rstrip s' with
      | [] => if isspace c then [] else [c]
      | r => c :: r
      end
  end.

Definition strip (s : str) : str := rstrip (lstrip s).

(** [s.startswith(p)]. *)
Fixpoint startswith (p s : str) : bool :=
  match p, s with
  | [], _ => true
  | _ :: _, [] => false
  | a :: p', b :: s' => (a =? b) && startswith p' s'
  end.

(** [s.endswith(p)]. *)
Definition endswith (p s : str) : bool :=
  startswith (rev p) (rev s).

(** [p in s]. *)
Fixpoint contains (p s : str) : bool :=
  startswith p s ||
  match s with
  | [] => false
  | _ :: s' => contains p s'
  end.

(** [s.split(sep, 1)[-1]] for a non-empty [sep]: the text after the first
    occurrence of [sep], the whole of [s] when there is none. *)
Fixpoint find_after (sep s : str) : option str :=
  if startswith sep s then Some (drop (length sep) s)
  else match s with
       | [] => None
       | _ :: s' => find_after sep s'
       end.

Definition split1_last (sep s : str) : str :=
  match find_after sep s with
  | Some r => r
  | None => s
  end.

(** [s.rsplit(sep, 1)] for a non-empty [sep]: the split at the last
    occurrence of [sep], or [[s]] when there is none. *)
Fixpoint rsplit_at (sep s : str) : option (str * str) :=
  match s with
  | [] => None
  | c :: s' =>
      match rsplit_at sep s' with
      | Some (a, b) => Some (c :: a, b)
      | None =>
          if startswith sep s then Some ([], drop (length sep) s) else None
      end
  end.

Definition rsplit1 (sep s : str) : list str :=
  match rsplit_at sep s with
  | Some (a, b) => [a; b]
  | None => [s]
  end.

(** [s.split('\n')]. *)
Fixpoint split_lines (s : str) : list str :=
  match s with
  | [] => [[]]
  | c :: s' =>
      if c =? 10 then [] :: split_lines s'
      else match split_lines s' with
           | [] => [[c]]
           | l :: ls => (c :: l) :: ls
           end
  end.

(** ['\n'.join(ls)]. *)
Fixpoint join_lines (ls : list str) : str :=
  match ls with
  | [] => []
  | [l] => l
  | l :: ls' => l ++ 10 :: join_lines ls'
  end.

End PyStr.
Export PyStr.

(** ** Regular expressions, as far as [re.match] is used *)

Module Regex.

Inductive re : Type :=
  | Void
  | Eps
  | Chr (p : N -> bool)
  | Cat (a b : re)
  | Alt (a b : re)
  | Star (a : re).


Fixpoint nullable (r : re) : bool :=
  match r with
  | Void => false
  | Eps => true
  | Chr _ => false
  | Cat a b => nullable a && nullable b
  | Alt a b => nullable a || nullable b
  | Star _ => true
  end.

(** Brzozowski derivative. *)
Fixpoint deriv (c : N) (r : re) : re :=
  match r with
  | Void => Void
  | Eps => Void
  | Chr p => if p c then Eps else Void
  | Cat a b =>
      if nullable a then Alt (Cat (deriv c a) b) (deriv c b)
      else Cat (deriv c a) b
  | Alt a b => Alt (deriv c a) (deriv c b)
  | Star a => Cat (deriv c a) (Star a)
  end.

(** An anchored match of the whole string. *)
Fixpoint matches (r : re) (s : str) : bool :=
  match s with
  | [] => nullable r
  | c :: s' => matches (deriv c r) s'
  end.

Definition plus (a : re) : re := Cat a (Star a).

End Regex.

(** ** The line classifiers of [AutoLogger] *)

(** The string literals of the source file, code point by code point as
    the file stores them: [PROMPT_TAIL] is the literal that ends in [#]
    (seven code points), [PROMPT_HEAD] the one tested by the second
    [startswith] (nine), [SKULL] the one tested together with it. *)
Definition PROMPT_TAIL : str :=
  [0xe2; 0x201d; 0x201d; 0xe2; 0x201d; 0x20ac; 35].

Definition PROMPT_HEAD : str :=
  [0xe2; 0x201d; 0x152; 0xe2; 0x201d; 0x20ac; 0xe2; 0x201d; 0x20ac].

Definition SKULL : str := [0xf0; 0x178; 0x2019; 0x20ac].

(** The character class of [error_pattern]. *)
Definition FAILURE_GLYPHS : str :=
  [0xe2; 0xa8; 0xaf; 0xe2; 0x153; 0x2014; 0xc3; 0x2014; 0xe2; 0x153;
   0x2dc; 0xe2; 0x152].

Definition failure_glyph (c : N) : bool :=
  existsb (N.eqb c) FAILURE_GLYPHS.

Definition DOLLAR_SP : str := lit "$ ".
Definition HASH_SP : str := lit "# ".
Definition CONTEXT : str := lit "context".
Definition SESSION_MARKER : str := lit "===".

(** [^\s*\d+\s*[...]\s*$]; the final [$] also matches before one
    newline that ends the string. *)
Definition error_pattern : Regex.re :=
  Regex.Cat (Regex.Star (Regex.Chr isspace))
    (Regex.Cat (Regex.plus (Regex.Chr isdecimal_char))
       (Regex.Cat (Regex.Star (Regex.Chr isspace))
          (Regex.Cat (Regex.Chr failure_glyph)
             (Regex.Cat (Regex.Star (Regex.Chr isspace))
                (Regex.Alt Regex.Eps (Regex.Chr (N.eqb 10))))))).

(** [re.match(error_pattern, s)] as a truth value. *)
Definition re_match_error (s : str) : bool := Regex.matches error_pattern s.

Definition is_empty (s : str) : bool :=
  match s with [] => true | _ => false end.

Definition _looks_like_prompt (line_content : str) : bool :=
  if is_empty line_content then false
  else
    let line := strip line_content in
    startswith PROMPT_TAIL line
    || endswith DOLLAR_SP line
    || endswith HASH_SP line
    || startswith PROMPT_HEAD line
    || (contains PROMPT_HEAD line && contains SKULL line).

Definition _is_partial_command (line_content : str) : bool :=
  if is_empty line_content then true
  else if _looks_like_prompt line_content then false
  else
    let stripped := strip line_content in
    if (length stripped <=? 2)%nat && negb (isdigit stripped) then true
    else if endswith (lit "_") stripped || endswith (lit "|") stripped
    then true
    else false.

(** The body of [for prompt_suffix in ['$ ', '# ']] in [_is_empty_prompt]:
    [true] when an iteration returns [True]. *)
Fixpoint empty_after_suffix (suffixes : list str) (stripped : str) : bool :=
  match suffixes with
  | [] => false
  | prompt_suffix :: rest =>
      if contains prompt_suffix stripped then
        match rsplit1 prompt_suffix stripped with
        | [_; part] =>
            let after_prompt := strip part in
            if is_empty after_prompt then true
            else if re_match_error after_prompt then true
            else empty_after_suffix rest stripped
        | _ => empty_after_suffix rest stripped
        end
      else empty_after_suffix rest stripped
  end.

Definition _is_empty_prompt (line_content : str) : bool :=
  if is_empty line_content then true
  else
    let stripped := strip line_content in
    if bool_decide (stripped = PROMPT_TAIL) then true
    else if startswith PROMPT_TAIL stripped
            && (let after_prompt := strip (drop 3 stripped) in
                is_empty after_prompt || re_match_error after_prompt)
    then true
    else empty_after_suffix [DOLLAR_SP; HASH_SP] stripped.

(** The command part that [_is_context_command] cuts out of a prompt
    line. *)
Definition command_part (stripped : str) : str :=
  if contains PROMPT_TAIL stripped then
    strip (split1_last PROMPT_TAIL stripped)
  else if endswith DOLLAR_SP stripped || endswith HASH_SP stripped then
    if endswith DOLLAR_SP stripped then
      strip (take (length stripped - length DOLLAR_SP) stripped)
    else if endswith HASH_SP stripped then
      strip (take (length stripped - length HASH_SP) stripped)
    else []
  else [].

Definition _is_context_command (line_content : str) : bool :=
  if is_empty line_content then false
  else
    let stripped := strip line_content in
    if _looks_like_prompt stripped then
      startswith CONTEXT (command_part stripped)
    else startswith CONTEXT stripped.

(** ** The per-line filter loop *)

(** The loop state: [skip_until_prompt] and [filtered_lines]. *)
Record filter_state : Type := FilterState {
  skip_until_prompt : bool;
  filtered_lines : list str
}.

(** One iteration of [for line in lines] in [_on_contents_changed] (and in
    the snapshot of [_start_logging], which has the same body). *)
Definition filter_step (st : filter_state) (line : str) : filter_state :=
  let stripped := strip line in
  if _is_context_command stripped then
    FilterState true (filtered_lines st)
  else if skip_until_prompt st then
    if _looks_like_prompt stripped then
      FilterState false
        (if negb (_is_empty_prompt stripped)
         then filtered_lines st ++ [rstrip line]
         else filtered_lines st)
    else st
  else if negb (is_empty stripped)
          && negb (startswith SESSION_MARKER stripped)
          && negb (_is_empty_prompt stripped)
          && negb (_is_partial_command stripped)
  then FilterState false (filtered_lines st ++ [rstrip line])
  else st.

Definition filter_from (st : filter_state) (lines : list str) : filter_state :=
  fold_left filter_step lines st.

Definition filter_lines (lines : list str) : list str :=
  filtered_lines (filter_from (FilterState false []) lines).

(** The chunk that is enqueued: [None] when nothing passes the filter. *)
Definition content_to_log (new_content : str) : option str :=
  match filter_lines (split_lines new_content) with
  | [] => None
  | ls => Some (join_lines ls ++ [10])
  end.

(** A line that the loop can append: what the guards before the two
    [filtered_lines.append] calls establish. *)
Definition kept_line (l : str) : Prop :=
  strip l <> []
  /\ _is_context_command (strip l) = false
  /\ _is_empty_prompt (strip l) = false
  /\ (_looks_like_prompt (strip l) = true
      \/ (startswith SESSION_MARKER (strip l) = false
          /\ _is_partial_command (strip l) = false)).




(** ** State and exceptions *)

(** The exceptions that the modelled calls raise. *)
Inductive exn : Type :=
  | QueueFull        (* queue.Full *)
  | QueueEmpty       (* queue.Empty *)
  | HostError        (* any exception of a VTE / GLib call *)
  | OSError.         (* any exception of a file or process call *)

Inductive result (A : Type) : Type :=
  | Ok (a : A)
  | Raise (e : exn).

Arguments Ok {A} a.
Arguments Raise {A} e.

(** A statement that runs on a state [S] and returns or raises; the state
    changes made before an exception stay. *)
Definition M (S A : Type) : Type := S -> S * result A.

Definition ret {S A} (a : A) : M S A := fun s => (s, Ok a).

Definition bind {S A B} (m : M S A) (k : A -> M S B) : M S B :=
  fun s =>
    match m s with
    | (s', Ok a) => k a s'
    | (s', Raise e) => (s', Raise e)
    end.

Definition raise {S A} (e : exn) : M S A := fun s => (s, Raise e).

Definition get {S} : M S S := fun s => (s, Ok s).

Definition modify {S} (f : S -> S) : M S unit := fun s => (f s, Ok tt).

(** A call whose outcome is given from outside. *)
Definition call {S A} (r : result A) : M S A := fun s => (s, r).

(** [try: m except <handles>: handler]. *)
Definition try_except {S A} (m : M S A) (handles : exn -> bool)
    (handler : M S A) : M S A :=
  fun s =>
    match m s with
    | (s', Raise e) => if handles e then handler s' else (s', Raise e)
    | r => r
    end.

Definition any_exception (e : exn) : bool := true.

Definition is_queue_full (e : exn) : bool :=
  match e with QueueFull => true | _ => false end.

Declare Scope py_scope.
Delimit Scope py_scope with py.
Notation "x <- m ;; k" := (bind m (fun x => k))
  (at level 100, m at next level, right associativity) : py_scope.
Notation "m ;;; k" := (bind m (fun _ => k))
  (at level 100, right associativity) : py_scope.
Notation "'pass'" := (ret tt) : py_scope.

(** ** The plugin object and its queues *)

(** A VTE widget, by object identity. *)
Abbreviation vte := nat.

(** An entry of either queue: a pair of strings, or the sentinel [None].
    [write_queue] holds [(filepath, content)], [sanitize_queue] holds
    [(content, output_filepath)]. *)
Abbreviation item := (option (str * str)).

Definition MAXSIZE : nat := 1000.

(** The timeout of every chunk enqueue, [timeout=0.1], in milliseconds. *)
Definition PUT_TIMEOUT_MS : N := 100.

Definition full (q : list item) : bool := (MAXSIZE <=? length q)%nat.

(** [self.loggers[vte_terminal]]. *)
Record logger_info : Type := LoggerInfo {
  filepath : str;
  sanitized_filepath : str;
  terminal_id : str;
  last_col : Z;
  last_row : Z;
  contents_handler : nat
}.

Definition set_last_row (r : Z) (i : logger_info) : logger_info :=
  LoggerInfo (filepath i) (sanitized_filepath i) (terminal_id i)
    (last_col i) r (contents_handler i).

(** A Python [dict] with [str] keys where the order of its entries
    matters: the entries in insertion order.  [d[k] = v] keeps the place
    of a key that is there and puts a new key last; [del d[k]] takes the
    entry out; [d.values()] goes through the entries in order. *)
Record dict (V : Type) : Type := Dict { dict_items : list (str * V) }.
Arguments Dict {V} _.
Arguments dict_items {V} _.

Fixpoint entries_get {V} (k : str) (l : list (str * V)) : option V :=
  match l with
  | [] => None
  | (k', v) :: l' => if bool_decide (k' = k) then Some v else entries_get k l'
  end.

Fixpoint entries_set {V} (k : str) (v : V) (l : list (str * V))
    : list (str * V) :=
  match l with
  | [] => [(k, v)]
  | (k', v') :: l' =>
      if bool_decide (k' = k) then (k', v) :: l'
      else (k', v') :: entries_set k v l'
  end.

Fixpoint entries_del {V} (k : str) (l : list (str * V)) : list (str * V) :=
  match l with
  | [] => []
  | (k', v) :: l' =>
      if bool_decide (k' = k) then entries_del k l'
      else (k', v) :: entries_del k l'
  end.

#[global] Instance dict_empty {V} : Empty (dict V) := Dict [].
#[global] Instance dict_lookup {V} : Lookup str V (dict V) :=
  fun k d => entries_get k (dict_items d).
#[global] Instance dict_insert {V} : Insert str V (dict V) :=
  fun k v d => Dict (entries_set k v (dict_items d)).
#[global] Instance dict_delete {V} : Delete str (dict V) :=
  fun k d => Dict (entries_del k (dict_items d)).
#[global] Instance dict_singleton {V} : SingletonM str V (dict V) :=
  fun k v => Dict [(k, v)].

Definition values {V} (d : dict V) : list V := (dict_items d).*2.

Arguments dict_lookup : simpl never.
Arguments dict_insert : simpl never.
Arguments dict_delete : simpl never.

(** A file object of the writer thread, by identity. *)
Abbreviation handle := nat.

Inductive os_call : Type :=
  | Makedirs (dir : str)
  | OpenAppend (path : str)
  | Write (fd : handle) (content : str)
  | Flush (fd : handle)
  | Close (fd : handle).

(** How one run of the external sanitizer ends. *)
Inductive sanitizer_run : Type :=
  | SpawnError                 (* [Popen] raises *)
  | TimedOut                   (* [communicate] raises [TimeoutExpired] *)
  | Exited (returncode : Z).

(** One invocation of the sanitizer: its [-o] argument, its standard
    input, and how it ended. *)
Record invocation : Type := Invocation {
  inv_output : str;
  inv_stdin : str;
  inv_run : sanitizer_run
}.

(** The plugin instance with its two worker threads: the fields of [self]
    that the pipeline uses, the local [open_files] of [_async_writer], and
    what has been done to the outside so far. *)
Record plugin : Type := Plugin {
  loggers : gmap vte logger_info;
  write_queue : list item;
  sanitize_queue : list item;
  _shutdown_writer : bool;
  open_files : dict handle;
  os_log : list os_call;
  sanitizer_log : list invocation;
  waited_ms : N
}.

Definition with_loggers (f : gmap vte logger_info -> gmap vte logger_info)
    (p : plugin) : plugin :=
  Plugin (f (loggers p)) (write_queue p) (sanitize_queue p)
    (_shutdown_writer p) (open_files p) (os_log p) (sanitizer_log p)
    (waited_ms p).

Definition with_write_queue (f : list item -> list item) (p : plugin) : plugin :=
  Plugin (loggers p) (f (write_queue p)) (sanitize_queue p)
    (_shutdown_writer p) (open_files p) (os_log p) (sanitizer_log p)
    (waited_ms p).

Definition with_sanitize_queue (f : list item -> list item) (p : plugin) : plugin :=
  Plugin (loggers p) (write_queue p) (f (sanitize_queue p))
    (_shutdown_writer p) (open_files p) (os_log p) (sanitizer_log p)
    (waited_ms p).

Definition with_open_files (f : dict handle -> dict handle)
    (p : plugin) : plugin :=
  Plugin (loggers p) (write_queue p) (sanitize_queue p)
    (_shutdown_writer p) (f (open_files p)) (os_log p) (sanitizer_log p)
    (waited_ms p).

Definition log_os (c : os_call) (p : plugin) : plugin :=
  Plugin (loggers p) (write_queue p) (sanitize_queue p)
    (_shutdown_writer p) (open_files p) (os_log p ++ [c]) (sanitizer_log p)
    (waited_ms p).

Definition log_sanitizer (i : invocation) (p : plugin) : plugin :=
  Plugin (loggers p) (write_queue p) (sanitize_queue p)
    (_shutdown_writer p) (open_files p) (os_log p) (sanitizer_log p ++ [i])
    (waited_ms p).

Definition wait (ms : N) (p : plugin) : plugin :=
  Plugin (loggers p) (write_queue p) (sanitize_queue p)
    (_shutdown_writer p) (open_files p) (os_log p) (sanitizer_log p)
    (waited_ms p + ms).

(** [q.put(x, timeout=t)] as the producer sees it when no consumer takes
    an item during the wait: on a full queue the call blocks for the
    timeout and raises [queue.Full]; otherwise it appends at once. *)
Definition put_write (x : str * str) (timeout : N) : M plugin unit :=
  fun p =>
    if full (write_queue p) then (wait timeout p, Raise QueueFull)
    else (with_write_queue (fun q => q ++ [Some x]) p, Ok tt).

Definition put_sanitize (x : str * str) (timeout : N) : M plugin unit :=
  fun p =>
    if full (sanitize_queue p) then (wait timeout p, Raise QueueFull)
    else (with_sanitize_queue (fun q => q ++ [Some x]) p, Ok tt).

(** ** The host terminal during one callback *)

(** What the VTE widget answers.  [get_cursor_position] is [Ok None] when
    the answer is falsy or not a pair; [get_text_range] stands for
    [get_text_range] / [get_text_range_format] followed by [content[0]]. *)
Record vte_view : Type := VteView {
  get_cursor_position : result (option (Z * Z));
  get_column_count : result Z;
  get_text_range : Z -> Z -> Z -> Z -> result str
}.

Definition _get_content (h : vte_view) (row_start col_start row_end col_end : Z)
    : str :=
  match get_text_range h row_start col_start row_end col_end with
  | Ok content => content
  | Raise _ => []
  end.

Section Callbacks.
Local Open Scope py_scope.
Local Open Scope Z_scope.

(** [try: put; put except queue.Full: pass] of [_on_contents_changed]. *)
Definition enqueue_chunk (logger : logger_info) (chunk : str) : M plugin unit :=
  try_except
    (put_write (filepath logger, chunk) PUT_TIMEOUT_MS ;;;
     put_sanitize (chunk, sanitized_filepath logger) PUT_TIMEOUT_MS)
    is_queue_full
    pass.

Definition _on_contents_changed (h : vte_view) (vte_terminal : vte)
    : M plugin unit :=
  try_except
    (self <- get ;;
     match loggers self !! vte_terminal with
     | None => pass
     | Some logger_info =>
         cursor_pos <- call (get_cursor_position h) ;;
         match cursor_pos with
         | None => pass
         | Some (current_col, current_row) =>
             let last_row := last_row logger_info in
             if current_row <=? last_row then pass
             else
               columns <- call (get_column_count h) ;;
               let current_line :=
                 _get_content h current_row 0 current_row columns in
               if negb (is_empty current_line)
                  && _looks_like_prompt (strip current_line)
               then
                 let start_row :=
                   Z.max 0 (if 0 <=? last_row then last_row else 0) in
                 let end_row := current_row in
                 columns' <- call (get_column_count h) ;;
                 let new_content :=
                   _get_content h start_row 0 end_row columns' in
                 (if is_empty new_content then pass
                  else
                    match content_to_log new_content with
                    | Some chunk => enqueue_chunk logger_info chunk
                    | None => pass
                    end) ;;;
                 modify (with_loggers
                           (alter (set_last_row current_row) vte_terminal))
               else pass
         end
     end)
    any_exception
    pass.

Definition _write_to_log (vte_terminal : vte) (text : str) : M plugin unit :=
  try_except
    (if is_empty text || is_empty (strip text) then pass
     else
       self <- get ;;
       match loggers self !! vte_terminal with
       | None => pass
       | Some logger_info =>
           let filepath := filepath logger_info in
           if is_empty filepath then pass
           else
             let clean_text := strip text in
             if is_empty clean_text then pass
             else
               try_except
                 (put_write (filepath, clean_text ++ [10%N]) PUT_TIMEOUT_MS)
                 is_queue_full
                 pass
       end)
    any_exception
    pass.

(** A run of the event loop: content-change callbacks, one after the
    other. *)
Fixpoint run_callbacks (events : list (vte_view * vte)) (p : plugin) : plugin :=
  match events with
  | [] => p
  | (h, v) :: rest => run_callbacks rest (fst (_on_contents_changed h v p))
  end.

End Callbacks.

(** What a producer-side call may do to the plugin [p], giving [p']: it
    blocks for at most [budget] milliseconds, what is already in the
    queues stays in place, a full queue is left as it is, and nothing of
    the worker threads is touched. *)
Definition enqueue_or_drop (budget : N) (p p' : plugin) : Prop :=
  waited_ms p' <= waited_ms p + budget
  /\ (exists new, write_queue p' = write_queue p ++ new)
  /\ (exists new, sanitize_queue p' = sanitize_queue p ++ new)
  /\ (full (write_queue p) = true ->
      write_queue p' = write_queue p /\ sanitize_queue p' = sanitize_queue p)
  /\ (full (sanitize_queue p) = true -> sanitize_queue p' = sanitize_queue p)
  /\ _shutdown_writer p' = _shutdown_writer p
  /\ open_files p' = open_files p
  /\ os_log p' = os_log p
  /\ sanitizer_log p' = sanitizer_log p.

(** The backpressure policy of a producer-side call [m]: it returns
    without an exception, it enqueues or drops as above, and the session
    records come out the same whatever the queues hold, so whether or not
    the item was dropped. *)
Definition drops_when_full (budget : N) (m : M plugin unit) : Prop :=
  forall p,
    snd (m p) = Ok tt
    /\ enqueue_or_drop budget p (fst (m p))
    /\ (forall q, loggers q = loggers p ->
        loggers (fst (m q)) = loggers (fst (m p))).

(** A session for the examples: one terminal whose cursor is on row 7, on
    a prompt line, with rows 3 to 7 not yet logged. *)
Definition example_view : vte_view :=
  VteView (Ok (Some (0, 7)%Z)) (Ok 80%Z)
    (fun row_start _ _ _ =>
       if (row_start =? 7)%Z then Ok (PROMPT_TAIL ++ lit " ")
       else Ok (PROMPT_TAIL ++ lit " ls" ++ [10] ++ lit "a.txt" ++ [10]
                ++ PROMPT_TAIL ++ lit " ")).

Definition example_logger : logger_info :=
  LoggerInfo (lit "/tmp/terminator_logs/t_original.log")
    (lit "/tmp/terminator_logs/t.log") (lit "t") 0 3 0.

Definition example_plugin (wq sq : list item) : plugin :=
  Plugin {[ 1%nat := example_logger ]} wq sq false ∅ [] [] 0.

(** ** The worker threads *)

(** [os.path.dirname] of [posixpath]. *)
Fixpoint rstrip_slash (s : str) : str :=
  match s with
  | [] => []
  | c :: s' =>
      match rstrip_slash s' with
      | [] => if c =? 47 then [] else [c]
      | r => c :: r
      end
  end.

Definition dirname (p : str) : str :=
  match rsplit_at [47] p with
  | None => []
  | Some (a, _) =>
      let head := a ++ [47] in
      if forallb (N.eqb 47) head then head else rstrip_slash head
  end.

(** What the operating system answers during one iteration of the writer
    loop: whether each call returns or raises. *)
Record os_answers : Type := OsAnswers {
  makedirs_ok : bool;
  open_result : result handle;
  write_ok : bool;
  flush_ok : bool;
  close_ok : bool
}.

Inductive loop_status : Type :=
  | Continue
  | Break.

Section Workers.
Local Open Scope py_scope.

(** A call of the writer thread to the outside: it is recorded, and it
    returns or raises as the operating system answers. *)
Definition os_do (c : os_call) (ok : bool) : M plugin unit :=
  modify (log_os c) ;;; if ok then pass else raise OSError.

(** The [try] / [except Exception] block of [_async_writer] for one
    item. *)
Definition write_item (a : os_answers) (filepath content : str)
    : M plugin unit :=
  try_except
    (self <- get ;;
     (match open_files self !! filepath with
      | Some _ => pass
      | None =>
          os_do (Makedirs (dirname filepath)) (makedirs_ok a) ;;;
          modify (log_os (OpenAppend filepath)) ;;;
          fd <- call (open_result a) ;;
          modify (with_open_files (insert filepath fd))
      end) ;;;
     self <- get ;;
     match open_files self !! filepath with
     | Some fd =>
         os_do (Write fd content) (write_ok a) ;;;
         os_do (Flush fd) (flush_ok a)
     | None => raise OSError
     end)
    any_exception
    (self <- get ;;
     match open_files self !! filepath with
     | Some fd =>
         try_except (os_do (Close fd) (close_ok a)) any_exception pass ;;;
         modify (with_open_files (delete filepath))
     | None => pass
     end).

(** One turn of [while not self._shutdown_writer] in [_async_writer].  An
    empty queue stands for [queue.Empty] after the one-second wait. *)
Definition _async_writer_iteration (a : os_answers) : M plugin loop_status :=
  self <- get ;;
  if _shutdown_writer self then ret Break
  else
    try_except
      (match write_queue self with
       | [] => raise QueueEmpty
       | None :: _ =>
           modify (with_write_queue (drop 1)) ;;; ret Break
       | Some (filepath, content) :: _ =>
           modify (with_write_queue (drop 1)) ;;;
           if is_empty filepath || is_empty content then ret Continue
           else write_item a filepath content ;;; ret Continue
       end)
      any_exception
      (ret Continue).

(** [for fd in open_files.values(): fd.close()] after the loop. *)
Definition close_all (p : plugin) : plugin :=
  foldr log_os p (rev (Close <$> values (open_files p))).

(** The writer thread over as many turns as [script] has answers. *)
Fixpoint _async_writer (script : list os_answers) (p : plugin)
    : plugin * loop_status :=
  match script with
  | [] => (p, Continue)
  | a :: script' =>
      match _async_writer_iteration a p with
      | (p', Ok Break) => (close_all p', Break)
      | (p', _) => _async_writer script' p'
      end
  end.

(** [Popen(...)] and [communicate(input=content, timeout=30)]. *)
Definition sanitize (run : sanitizer_run) (content output_filepath : str)
    : M plugin unit :=
  modify (log_sanitizer (Invocation output_filepath content run)) ;;;
  match run with
  | SpawnError => raise OSError
  | TimedOut => raise OSError
  | Exited _ => pass
  end.

(** One turn of the loop of [_async_sanitizer]. *)
Definition _async_sanitizer_iteration (run : sanitizer_run)
    : M plugin loop_status :=
  self <- get ;;
  if _shutdown_writer self then ret Break
  else
    try_except
      (match sanitize_queue self with
       | [] => raise QueueEmpty
       | None :: _ =>
           modify (with_sanitize_queue (drop 1)) ;;; ret Break
       | Some (content, output_filepath) :: _ =>
           modify (with_sanitize_queue (drop 1)) ;;;
           if is_empty content || is_empty output_filepath then ret Continue
           else
             try_except (sanitize run content output_filepath)
               any_exception pass ;;;
             ret Continue
       end)
      any_exception
      (ret Continue).

Fixpoint _async_sanitizer (script : list sanitizer_run) (p : plugin)
    : plugin * loop_status :=
  match script with
  | [] => (p, Continue)
  | run :: script' =>
      match _async_sanitizer_iteration run p with
      | (p', Ok Break) => (p', Break)
      | (p', _) => _async_sanitizer script' p'
      end
  end.

End Workers.

(** A sanitizer run that the spec counts as failed. *)
Definition failed (run : sanitizer_run) : Prop :=
  match run with
  | SpawnError | TimedOut => True
  | Exited code => code <> 0%Z
  end.

(** The raw pipeline of a plugin: its queue, its handle cache and what it
    did to the file system. *)
Definition raw_pipeline (p : plugin) : list item * dict handle * list os_call :=
  (write_queue p, open_files p, os_log p).

(** ** Terminal identifiers *)

(** [str(n)] for a Python [int]. *)
Definition str_of_int (n : Z) : str :=
  lit (NilZero.string_of_int (Z.to_int n)).

(** [s.split(sep)[-1]] for a non-empty [sep]: the text after the last of
    the occurrences of [sep] found from the left without overlap. *)
Fixpoint split_last_fuel (fuel : nat) (sep s : str) : str :=
  match fuel with
  | O => s
  | S fuel' =>
      match find_after sep s with
      | Some r => split_last_fuel fuel' sep r
      | None => s
      end
  end.

Definition split_last (sep s : str) : str :=
  split_last_fuel (length s) sep s.

(** What [ptsname(pty_fd)] gives: [NULL] or an empty name, bytes that do
    not decode, or a decoded name. *)
Inductive ptsname_answer : Type :=
  | NoName
  | Undecodable
  | Name (pts_name : str).

(** What the host answers about the PTY of a terminal: an exception on the
    way to the descriptor, or the descriptor and the answer of [ptsname]. *)
Inductive pty_query : Type :=
  | PtyError
  | Pty (pty_fd : Z) (name : ptsname_answer).

(** The part of the plugin that names terminals: [self.terminal_ids],
    [self.terminal_counter] and the two class-level variables. *)
Record registry : Type := Registry {
  terminal_ids : gmap vte str;
  terminal_counter : Z;
  _global_pty_to_terminal_id : gmap str str;
  _global_session_timestamp : str
}.

Definition with_terminal_ids (f : gmap vte str -> gmap vte str)
    (r : registry) : registry :=
  Registry (f (terminal_ids r)) (terminal_counter r)
    (_global_pty_to_terminal_id r) (_global_session_timestamp r).

Definition with_global_map (f : gmap str str -> gmap str str)
    (r : registry) : registry :=
  Registry (terminal_ids r) (terminal_counter r)
    (f (_global_pty_to_terminal_id r)) (_global_session_timestamp r).

Definition with_terminal_counter (f : Z -> Z) (r : registry) : registry :=
  Registry (terminal_ids r) (f (terminal_counter r))
    (_global_pty_to_terminal_id r) (_global_session_timestamp r).

(** The registry after [__init__] in a fresh process. *)
Definition new_registry (timestamp : str) : registry :=
  Registry ∅ 0 ∅ timestamp.

Definition DEV_PTS : str := lit "/dev/pts/".

(** [f"terminal_{pty_fd}_pts{pts_num}_{timestamp}"]. *)
Definition id_with_pts (timestamp : str) (pty_fd : Z) (pts_num : str) : str :=
  lit "terminal_" ++ str_of_int pty_fd ++ lit "_pts" ++ pts_num
  ++ lit "_" ++ timestamp.

(** [f"terminal_{n}_{timestamp}"]. *)
Definition id_plain (timestamp : str) (n : Z) : str :=
  lit "terminal_" ++ str_of_int n ++ lit "_" ++ timestamp.

(** The identifier made for a PTY path that has none yet. *)
Definition new_terminal_id (timestamp : str) (pty_fd : Z) (pts_name : str)
    : str :=
  if contains DEV_PTS pts_name
  then id_with_pts timestamp pty_fd (split_last DEV_PTS pts_name)
  else id_plain timestamp pty_fd.

Section Identity.
Local Open Scope py_scope.
Local Open Scope Z_scope.

Definition _get_terminal_id (query : pty_query) (vte_terminal : vte)
    : M registry str :=
  self <- get ;;
  match terminal_ids self !! vte_terminal with
  | Some terminal_id => ret terminal_id
  | None =>
      terminal_id <-
        try_except
          (match query with
           | PtyError => raise HostError
           | Pty pty_fd NoName =>
               ret (id_plain (_global_session_timestamp self) pty_fd)
           | Pty pty_fd Undecodable => raise HostError
           | Pty pty_fd (Name pts_name) =>
               if is_empty pts_name
               then ret (id_plain (_global_session_timestamp self) pty_fd)
               else
                 match _global_pty_to_terminal_id self !! pts_name with
                 | Some terminal_id => ret terminal_id
                 | None =>
                     let terminal_id :=
                       new_terminal_id (_global_session_timestamp self)
                         pty_fd pts_name in
                     modify (with_global_map (insert pts_name terminal_id)) ;;;
                     ret terminal_id
                 end
           end)
          any_exception
          (modify (with_terminal_counter (fun n => n + 1)) ;;;
           self' <- get ;;
           ret (id_plain (_global_session_timestamp self')
                  (terminal_counter self'))) ;;
      modify (with_terminal_ids (insert vte_terminal terminal_id)) ;;;
      ret terminal_id
  end.

End Identity.

(** What happens to the registry over the life of the process: a terminal
    is resolved, with what the host answers about its PTY at that moment,
    or [_stop_logging] forgets the cached identifier of a terminal. *)
Inductive registry_op : Type :=
  | Resolve (query : pty_query) (v : vte)
  | Forget (v : vte).

Definition registry_step (r : registry) (op : registry_op) : registry :=
  match op with
  | Resolve query v => fst (_get_terminal_id query v r)
  | Forget v => with_terminal_ids (delete v) r
  end.

Definition run_registry (ops : list registry_op) (r : registry) : registry :=
  fold_left registry_step ops r.

(** The identifier that a terminal gets in a given state; [None] would be
    an exception of [_get_terminal_id]. *)
Definition resolve (query : pty_query) (v : vte) (r : registry) : option str :=
  match snd (_get_terminal_id query v r) with
  | Ok terminal_id => Some terminal_id
  | Raise _ => None
  end.

(** What holds of every registry the process can reach: every identifier
    recorded for a PTY path was made for that path, with some descriptor
    number and with the session timestamp. *)
Definition registry_inv (r : registry) : Prop :=
  forall p id,
    _global_pty_to_terminal_id r !! p = Some id ->
    exists fd, id = new_terminal_id (_global_session_timestamp r) fd p.

(** ** Notions used in the further properties *)

(** Text in which every code point is ASCII. *)
Definition ascii_only (s : str) : Prop := Forall (fun c => c < 128) s.

(** A terminal that shows ASCII text only. *)
Definition ascii_view (h : vte_view) : Prop :=
  forall row_start col_start row_end col_end content,
    get_text_range h row_start col_start row_end col_end = Ok content ->
    ascii_only content.

(** Answers of the operating system under which the file calls of one
    turn return: [writes_ok] for a turn that finds its handle cached,
    [opens_ok] for one that has to open the file and is given [fd]. *)
Definition writes_ok (a : os_answers) : Prop :=
  write_ok a = true /\ flush_ok a = true.

Definition opens_ok (fd : handle) (a : os_answers) : Prop :=
  makedirs_ok a = true /\ open_result a = Ok fd.

(** The queue entries for the chunks [contents] of one log file. *)
Definition items_for (path : str) (contents : list str) : list item :=
  (fun content => Some (path, content)) <$> contents.


(** The sanitizer runs for the queue items [items], one run each, ending
    as [runs] say. *)
Definition invocations (items : list (str * str)) (runs : list sanitizer_run)
    : list invocation :=
  zip_with (fun it run => Invocation it.2 it.1 run) items runs.

(** A PTY query after which [_get_terminal_id] falls back to the
    counter. *)
Definition pty_unavailable (query : pty_query) : Prop :=
  match query with
  | PtyError | Pty _ Undecodable => True
  | _ => False
  end.

(** ** The life of a session *)

(** The plugin instance as a whole: the pipeline, the registry of
    identifiers, and [self.log_directory]. *)
Record autologger : Type := AutoLogger {
  core : plugin;
  names : registry;
  log_directory : str
}.

(** A statement on the pipeline, or on the registry, as a statement on
    the instance. *)
Definition in_core {A} (m : M plugin A) : M autologger A :=
  fun self =>
    (AutoLogger (fst (m (core self))) (names self) (log_directory self),
     snd (m (core self))).

Definition in_names {A} (m : M registry A) : M autologger A :=
  fun self =>
    (AutoLogger (core self) (fst (m (names self))) (log_directory self),
     snd (m (names self))).

(** A terminal of the host as the plugin meets it: its widget, what its
    PTY answers, what the widget shows and how many rows it has, and what
    [connect] and [disconnect] of the widget do. *)
Record terminal : Type := Terminal {
  get_vte : vte;
  get_pty : pty_query;
  vte_widget : vte_view;
  get_row_count : result Z;
  connect : result nat;
  disconnect : result unit
}.

(** What the file system answers about a log file: [os.path.exists] and
    [os.path.getsize]. *)
Record file_view : Type := FileView {
  path_exists : str -> bool;
  path_getsize : str -> result Z
}.

(** [f"{self.log_directory}/{terminal_id}_original.log"] and
    [f"{self.log_directory}/{terminal_id}.log"]. *)
Definition original_logfile (dir terminal_id : str) : str :=
  dir ++ lit "/" ++ terminal_id ++ lit "_original.log".

Definition sanitized_logfile (dir terminal_id : str) : str :=
  dir ++ lit "/" ++ terminal_id ++ lit ".log".

(** The banner; [now] is [datetime.now().strftime('%Y-%m-%d %H:%M:%S')]. *)
Definition session_start (now : str) : str :=
  lit "=== Terminal session started at " ++ now ++ lit " ===" ++ [10].

Section Lifecycle.
Local Open Scope py_scope.
Local Open Scope Z_scope.

(** The inner [try] of [_start_logging]: the banner and the snapshot of
    the visible buffer, for a log file that is missing or empty. *)
Definition start_banner (fs : file_view) (now : str) (t : terminal)
    (original sanitized : str) : M autologger unit :=
  try_except
    (size <-
       (if path_exists fs original then call (path_getsize fs original)
        else ret 0) ;;
     if negb (path_exists fs original) || (size =? 0) then
       in_core (put_write (original, session_start now) PUT_TIMEOUT_MS) ;;;
       in_core (put_sanitize (session_start now, sanitized) PUT_TIMEOUT_MS) ;;;
       rows <- call (get_row_count t) ;;
       columns <- call (get_column_count (vte_widget t)) ;;
       let initial_content := _get_content (vte_widget t) 0 0 rows columns in
       if is_empty initial_content then pass
       else
         match content_to_log initial_content with
         | Some initial_log =>
             in_core (put_write (original, initial_log) PUT_TIMEOUT_MS) ;;;
             in_core (put_sanitize (initial_log, sanitized) PUT_TIMEOUT_MS)
         | None => pass
         end
     else pass)
    any_exception
    pass.

Definition _start_logging (fs : file_view) (now : str) (t : terminal)
    : M autologger unit :=
  try_except
    (self <- get ;;
     let vte_terminal := get_vte t in
     match loggers (core self) !! vte_terminal with
     | Some _ => pass
     | None =>
         terminal_id <- in_names (_get_terminal_id (get_pty t) vte_terminal) ;;
         let original := original_logfile (log_directory self) terminal_id in
         let sanitized := sanitized_logfile (log_directory self) terminal_id in
         cursor_pos <- call (get_cursor_position (vte_widget t)) ;;
         let '(initial_col, initial_row) :=
           match cursor_pos with
           | Some position => position
           | None => (0, 0)
           end in
         contents_handler <- call (connect t) ;;
         in_core (modify (with_loggers
                            (insert vte_terminal
                               (LoggerInfo original sanitized terminal_id
                                  initial_col initial_row contents_handler)))) ;;;
         start_banner fs now t original sanitized
     end)
    any_exception
    pass.

(** [_stop_logging(vte_terminal)]; [t] is the terminal of that widget,
    which says what its [disconnect] does. *)
Definition _stop_logging (t : terminal) : M autologger unit :=
  self <- get ;;
  let vte_terminal := get_vte t in
  match loggers (core self) !! vte_terminal with
  | None => pass
  | Some _ =>
      try_except
        (call (disconnect t) ;;;
         in_core (modify (with_loggers (delete vte_terminal))) ;;;
         in_names (modify (with_terminal_ids (delete vte_terminal))))
        any_exception
        pass
  end.

(** The loop of [_check_for_new_terminals] over [Terminator().terminals]. *)
Fixpoint start_new (fs : file_view) (now : str) (terminals : list terminal)
    : M autologger unit :=
  match terminals with
  | [] => pass
  | t :: rest =>
      (self <- get ;;
       match loggers (core self) !! get_vte t with
       | None => _start_logging fs now t
       | Some _ => pass
       end) ;;;
      start_new fs now rest
  end.

Definition _check_for_new_terminals (fs : file_view) (now : str)
    (terminals : result (list terminal)) : M autologger bool :=
  try_except
    (ts <- call terminals ;; start_new fs now ts)
    any_exception
    pass ;;;
  ret true.

End Lifecycle.

(** [os.path.join(a, b)] of [posixpath]. *)
Definition path_join (a b : str) : str :=
  if startswith (lit "/") b then b
  else if is_empty a || endswith (lit "/") a then a ++ b
  else a ++ lit "/" ++ b.

(** The instance after [__init__] has returned.  [tmpdir] is
    [tempfile.gettempdir()], [now] the time as [%Y%m%d_%H%M%S], [known]
    and [timestamp] what the class-level variables hold (a first instance
    sets the session timestamp, a later one finds it and the recorded
    identifiers), and [dir_exists] what [os.path.exists] says of the log
    directory, which is made if it is missing. *)
Definition new_autologger (tmpdir : str) (now : str)
    (known : gmap str str) (timestamp : option str) (dir_exists : bool)
    : autologger :=
  let log_directory := path_join tmpdir (lit "terminator_logs") in
  AutoLogger
    (Plugin ∅ [] [] false ∅
       (if dir_exists then [] else [Makedirs log_directory]) [] 0)
    (Registry ∅ 0 known (default now timestamp))
    log_directory.

(** The sessions of an instance are named by its registry: the record of
    a widget carries the identifier that the registry has cached for it,
    and its log files are the two files of that identifier. *)
Definition sessions_named (self : autologger) : Prop :=
  forall v info,
    loggers (core self) !! v = Some info ->
    terminal_ids (names self) !! v = Some (terminal_id info)
    /\ filepath info = original_logfile (log_directory self) (terminal_id info)
    /\ sanitized_filepath info
       = sanitized_logfile (log_directory self) (terminal_id info).

(** A terminal for the examples: on [/dev/pts/3], showing one finished
    command, with a cursor on row 2. *)
Definition example_terminal : terminal :=
  Terminal 1%nat (Pty 7 (Name (lit "/dev/pts/3")))
    (VteView (Ok (Some (0, 2)%Z)) (Ok 80%Z)
       (fun _ _ _ _ =>
          Ok (PROMPT_TAIL ++ lit " ls" ++ [10] ++ lit "a.txt" ++ [10]
              ++ PROMPT_TAIL ++ lit " ")))
    (Ok 24%Z) (Ok 11%nat) (Ok tt).

Definition example_files : file_view :=
  FileView (fun _ => false) (fun _ => Raise OSError).

Definition example_autologger : autologger :=
  new_autologger (lit "/tmp") (lit "20240101_120000") ∅ None true.

(** ** The life of an instance *)

(** What happens to an instance after [__init__]: the poll looks for new
    terminals, a terminal is started or stopped, a widget reports a
    change of its contents. *)
Inductive lifecycle_op : Type :=
  | Poll (fs : file_view) (now : str) (terminals : result (list terminal))
  | Start (fs : file_view) (now : str) (t : terminal)
  | Stop (t : terminal)
  | Changed (h : vte_view) (v : vte).

Definition lifecycle_step (self : autologger) (op : lifecycle_op)
    : autologger :=
  match op with
  | Poll fs now terminals => fst (_check_for_new_terminals fs now terminals self)
  | Start fs now t => fst (_start_logging fs now t self)
  | Stop t => fst (_stop_logging t self)
  | Changed h v => fst (in_core (_on_contents_changed h v) self)
  end.

Definition run_lifecycle (ops : list lifecycle_op) (self : autologger)
    : autologger :=
  fold_left lifecycle_step ops self.

(** The terminals that an operation hands to [_start_logging]. *)
Definition started_by (op : lifecycle_op) : list terminal :=
  match op with
  | Poll _ _ (Ok terminals) => terminals
  | Start _ _ t => [t]
  | _ => []
  end.

(** The PTY of a widget does not change over a run: every terminal that
    is started answers for its widget as [pty_of] says. *)
Definition ptys_fixed (pty_of : vte -> pty_query) (ops : list lifecycle_op)
    : Prop :=
  Forall (fun op =>
            Forall (fun t => get_pty t = pty_of (get_vte t)) (started_by op))
         ops.

(** A cached identifier of a widget with a PTY path is the one recorded
    for that path. *)
Definition ids_by_path (pty_of : vte -> pty_query) (r : registry) : Prop :=
  forall v id fd p,
    terminal_ids r !! v = Some id ->
    pty_of v = Pty fd (Name p) -> p <> [] ->
    _global_pty_to_terminal_id r !! p = Some id.

(** A terminal whose start cannot register a session: the cursor query or
    [connect] raises. *)
Definition start_fails (t : terminal) : Prop :=
  match get_cursor_position (vte_widget t), connect t with
  | Ok _, Ok _ => False
  | _, _ => True
  end.

(** A terminal that the poll has dealt with: it has a session, or it has
    its identifier and its start fails. *)
Definition settled (t : terminal) (self : autologger) : Prop :=
  loggers (core self) !! get_vte t <> None
  \/ (terminal_ids (names self) !! get_vte t <> None /\ start_fails t).

(** Two states of the instance that differ in the two queues and in the
    time waited only. *)
Definition queues_only (self self' : autologger) : Prop :=
  names self' = names self
  /\ log_directory self' = log_directory self
  /\ loggers (core self') = loggers (core self)
  /\ _shutdown_writer (core self') = _shutdown_writer (core self)
  /\ open_files (core self') = open_files (core self)
  /\ os_log (core self') = os_log (core self)
  /\ sanitizer_log (core self') = sanitizer_log (core self).

(** A statement that touches the queues only, however it ends. *)
Definition enqueues {A} (m : M autologger A) : Prop :=
  forall self, queues_only self (fst (m self)).

(** What the states of a run keep, when the PTY of a widget does not
    change. *)
Definition named_by (pty_of : vte -> pty_query) (self : autologger) : Prop :=
  sessions_named self /\ ids_by_path pty_of (names self).

(** * Properties *)

(** ** Strings *)

Section StringFacts.

Implicit Types (s p k : str) (c : N).

Lemma startswith_spec p s : startswith p s = true <-> exists k, s = p ++ k.
Proof.
  revert s; induction p as [|a p IH]; intros s; simpl.
  - split; eauto.
  - destruct s as [|b s]; simpl.
    + split; [discriminate | intros [k Hk]; discriminate].
    + rewrite andb_true_iff, N.eqb_eq, IH. split.
      * intros [-> [k ->]]. eauto.
      * intros [k Hk]. injection Hk as -> ->. eauto.
Qed.

Lemma startswith_app p k : startswith p (p ++ k) = true.
Proof. apply startswith_spec; eauto. Qed.

Lemma startswith_nil_r p : p <> [] -> startswith p [] = false.
Proof. destruct p; [congruence | reflexivity]. Qed.

Lemma contains_startswith p s : startswith p s = true -> contains p s = true.
Proof. intros H. destruct s; simpl; rewrite H; reflexivity. Qed.

Lemma contains_app p a k : contains p (a ++ p ++ k) = true.
Proof.
  induction a as [|c a IH]; simpl.
  - apply contains_startswith, startswith_app.
  - rewrite IH. apply orb_true_r.
Qed.

Lemma lstrip_idem s : lstrip (lstrip s) = lstrip s.
Proof.
  induction s as [|c s IH]; simpl; [reflexivity|].
  destruct (isspace c) eqn:E; [exact IH | simpl; rewrite E; reflexivity].
Qed.

Lemma rstrip_cons c s :
  rstrip (c :: s) = if is_empty (rstrip s) && isspace c then [] else c :: rstrip s.
Proof. simpl. destruct (rstrip s), (isspace c); reflexivity. Qed.

Lemma rstrip_idem s : rstrip (rstrip s) = rstrip s.
Proof.
  induction s as [|c s IH]; [reflexivity|].
  rewrite rstrip_cons.
  destruct (is_empty (rstrip s) && isspace c) eqn:E; [reflexivity|].
  rewrite rstrip_cons, IH, E. reflexivity.
Qed.

Lemma lstrip_rstrip s : lstrip (rstrip s) = rstrip (lstrip s).
Proof.
  induction s as [|c s IH]; [reflexivity|].
  rewrite rstrip_cons. simpl lstrip at 2.
  destruct (isspace c) eqn:E.
  - rewrite andb_true_r, <- IH.
    destruct (rstrip s) eqn:R; simpl; [reflexivity | rewrite E; reflexivity].
  - rewrite andb_false_r, rstrip_cons, E, andb_false_r.
    simpl. rewrite E. reflexivity.
Qed.

Lemma strip_idem s : strip (strip s) = strip s.
Proof.
  unfold strip. rewrite lstrip_rstrip, rstrip_idem, lstrip_idem.
  reflexivity.
Qed.

Lemma strip_rstrip s : strip (rstrip s) = strip s.
Proof. unfold strip. rewrite lstrip_rstrip, rstrip_idem. reflexivity. Qed.

Lemma rstrip_last s c : last (rstrip s) = Some c -> isspace c = false.
Proof.
  induction s as [|a s IH]; [discriminate|].
  rewrite rstrip_cons.
  destruct (rstrip s) as [|b r] eqn:R; simpl.
  - destruct (isspace a) eqn:E; simpl; [discriminate | congruence].
  - exact IH.
Qed.

Lemma endswith_last p c s : endswith (p ++ [c]) s = true -> last s = Some c.
Proof.
  unfold endswith. rewrite rev_app_distr. simpl.
  destruct (rev s) as [|b r] eqn:R; [discriminate|].
  rewrite andb_true_iff, N.eqb_eq. intros [-> _].
  rewrite <- (rev_involutive s), R. simpl. apply last_snoc.
Qed.

(** After [strip()] no suffix that ends in whitespace is left. *)
Lemma strip_endswith_space p c s :
  isspace c = true -> endswith (p ++ [c]) (strip s) = false.
Proof.
  intros Hc. destruct (endswith (p ++ [c]) (strip s)) eqn:E; [|reflexivity].
  apply endswith_last, rstrip_last in E. congruence.
Qed.

Lemma strip_endswith_dollar s : endswith DOLLAR_SP (strip s) = false.
Proof. apply (strip_endswith_space [36] 32). reflexivity. Qed.

Lemma strip_endswith_hash s : endswith HASH_SP (strip s) = false.
Proof. apply (strip_endswith_space [35] 32). reflexivity. Qed.

Lemma rstrip_nil_strip s : rstrip s = [] -> strip s = [].
Proof. intros H. rewrite <- strip_rstrip, H. reflexivity. Qed.




End StringFacts.

(** ** The matcher decides the language *)

Module RegexFacts.
Import Regex.










End RegexFacts.

(** ** The classifiers *)

Section ClassifierFacts.

Implicit Types (s line : str).

(** What [_looks_like_prompt] computes: after [strip()] the two [endswith]
    tests on a trailing blank cannot succeed. *)
Lemma looks_like_prompt_markers s :
  _looks_like_prompt s =
  negb (is_empty s)
  && (startswith PROMPT_TAIL (strip s)
      || startswith PROMPT_HEAD (strip s)
      || (contains PROMPT_HEAD (strip s) && contains SKULL (strip s))).
Proof.
  unfold _looks_like_prompt.
  rewrite strip_endswith_dollar, strip_endswith_hash.
  destruct (is_empty s); simpl; [reflexivity|].
  rewrite !orb_false_r. reflexivity.
Qed.

Lemma looks_like_prompt_nonempty s : _looks_like_prompt s = true -> strip s <> [].
Proof.
  rewrite looks_like_prompt_markers. intros H E. rewrite E in H.
  destruct s; discriminate.
Qed.

Lemma looks_like_prompt_strip s : _looks_like_prompt (strip s) = _looks_like_prompt s.
Proof.
  rewrite !looks_like_prompt_markers, strip_idem.
  destruct (strip s) eqn:E; [destruct s; reflexivity|].
  destruct s; [discriminate | reflexivity].
Qed.

Lemma is_empty_prompt_strip s : strip s <> [] -> _is_empty_prompt (strip s) = _is_empty_prompt s.
Proof.
  intros H. unfold _is_empty_prompt. rewrite strip_idem.
  destruct (strip s) eqn:E; [congruence|].
  destruct s; [discriminate | reflexivity].
Qed.

Lemma is_partial_command_strip s : _is_partial_command (strip s) = _is_partial_command s.
Proof.
  unfold _is_partial_command. rewrite looks_like_prompt_strip, strip_idem.
  destruct (strip s) eqn:E.
  - destruct s; [reflexivity|]. simpl is_empty.
    rewrite looks_like_prompt_markers, E. reflexivity.
  - destruct s; [discriminate | reflexivity].
Qed.

End ClassifierFacts.

(** ** The filter loop *)

Section FilterFacts.

Implicit Types (st : filter_state) (l e : str) (lines : list str).

Lemma filter_from_app st lines1 lines2 :
  filter_from st (lines1 ++ lines2) = filter_from (filter_from st lines1) lines2.
Proof. apply fold_left_app. Qed.

Lemma filter_step_sound st l e :
  In e (filtered_lines (filter_step st l)) ->
  In e (filtered_lines st) \/ (e = rstrip l /\ kept_line l).
Proof.
  unfold filter_step, kept_line.
  destruct (_is_context_command (strip l)) eqn:Hc; [auto|].
  destruct (skip_until_prompt st).
  - destruct (_looks_like_prompt (strip l)) eqn:Hp; [|auto].
    destruct (_is_empty_prompt (strip l)) eqn:He; [auto|].
    cbn [negb filtered_lines]. rewrite in_app_iff.
    intros [H|[<-|[]]]; [auto|].
    right. split; [reflexivity|]. split; [|auto].
    rewrite <- strip_idem. apply looks_like_prompt_nonempty, Hp.
  - destruct (is_empty (strip l)) eqn:Hs; [auto|].
    destruct (startswith SESSION_MARKER (strip l)) eqn:Hm; [auto|].
    destruct (_is_empty_prompt (strip l)) eqn:He; [auto|].
    destruct (_is_partial_command (strip l)) eqn:Hq; [auto|].
    assert (strip l <> []) by (intros E; rewrite E in Hs; discriminate).
    cbn [negb andb filtered_lines]. rewrite in_app_iff.
    intros [H'|[<-|[]]]; [auto|].
    right. repeat split; auto.
Qed.

Lemma filter_from_sound lines st e :
  In e (filtered_lines (filter_from st lines)) ->
  In e (filtered_lines st) \/ exists l, In l lines /\ e = rstrip l /\ kept_line l.
Proof.
  revert st. induction lines as [|l lines IH]; intros st; simpl; [auto|].
  intros H. apply IH in H as [H|(l' & Hin & He & Hk)].
  - apply filter_step_sound in H as [H|[He Hk]]; [auto|]. right. eauto.
  - right. eauto.
Qed.

(** Every emitted line is a right-trimmed input line that passed the
    checks of the loop. *)
Lemma filter_lines_sound lines e :
  In e (filter_lines lines) ->
  exists l, In l lines /\ e = rstrip l /\ kept_line l.
Proof.
  intros H. apply filter_from_sound in H as [[]|H]. exact H.
Qed.

(** While skipping, a line that is no prompt, or that is itself a
    ["context"] line, leaves the state as it is. *)
Lemma filter_step_skipping acc l :
  _looks_like_prompt (strip l) = false \/ _is_context_command (strip l) = true ->
  filter_step (FilterState true acc) l = FilterState true acc.
Proof.
  unfold filter_step. simpl.
  destruct (_is_context_command (strip l)); [reflexivity|].
  intros [->|?]; [reflexivity | discriminate].
Qed.

Lemma filter_from_skipping acc lines :
  Forall (fun l => _looks_like_prompt (strip l) = false
                   \/ _is_context_command (strip l) = true) lines ->
  filter_from (FilterState true acc) lines = FilterState true acc.
Proof.
  induction 1 as [|l lines Hl _ IH]; simpl; [reflexivity|].
  rewrite filter_step_skipping by exact Hl. exact IH.
Qed.

Lemma filter_step_context st l :
  _is_context_command (strip l) = true ->
  filter_step st l = FilterState true (filtered_lines st).
Proof. unfold filter_step. intros ->. reflexivity. Qed.

End FilterFacts.

(** ** Prompt detection *)

(** C1: the claim says that every line whose text ends in ["$ "] or ["# "]
    is classified as a prompt.  [_looks_like_prompt] strips the line before
    it tests [endswith('$ ')] and [endswith('# ')], so neither test can
    succeed: ordinary shell prompts that end in ["$ "] or ["# "] are not
    classified as prompts. *)
Theorem looks_like_prompt_misses_dollar_and_hash :
  endswith DOLLAR_SP (lit "user@host:~$ ") = true
  /\ _looks_like_prompt (lit "user@host:~$ ") = false
  /\ endswith HASH_SP (lit "root@kali:~# ") = true
  /\ _looks_like_prompt (lit "root@kali:~# ") = false.
Proof. vm_compute. auto. Qed.

(** ** Partial input *)

Lemma is_context_command_strip (line : str) :
  _is_context_command (strip line) = _is_context_command line.
Proof.
  unfold _is_context_command. rewrite strip_idem.
  destruct (strip line) eqn:E; [|destruct line; [discriminate | reflexivity]].
  destruct line; [reflexivity|]. simpl is_empty. cbv iota.
  rewrite looks_like_prompt_markers. reflexivity.
Qed.

(** C6: a line that is no prompt and whose stripped text has at most two
    characters and is not a digit string, or ends in ["_"] or ["|"], is
    classified as partial input and never reaches the emitted lines; a
    line classified as a prompt is never classified as partial. *)
Theorem partial_command_dropped (line : str) :
  (_looks_like_prompt line = false ->
   ((length (strip line) <= 2)%nat /\ isdigit (strip line) = false)
   \/ endswith (lit "_") (strip line) = true
   \/ endswith (lit "|") (strip line) = true ->
   _is_partial_command line = true
   /\ forall lines, ~ In (rstrip line) (filter_lines lines))
  /\ (_looks_like_prompt line = true -> _is_partial_command line = false).
Proof.
  split.
  - intros Hp Hshape.
    assert (Hpart : _is_partial_command line = true).
    { unfold _is_partial_command. rewrite Hp.
      destruct (is_empty line); [reflexivity|].
      destruct Hshape as [[Hlen Hdig]|[H|H]].
      - apply Nat.leb_le in Hlen. rewrite Hlen, Hdig. reflexivity.
      - rewrite H. destruct (_ && _); reflexivity.
      - rewrite H, orb_true_r. destruct (_ && _); reflexivity. }
    split; [exact Hpart|].
    intros lines Hin.
    apply filter_lines_sound in Hin as (l & _ & He & _ & _ & _ & Hk).
    assert (Hs : strip l = strip line)
      by (rewrite <- (strip_rstrip l), <- He, strip_rstrip; reflexivity).
    rewrite Hs, looks_like_prompt_strip, is_partial_command_strip in Hk.
    destruct Hk as [Hk|[_ Hk]]; congruence.
  - intros Hp. unfold _is_partial_command. rewrite Hp.
    destruct line; [discriminate | reflexivity].
Qed.

Lemma partial_command_dropped_witness :
  (_is_partial_command (lit "l") = true
   /\ forall lines, ~ In (rstrip (lit "l")) (filter_lines lines))
  /\ _is_partial_command (PROMPT_TAIL ++ lit " ls") = false.
Proof.
  split.
  - apply (proj1 (partial_command_dropped (lit "l"))).
    + vm_compute. reflexivity.
    + left. vm_compute. split; [lia | reflexivity].
  - apply (proj2 (partial_command_dropped (PROMPT_TAIL ++ lit " ls"))).
    vm_compute. reflexivity.
Defined.

(** ** Excluded commands *)

(** C10: a line that is no prompt and whose stripped text begins with
    ["context"] is classified as an excluded command; the loop drops it,
    enters the skipping state, and drops every following line that is no
    prompt. *)
Theorem context_output_line_starts_skipping
    (line : str) (following : list str) (st : filter_state) :
  _looks_like_prompt line = false ->
  startswith CONTEXT (strip line) = true ->
  Forall (fun l => _looks_like_prompt l = false) following ->
  _is_context_command line = true
  /\ filter_step st line = FilterState true (filtered_lines st)
  /\ filter_from st (line :: following) = FilterState true (filtered_lines st).
Proof.
  intros Hp Hc Hf.
  assert (Hcmd : _is_context_command line = true).
  { unfold _is_context_command.
    rewrite looks_like_prompt_strip, Hp, Hc.
    destruct line; [discriminate Hc | reflexivity]. }
  assert (Hstep : filter_step st line = FilterState true (filtered_lines st)).
  { apply filter_step_context. rewrite is_context_command_strip. exact Hcmd. }
  repeat split; [exact Hcmd | exact Hstep |].
  unfold filter_from. simpl fold_left. rewrite Hstep.
  apply filter_from_skipping.
  eapply Forall_impl; [exact Hf|]. simpl. intros l Hl. left.
  rewrite looks_like_prompt_strip. exact Hl.
Qed.

Lemma context_output_line_starts_skipping_witness :
  _is_context_command (lit "context deadline exceeded") = true
  /\ filter_step (FilterState false [lit "make test"])
       (lit "context deadline exceeded")
     = FilterState true [lit "make test"]
  /\ filter_from (FilterState false [lit "make test"])
       [lit "context deadline exceeded"; lit "FAIL pkg/net"; lit "exit 1"]
     = FilterState true [lit "make test"].
Proof.
  apply (context_output_line_starts_skipping
           (lit "context deadline exceeded")
           [lit "FAIL pkg/net"; lit "exit 1"]
           (FilterState false [lit "make test"])).
  - vm_compute. reflexivity.
  - vm_compute. reflexivity.
  - repeat constructor.
Defined.

(** C4, as amended: after a line classified as an excluded command, that
    line and every following line is dropped up to the next prompt line
    that is not itself an excluded command; that prompt line ends the
    skipping state and is emitted unless it is an empty prompt. *)
Theorem context_exclusion
    (pre : list str) (c : str) (mid : list str) (p : str) (post : list str)
    (st : filter_state) :
  _is_context_command (strip c) = true ->
  Forall (fun l => _looks_like_prompt (strip l) = false
                   \/ _is_context_command (strip l) = true) mid ->
  _looks_like_prompt (strip p) = true ->
  _is_context_command (strip p) = false ->
  filter_from st (pre ++ c :: mid ++ p :: post) =
  filter_from
    (FilterState false
       (filtered_lines (filter_from st pre)
        ++ (if _is_empty_prompt (strip p) then [] else [rstrip p])))
    post.
Proof.
  intros Hc Hmid Hp Hpc.
  rewrite filter_from_app. unfold filter_from at 1. simpl fold_left.
  rewrite (filter_step_context _ c Hc).
  fold (filter_from (FilterState true (filtered_lines (filter_from st pre)))
          (mid ++ p :: post)).
  rewrite filter_from_app, (filter_from_skipping _ mid Hmid).
  unfold filter_from at 1. simpl fold_left. f_equal.
  unfold filter_step. rewrite Hpc, Hp. simpl skip_until_prompt. cbv iota.
  destruct (_is_empty_prompt (strip p)); simpl;
    [rewrite app_nil_r|]; reflexivity.
Qed.

Lemma context_exclusion_witness :
  filter_from (FilterState false [])
    ([lit "whoami"] ++ (PROMPT_TAIL ++ lit " context wipe")
       :: [lit "secret"] ++ (PROMPT_TAIL ++ lit " ls") :: [lit "a.txt"])
  = filter_from
      (FilterState false [lit "whoami"; PROMPT_TAIL ++ lit " ls"])
      [lit "a.txt"].
Proof.
  apply (context_exclusion [lit "whoami"] (PROMPT_TAIL ++ lit " context wipe")
           [lit "secret"] (PROMPT_TAIL ++ lit " ls") [lit "a.txt"]
           (FilterState false [])).
  - vm_compute. reflexivity.
  - repeat constructor.
  - vm_compute. reflexivity.
  - vm_compute. reflexivity.
Defined.

(** C4, as stated, fails: the next prompt line after an excluded command
    can itself be an excluded command.  It is a prompt, it is not an empty
    prompt, and yet it is dropped and the skipping state goes on, so the
    output line after it is dropped too. *)
Lemma context_exclusion_counterexample :
  let c := PROMPT_TAIL ++ lit " context wipe" in
  let p := PROMPT_TAIL ++ lit " context show" in
  _is_context_command (strip c) = true
  /\ _looks_like_prompt (strip (lit "secret")) = false
  /\ _looks_like_prompt (strip p) = true
  /\ _is_empty_prompt (strip p) = false
  /\ filter_from (FilterState false []) [c; lit "secret"; p]
     = FilterState true []
  /\ filter_lines [c; lit "secret"; p; lit "hidden"] = [].
Proof. vm_compute. repeat split; reflexivity. Qed.

(** ** Empty prompts *)

Section EmptyPrompt.











End EmptyPrompt.

Section EmptyPromptShape.

Import Regex.



















End EmptyPromptShape.




(** ** The content-change callback *)

Section CallbackFacts.
Local Open Scope Z_scope.

Lemma enqueue_chunk_unfold l c p :
  enqueue_chunk l c p =
  if full (write_queue p) then (wait PUT_TIMEOUT_MS p, Ok tt)
  else if full (sanitize_queue p) then
    (wait PUT_TIMEOUT_MS
       (with_write_queue (fun q => q ++ [Some (filepath l, c)]) p), Ok tt)
  else
    (with_sanitize_queue (fun q => q ++ [Some (c, sanitized_filepath l)])
       (with_write_queue (fun q => q ++ [Some (filepath l, c)]) p), Ok tt).
Proof.
  unfold enqueue_chunk, try_except, bind, put_write, put_sanitize, ret.
  destruct (full (write_queue p)); [reflexivity|]. cbn [with_write_queue sanitize_queue].
  destruct (full (sanitize_queue p)); reflexivity.
Qed.

Lemma enqueue_chunk_loggers l c p : loggers (fst (enqueue_chunk l c p)) = loggers p.
Proof.
  rewrite enqueue_chunk_unfold.
  destruct (full (write_queue p)), (full (sanitize_queue p)); reflexivity.
Qed.

Lemma enqueue_chunk_ok l c p : snd (enqueue_chunk l c p) = Ok tt.
Proof.
  rewrite enqueue_chunk_unfold.
  destruct (full (write_queue p)), (full (sanitize_queue p)); reflexivity.
Qed.

(** The callback without the monad: its early returns and its one
    update. *)
Lemma on_contents_changed_unfold h v p :
  _on_contents_changed h v p =
  match loggers p !! v with
  | None => (p, Ok tt)
  | Some info =>
      match get_cursor_position h with
      | Ok (Some (col, row)) =>
          if row <=? last_row info then (p, Ok tt)
          else
            match get_column_count h with
            | Ok columns =>
                let current_line := _get_content h row 0 row columns in
                if negb (is_empty current_line)
                   && _looks_like_prompt (strip current_line)
                then
                  let start_row :=
                    Z.max 0 (if 0 <=? last_row info then last_row info else 0) in
                  let new_content := _get_content h start_row 0 row columns in
                  let p1 :=
                    if is_empty new_content then p
                    else match content_to_log new_content with
                         | Some chunk => fst (enqueue_chunk info chunk p)
                         | None => p
                         end in
                  (with_loggers (alter (set_last_row row) v) p1, Ok tt)
                else (p, Ok tt)
            | Raise _ => (p, Ok tt)
            end
      | _ => (p, Ok tt)
      end
  end.
Proof.
  unfold _on_contents_changed, try_except, bind, get, call, ret, modify.
  destruct (loggers p !! v) as [info|]; [|reflexivity].
  destruct (get_cursor_position h) as [[[col row]|]|]; try reflexivity.
  destruct (row <=? last_row info); [reflexivity|].
  destruct (get_column_count h) as [columns|]; [|reflexivity].
  cbv zeta.
  destruct (negb _ && _); [|reflexivity].
  destruct (is_empty (_get_content _ _ _ _ _)); [reflexivity|].
  destruct (content_to_log _) as [chunk|]; [|reflexivity].
  pose proof (enqueue_chunk_ok info chunk p) as Hok.
  destruct (enqueue_chunk info chunk p) as [p1 r]. cbn [snd] in Hok. subst r.
  reflexivity.
Qed.

Lemma on_contents_changed_loggers h v p q :
  loggers q = loggers p ->
  loggers (fst (_on_contents_changed h v q))
  = loggers (fst (_on_contents_changed h v p)).
Proof.
  intros Hq. rewrite !on_contents_changed_unfold, Hq.
  destruct (loggers p !! v) as [info|]; [|exact Hq].
  destruct (get_cursor_position h) as [[[col row]|]|]; try exact Hq.
  destruct (row <=? last_row info); [exact Hq|].
  destruct (get_column_count h) as [columns|]; [|exact Hq].
  cbv zeta.
  destruct (negb _ && _); [|exact Hq].
  cbn [fst with_loggers loggers]. f_equal.
  destruct (is_empty (_get_content _ _ _ _ _)); [exact Hq|].
  destruct (content_to_log _) as [chunk|]; [|exact Hq].
  rewrite !enqueue_chunk_loggers. exact Hq.
Qed.

Lemma on_contents_changed_last_row h v p u info :
  loggers p !! u = Some info ->
  exists info',
    loggers (fst (_on_contents_changed h v p)) !! u = Some info'
    /\ last_row info <= last_row info'.
Proof.
  intros Hu. rewrite on_contents_changed_unfold.
  destruct (loggers p !! v) as [info0|] eqn:Hv; [|exists info; split; [exact Hu | lia]].
  destruct (get_cursor_position h) as [[[col row]|]|];
    try (exists info; split; [exact Hu | lia]).
  destruct (row <=? last_row info0) eqn:Hrow; [exists info; split; [exact Hu | lia]|].
  destruct (get_column_count h) as [columns|];
    [|exists info; split; [exact Hu | lia]].
  cbv zeta.
  destruct (negb _ && _); [|exists info; split; [exact Hu | lia]].
  cbn [fst with_loggers loggers].
  assert (Hl : forall p1, loggers p1 = loggers p ->
            exists info',
              alter (set_last_row row) v (loggers p1) !! u = Some info'
              /\ last_row info <= last_row info').
  { intros p1 ->. destruct (decide (v = u)) as [->|Hne].
    - rewrite lookup_alter_eq, Hu. cbn. eexists; split; [reflexivity|].
      assert (info0 = info) by congruence. subst. cbn. apply Z.leb_gt in Hrow. lia.
    - rewrite lookup_alter_ne by exact Hne. exists info; split; [exact Hu | lia]. }
  destruct (is_empty (_get_content _ _ _ _ _)); [apply Hl; reflexivity|].
  destruct (content_to_log _) as [chunk|]; [|apply Hl; reflexivity].
  apply Hl, enqueue_chunk_loggers.
Qed.

End CallbackFacts.

(** C3: across every sequence of content-change callbacks the recorded
    [last_row] of a session never decreases. *)
Theorem last_row_monotone
    (events : list (vte_view * vte)) (p : plugin) (v : vte) (info : logger_info) :
  loggers p !! v = Some info ->
  exists info',
    loggers (run_callbacks events p) !! v = Some info'
    /\ (last_row info <= last_row info')%Z.
Proof.
  revert p info. induction events as [|[h u] events IH]; intros p info Hv.
  - exists info. split; [exact Hv | lia].
  - cbn [run_callbacks].
    destruct (on_contents_changed_last_row h u p v info Hv) as (info1 & H1 & Hle).
    destruct (IH _ _ H1) as (info2 & H2 & Hle2).
    exists info2. split; [exact H2 | lia].
Qed.

Lemma last_row_monotone_witness :
  exists info',
    loggers (run_callbacks [(example_view, 1%nat); (example_view, 1%nat)]
               (example_plugin [] [])) !! 1%nat = Some info'
    /\ (3 <= last_row info')%Z.
Proof.
  apply (last_row_monotone [(example_view, 1%nat); (example_view, 1%nat)]
           (example_plugin [] []) 1%nat example_logger).
  reflexivity.
Defined.

(** ** Backpressure *)

Section Backpressure.

Local Ltac keep_queue := exists []; symmetry; apply app_nil_r.

Lemma enqueue_or_drop_refl budget p : enqueue_or_drop budget p p.
Proof. unfold enqueue_or_drop. repeat split; try lia; keep_queue. Qed.

Lemma enqueue_or_drop_loggers budget f p p1 :
  enqueue_or_drop budget p p1 ->
  enqueue_or_drop budget p (with_loggers f p1).
Proof. intros H. exact H. Qed.

Lemma enqueue_chunk_policy l c p :
  enqueue_or_drop PUT_TIMEOUT_MS p (fst (enqueue_chunk l c p)).
Proof.
  unfold enqueue_or_drop. rewrite enqueue_chunk_unfold.
  destruct (full (write_queue p)) eqn:Hw;
    [|destruct (full (sanitize_queue p)) eqn:Hs];
    cbn [fst wait with_write_queue with_sanitize_queue waited_ms write_queue
         sanitize_queue _shutdown_writer open_files os_log sanitizer_log];
    unfold PUT_TIMEOUT_MS;
    repeat split; try lia; try discriminate; eauto; keep_queue.
Qed.

Lemma on_contents_changed_policy h v :
  drops_when_full PUT_TIMEOUT_MS (_on_contents_changed h v).
Proof.
  intros p.
  split; [|split; [|intros q; apply on_contents_changed_loggers]];
    rewrite on_contents_changed_unfold;
    destruct (loggers p !! v) as [info|];
    try destruct (get_cursor_position h) as [[[col row]|]|];
    try destruct (row <=? last_row info)%Z;
    try destruct (get_column_count h) as [columns|];
    cbv zeta;
    try destruct (negb _ && _);
    try reflexivity; try apply enqueue_or_drop_refl.
  cbn [fst]. apply enqueue_or_drop_loggers.
  destruct (is_empty (_get_content _ _ _ _ _)); [apply enqueue_or_drop_refl|].
  destruct (content_to_log _); [|apply enqueue_or_drop_refl].
  apply enqueue_chunk_policy.
Qed.

Lemma write_to_log_unfold v text p :
  _write_to_log v text p =
  if is_empty text || is_empty (strip text) then (p, Ok tt)
  else
    match loggers p !! v with
    | None => (p, Ok tt)
    | Some info =>
        if is_empty (filepath info) then (p, Ok tt)
        else if full (write_queue p) then (wait PUT_TIMEOUT_MS p, Ok tt)
        else (with_write_queue
                (fun q => q ++ [Some (filepath info, strip text ++ [10])]) p,
              Ok tt)
    end.
Proof.
  unfold _write_to_log, try_except, bind, get, ret, put_write.
  destruct (is_empty text || is_empty (strip text)) eqn:E; [reflexivity|].
  apply orb_false_iff in E as [_ E].
  destruct (loggers p !! v) as [info|]; [|reflexivity].
  destruct (is_empty (filepath info)); [reflexivity|]. rewrite E.
  destruct (full (write_queue p)); reflexivity.
Qed.

Lemma write_to_log_policy v text :
  drops_when_full PUT_TIMEOUT_MS (_write_to_log v text).
Proof.
  intros p.
  assert (Hl : forall q, loggers (fst (_write_to_log v text q)) = loggers q).
  { intros q. rewrite write_to_log_unfold.
    destruct (is_empty text || is_empty (strip text)); [reflexivity|].
    destruct (loggers q !! v) as [info|]; [|reflexivity].
    destruct (is_empty (filepath info)); [reflexivity|].
    destruct (full (write_queue q)); reflexivity. }
  split; [|split; [|intros q Hq; rewrite !Hl; exact Hq]];
    rewrite write_to_log_unfold;
    destruct (is_empty text || is_empty (strip text));
    try destruct (loggers p !! v) as [info|];
    try destruct (is_empty (filepath info));
    try destruct (full (write_queue p)) eqn:Hw;
    try reflexivity; try apply enqueue_or_drop_refl;
    unfold enqueue_or_drop;
    cbn [fst wait with_write_queue waited_ms write_queue
         sanitize_queue _shutdown_writer open_files os_log sanitizer_log];
    unfold PUT_TIMEOUT_MS;
    repeat split; try lia; try congruence; eauto; keep_queue.
Qed.

End Backpressure.

(** C9: every chunk enqueue, in [_on_contents_changed] on either queue and
    in [_write_to_log], follows the drop policy: when the queue is full
    the call waits for the 100 ms timeout at most, drops the item, returns
    without an exception, and leaves the queues' contents and the rest of
    the state as they are. *)
Theorem chunk_enqueue_drops_when_full
    (h : vte_view) (vte_terminal : vte) (text : str) :
  drops_when_full PUT_TIMEOUT_MS (_on_contents_changed h vte_terminal)
  /\ drops_when_full PUT_TIMEOUT_MS (_write_to_log vte_terminal text).
Proof.
  split; [apply on_contents_changed_policy | apply write_to_log_policy].
Qed.

Lemma chunk_enqueue_drops_when_full_witness :
  let busy := replicate 1000 (Some (lit "f", lit "x")) in
  let p := example_plugin busy [] in
  let p' := fst (_on_contents_changed example_view 1%nat p) in
  snd (_on_contents_changed example_view 1%nat p) = Ok tt
  /\ waited_ms p' <= waited_ms p + PUT_TIMEOUT_MS
  /\ write_queue p' = busy
  /\ sanitize_queue p' = [].
Proof.
  cbv zeta.
  destruct (proj1 (chunk_enqueue_drops_when_full example_view 1%nat [])
              (example_plugin (replicate 1000 (Some (lit "f", lit "x"))) []))
    as (Hok & (Hwait & _ & _ & Hfull & _) & _).
  split; [exact Hok|]. split; [exact Hwait|].
  apply Hfull. reflexivity.
Defined.

(** With room in both queues the same callback enqueues the chunk on both
    and moves [last_row] to the cursor row. *)
Example on_contents_changed_enqueues :
  let p' := fst (_on_contents_changed example_view 1%nat (example_plugin [] [])) in
  write_queue p'
  = [Some (lit "/tmp/terminator_logs/t_original.log",
           PROMPT_TAIL ++ lit " ls" ++ [10] ++ lit "a.txt" ++ [10])]
  /\ sanitize_queue p'
     = [Some (PROMPT_TAIL ++ lit " ls" ++ [10] ++ lit "a.txt" ++ [10],
              lit "/tmp/terminator_logs/t.log")]
  /\ last_row <$> loggers p' !! 1%nat = Some 7%Z.
Proof. vm_compute. repeat split. Qed.

(** ** The sanitizer thread *)

Section SanitizerFacts.

Lemma is_empty_false (s : str) : s <> [] -> is_empty s = false.
Proof. destruct s; [congruence | reflexivity]. Qed.

(** A turn of the loop on a well-formed item: the item leaves the queue
    and the sanitizer is invoked once, however that run ends. *)
Lemma async_sanitizer_iteration_item run content out rest p :
  _shutdown_writer p = false ->
  sanitize_queue p = Some (content, out) :: rest ->
  content <> [] -> out <> [] ->
  _async_sanitizer_iteration run p
  = (log_sanitizer (Invocation out content run)
       (with_sanitize_queue (drop 1) p), Ok Continue).
Proof.
  intros Hs Hq Hc Ho.
  unfold _async_sanitizer_iteration, try_except, bind, get, ret, modify,
    sanitize, raise.
  rewrite Hs, Hq, (is_empty_false _ Hc), (is_empty_false _ Ho).
  destruct run; reflexivity.
Qed.

Local Ltac same_turn new :=
  cbn;
  repeat match goal with H : sanitize_queue _ = _ |- _ => rewrite H end;
  split; [reflexivity | split; [reflexivity|]];
  exists new; rewrite ?app_nil_r; split; reflexivity.

(** What a turn does depends on the plugin only through the sanitizer
    queue and the shutdown flag. *)
Lemma async_sanitizer_iteration_same run p1 p2 :
  sanitize_queue p1 = sanitize_queue p2 ->
  _shutdown_writer p1 = _shutdown_writer p2 ->
  snd (_async_sanitizer_iteration run p1) = snd (_async_sanitizer_iteration run p2)
  /\ sanitize_queue (fst (_async_sanitizer_iteration run p1))
     = sanitize_queue (fst (_async_sanitizer_iteration run p2))
  /\ exists new,
       sanitizer_log (fst (_async_sanitizer_iteration run p1))
       = sanitizer_log p1 ++ new
       /\ sanitizer_log (fst (_async_sanitizer_iteration run p2))
          = sanitizer_log p2 ++ new.
Proof.
  intros Hq Hs.
  unfold _async_sanitizer_iteration, try_except, bind, get, ret, modify,
    sanitize, raise.
  rewrite Hs, Hq.
  destruct (_shutdown_writer p2); [same_turn (@nil invocation)|].
  destruct (sanitize_queue p2) as [|[[content out]|] rest] eqn:E;
    [same_turn (@nil invocation) | | same_turn (@nil invocation)].
  destruct (is_empty content || is_empty out); [same_turn (@nil invocation)|].
  destruct run as [| |code];
    [ same_turn [Invocation out content SpawnError]
    | same_turn [Invocation out content TimedOut]
    | same_turn [Invocation out content (Exited code)] ].
Qed.

End SanitizerFacts.

(** C7: when the sanitizer fails for the item at the head of the queue
    (spawn error, timeout or non-zero exit), the consumer returns without
    an exception and goes on with the loop; the item has left the queue
    and was handed to the sanitizer exactly once; the raw pipeline and the
    session records are as before; and the next turn does what it would
    have done after a successful run. *)
Theorem sanitizer_failure_isolated
    (run : sanitizer_run) (content out : str) (rest : list item)
    (script : list sanitizer_run) (p : plugin) :
  failed run ->
  _shutdown_writer p = false ->
  sanitize_queue p = Some (content, out) :: rest ->
  content <> [] -> out <> [] ->
  let p' := fst (_async_sanitizer_iteration run p) in
  let p_ok := fst (_async_sanitizer_iteration (Exited 0) p) in
  snd (_async_sanitizer_iteration run p) = Ok Continue
  /\ sanitize_queue p' = rest
  /\ sanitizer_log p' = sanitizer_log p ++ [Invocation out content run]
  /\ raw_pipeline p' = raw_pipeline p
  /\ loggers p' = loggers p
  /\ _async_sanitizer (run :: script) p = _async_sanitizer script p'
  /\ forall next,
       snd (_async_sanitizer_iteration next p')
       = snd (_async_sanitizer_iteration next p_ok)
       /\ sanitize_queue (fst (_async_sanitizer_iteration next p'))
          = sanitize_queue (fst (_async_sanitizer_iteration next p_ok))
       /\ exists new,
            sanitizer_log (fst (_async_sanitizer_iteration next p'))
            = sanitizer_log p' ++ new
            /\ sanitizer_log (fst (_async_sanitizer_iteration next p_ok))
               = sanitizer_log p_ok ++ new.
Proof.
  intros _ Hs Hq Hc Ho. cbv zeta.
  cbn [_async_sanitizer].
  rewrite !(async_sanitizer_iteration_item _ content out rest p Hs Hq Hc Ho).
  cbn [fst snd log_sanitizer with_sanitize_queue sanitize_queue sanitizer_log
       loggers raw_pipeline write_queue open_files os_log].
  rewrite Hq. repeat split.
  all: apply async_sanitizer_iteration_same; reflexivity.
Qed.

Lemma sanitizer_failure_isolated_witness :
  let p := Plugin ∅ [Some (lit "/tmp/t_original.log", lit "id")]
             [Some (lit "export TOKEN=abc", lit "/tmp/t.log");
              Some (lit "ls", lit "/tmp/t.log")]
             false ∅ [] [] 0 in
  _async_sanitizer [Exited 1; Exited 0] p
  = (Plugin ∅ [Some (lit "/tmp/t_original.log", lit "id")] []
       false ∅ []
       [Invocation (lit "/tmp/t.log") (lit "export TOKEN=abc") (Exited 1);
        Invocation (lit "/tmp/t.log") (lit "ls") (Exited 0)] 0,
     Continue).
Proof.
  cbv zeta.
  rewrite (proj1 (proj2 (proj2 (proj2 (proj2 (proj2
    (sanitizer_failure_isolated (Exited 1) (lit "export TOKEN=abc")
       (lit "/tmp/t.log") [Some (lit "ls", lit "/tmp/t.log")] [Exited 0]
       (Plugin ∅ [Some (lit "/tmp/t_original.log", lit "id")]
          [Some (lit "export TOKEN=abc", lit "/tmp/t.log");
           Some (lit "ls", lit "/tmp/t.log")]
          false ∅ [] [] 0)
       ltac:(simpl; lia) eq_refl eq_refl ltac:(discriminate)
       ltac:(discriminate)))))))).
  reflexivity.
Defined.

(** ** The writer thread *)

Section DictFacts.

Context {V : Type}.
Implicit Types (d : dict V) (l : list (str * V)) (k : str) (v : V).

Lemma entries_get_set_eq l k v : entries_get k (entries_set k v l) = Some v.
Proof.
  induction l as [|[k' v'] l IH]; cbn [entries_set entries_get].
  - rewrite bool_decide_eq_true_2 by reflexivity. reflexivity.
  - destruct (bool_decide (k' = k)) eqn:E; cbn [entries_get]; rewrite E;
      [reflexivity | exact IH].
Qed.

Lemma entries_get_set_ne l k k' v :
  k <> k' -> entries_get k' (entries_set k v l) = entries_get k' l.
Proof.
  intros Hne. induction l as [|[k0 v0] l IH]; cbn [entries_set entries_get].
  - rewrite bool_decide_eq_false_2 by exact Hne. reflexivity.
  - destruct (bool_decide (k0 = k)) eqn:E; cbn [entries_get];
      [|rewrite IH; reflexivity].
    apply bool_decide_eq_true in E as ->.
    rewrite !bool_decide_eq_false_2 by exact Hne. reflexivity.
Qed.

Lemma entries_get_del_eq l k : entries_get k (entries_del k l) = None.
Proof.
  induction l as [|[k' v'] l IH]; cbn [entries_del entries_get]; [reflexivity|].
  destruct (bool_decide (k' = k)) eqn:E; cbn [entries_get]; rewrite ?E; exact IH.
Qed.

Lemma entries_get_del_ne l k k' :
  k <> k' -> entries_get k' (entries_del k l) = entries_get k' l.
Proof.
  intros Hne. induction l as [|[k0 v0] l IH]; cbn [entries_del entries_get];
    [reflexivity|].
  destruct (bool_decide (k0 = k)) eqn:E; cbn [entries_get]; rewrite IH.
  - apply bool_decide_eq_true in E as ->.
    rewrite bool_decide_eq_false_2 by exact Hne. reflexivity.
  - reflexivity.
Qed.

Lemma entries_del_set_eq l k v : entries_del k (entries_set k v l) = entries_del k l.
Proof.
  induction l as [|[k' v'] l IH]; cbn [entries_set entries_del].
  - rewrite bool_decide_eq_true_2 by reflexivity. reflexivity.
  - destruct (bool_decide (k' = k)) eqn:E; cbn [entries_del]; rewrite E;
      [reflexivity | rewrite IH; reflexivity].
Qed.

Lemma dict_lookup_empty k : (∅ : dict V) !! k = None.
Proof. reflexivity. Qed.

Lemma dict_lookup_insert_eq d k v : <[k := v]> d !! k = Some v.
Proof. apply entries_get_set_eq. Qed.

Lemma dict_lookup_insert_ne d k k' v : k <> k' -> <[k := v]> d !! k' = d !! k'.
Proof. apply entries_get_set_ne. Qed.

Lemma dict_lookup_delete_eq d k : delete k d !! k = None.
Proof. apply entries_get_del_eq. Qed.

Lemma dict_lookup_delete_ne d k k' : k <> k' -> delete k d !! k' = d !! k'.
Proof. apply entries_get_del_ne. Qed.

Lemma dict_delete_insert_eq d k v : delete k (<[k := v]> d) = delete k d.
Proof.
  unfold delete, dict_delete, insert, dict_insert. cbn [dict_items].
  rewrite entries_del_set_eq. reflexivity.
Qed.

(** A key that is not there goes to the end. *)
Lemma dict_values_insert_new d k v :
  d !! k = None -> values (<[k := v]> d) = values d ++ [v].
Proof.
  unfold values, lookup, dict_lookup, insert, dict_insert. cbn [dict_items].
  induction (dict_items d) as [|[k' v'] l IH]; cbn [entries_get entries_set];
    [reflexivity|].
  destruct (bool_decide (k' = k)); [discriminate|].
  intros H. cbn. rewrite IH by exact H. reflexivity.
Qed.

End DictFacts.

Section WriterFacts.

Local Ltac run_monad :=
  unfold write_item, try_except, bind, get, ret, modify, os_do, call, raise,
    any_exception;
  cbn [fst snd open_files with_open_files log_os write_queue with_write_queue
       _shutdown_writer os_log].

(** [write_item] handles every exception itself. *)
Lemma write_item_ok a path content p : snd (write_item a path content p) = Ok tt.
Proof.
  run_monad.
  destruct (open_files p !! path) as [fd|] eqn:E; cbn; rewrite ?E; cbn.
  - destruct (write_ok a); cbn; rewrite ?E; cbn;
      [destruct (flush_ok a); cbn; rewrite ?E; cbn|];
      try destruct (close_ok a); reflexivity.
  - destruct (makedirs_ok a); cbn; rewrite ?E; [|reflexivity].
    destruct (open_result a) as [fd|e]; cbn; rewrite ?E; [|reflexivity].
    rewrite !dict_lookup_insert_eq.
    destruct (write_ok a); cbn; rewrite ?dict_lookup_insert_eq; cbn;
      [destruct (flush_ok a); cbn; rewrite ?dict_lookup_insert_eq; cbn|];
      try destruct (close_ok a); reflexivity.
Qed.

(** [write_item] without the monad.  [written] is the state after a
    [write] and [flush] on the handle [fd]; when either raises, the handler
    closes that handle and removes it from the cache. *)
Lemma write_item_unfold a path content p :
  let written fd p0 :=
    if write_ok a then
      if flush_ok a then log_os (Flush fd) (log_os (Write fd content) p0)
      else with_open_files (delete path)
             (log_os (Close fd)
                (log_os (Flush fd) (log_os (Write fd content) p0)))
    else with_open_files (delete path)
           (log_os (Close fd) (log_os (Write fd content) p0)) in
  fst (write_item a path content p) =
  match open_files p !! path with
  | Some fd => written fd p
  | None =>
      if makedirs_ok a then
        match open_result a with
        | Ok fd =>
            written fd
              (with_open_files (insert path fd)
                 (log_os (OpenAppend path)
                    (log_os (Makedirs (dirname path)) p)))
        | Raise _ =>
            log_os (OpenAppend path) (log_os (Makedirs (dirname path)) p)
        end
      else log_os (Makedirs (dirname path)) p
  end.
Proof.
  cbv zeta. run_monad.
  destruct (open_files p !! path) as [fd|] eqn:E; cbn; rewrite ?E; cbn.
  - destruct (write_ok a); cbn; rewrite ?E; cbn;
      [destruct (flush_ok a); cbn; rewrite ?E; cbn|];
      try destruct (close_ok a); reflexivity.
  - destruct (makedirs_ok a); cbn; rewrite ?E; [|reflexivity].
    destruct (open_result a) as [fd|e]; cbn; rewrite ?E; [|reflexivity].
    rewrite !dict_lookup_insert_eq.
    destruct (write_ok a); cbn; rewrite ?dict_lookup_insert_eq; cbn;
      [destruct (flush_ok a); cbn; rewrite ?dict_lookup_insert_eq; cbn|];
      try destruct (close_ok a); reflexivity.
Qed.

(** A turn of the writer loop on a well-formed item. *)
Lemma async_writer_iteration_item a path content rest p :
  _shutdown_writer p = false ->
  write_queue p = Some (path, content) :: rest ->
  path <> [] -> content <> [] ->
  _async_writer_iteration a p
  = (fst (write_item a path content (with_write_queue (drop 1) p)),
     Ok Continue).
Proof.
  intros Hs Hq Hp Hc.
  unfold _async_writer_iteration, try_except, bind, get, ret, modify at 1.
  rewrite Hs, Hq.
  unfold modify. rewrite (is_empty_false _ Hp), (is_empty_false _ Hc).
  cbn [orb].
  pose proof (write_item_ok a path content (with_write_queue (drop 1) p)) as Hok.
  destruct (write_item a path content (with_write_queue (drop 1) p)) as [p' r].
  cbn [snd] in Hok. subst r. reflexivity.
Qed.

(** A turn on an item with an empty field only removes it. *)
Lemma async_writer_iteration_skip a path content rest p :
  _shutdown_writer p = false ->
  write_queue p = Some (path, content) :: rest ->
  is_empty path || is_empty content = true ->
  _async_writer_iteration a p = (with_write_queue (drop 1) p, Ok Continue).
Proof.
  intros Hs Hq He.
  unfold _async_writer_iteration, try_except, bind, get, ret, modify.
  rewrite Hs, Hq, He. reflexivity.
Qed.

(** [write_item] leaves the queue and the flag alone, and in the cache it
    touches the entry of its own path only. *)
Lemma write_item_frame a path content p :
  let p' := fst (write_item a path content p) in
  write_queue p' = write_queue p
  /\ _shutdown_writer p' = _shutdown_writer p
  /\ forall q, q <> path -> open_files p' !! q = open_files p !! q.
Proof.
  cbv zeta. rewrite write_item_unfold. cbv zeta.
  destruct (open_files p !! path) as [fd|];
    [|destruct (makedirs_ok a); [destruct (open_result a) as [fd|e]|]];
    try destruct (write_ok a); try destruct (flush_ok a);
    cbn [write_queue _shutdown_writer open_files log_os with_open_files];
    (split; [reflexivity | split; [reflexivity|]]);
    intros q Hq; rewrite ?dict_lookup_delete_ne, ?dict_lookup_insert_ne by congruence;
    reflexivity.
Qed.

(** Turns on items for other paths: they are consumed in order and the
    cache entry of [path] stays as it is. *)
Lemma async_writer_others path others : forall answers tail p,
  _shutdown_writer p = false ->
  write_queue p = (Some <$> others) ++ tail ->
  Forall (fun it : str * str => it.1 <> path) others ->
  length answers = length others ->
  let p2 := fst (_async_writer answers p) in
  _shutdown_writer p2 = false
  /\ write_queue p2 = tail
  /\ open_files p2 !! path = open_files p !! path.
Proof.
  induction others as [|[q c] others IH]; intros answers tail p Hs Hq Ho Hlen.
  - destruct answers; [|discriminate]. cbn. auto.
  - destruct answers as [|a answers]; [discriminate|].
    injection Hlen as Hlen. inversion Ho as [|? ? Hne Ho']; subst.
    cbn [fmap list_fmap app] in Hq. cbn [_async_writer].
    destruct (is_empty q || is_empty c) eqn:He.
    + rewrite (async_writer_iteration_skip a q c _ p Hs Hq He).
      cbv beta iota.
      destruct (IH answers tail (with_write_queue (drop 1) p))
        as (R1 & R2 & R3); [exact Hs | | exact Ho' | exact Hlen |].
      * cbn. rewrite Hq. reflexivity.
      * split; [exact R1 | split; [exact R2 | exact R3]].
    + apply orb_false_iff in He as [Hq1 Hc1].
      rewrite (async_writer_iteration_item a q c _ p Hs Hq)
        by (intros ->; discriminate).
      cbv beta iota.
      destruct (write_item_frame a q c (with_write_queue (drop 1) p))
        as (Fq & Fs & Fo).
      destruct (IH answers tail
                  (fst (write_item a q c (with_write_queue (drop 1) p))))
        as (R1 & R2 & R3); [| | exact Ho' | exact Hlen |].
      * rewrite Fs. exact Hs.
      * rewrite Fq. cbn. rewrite Hq. reflexivity.
      * split; [exact R1 | split; [exact R2|]].
        rewrite R3, Fo by (cbn in Hne; congruence). reflexivity.
Qed.

End WriterFacts.

(** C8: when the write (or flush) for the item at the head of the queue
    raises, the consumer goes on with the loop; only the handle cached for
    that path is closed and taken out of the cache; items for other paths
    leave that entry out of the cache; and the next item for the same path
    re-opens the file in append mode and is written through the new
    handle. *)
Theorem write_error_recovers
    (a a2 : os_answers) (path content content2 : str) (fd fd2 : handle)
    (others : list (str * str)) (answers : list os_answers)
    (rest : list item) (p : plugin) :
  _shutdown_writer p = false ->
  write_queue p
  = Some (path, content) :: (Some <$> others) ++ Some (path, content2) :: rest ->
  path <> [] -> content <> [] -> content2 <> [] ->
  (open_files p !! path = Some fd
   \/ (open_files p !! path = None
       /\ makedirs_ok a = true /\ open_result a = Ok fd)) ->
  (write_ok a = false \/ flush_ok a = false) ->
  Forall (fun it : str * str => it.1 <> path) others ->
  length answers = length others ->
  makedirs_ok a2 = true -> open_result a2 = Ok fd2 ->
  write_ok a2 = true -> flush_ok a2 = true ->
  let p1 := fst (_async_writer_iteration a p) in
  let p2 := fst (_async_writer answers p1) in
  let p3 := fst (_async_writer_iteration a2 p2) in
  snd (_async_writer_iteration a p) = Ok Continue
  /\ open_files p1 = delete path (open_files p)
  /\ (exists calls,
        os_log p1 = os_log p ++ calls ++ [Close fd]
        /\ Forall (fun c => forall h, c <> Close h) calls)
  /\ open_files p2 !! path = None
  /\ write_queue p2 = Some (path, content2) :: rest
  /\ snd (_async_writer_iteration a2 p2) = Ok Continue
  /\ os_log p3
     = os_log p2 ++ [Makedirs (dirname path); OpenAppend path;
                     Write fd2 content2; Flush fd2]
  /\ open_files p3 = <[path := fd2]> (open_files p2).
Proof.
  intros Hs Hq Hp Hc Hc2 Hfd Hfail Ho Hlen Hmk Hop Hwr Hfl. cbv zeta.
  rewrite (async_writer_iteration_item a path content _ p Hs Hq Hp Hc).
  cbn [fst snd].
  set (p0 := with_write_queue (drop 1) p).
  assert (Hp1 : open_files (fst (write_item a path content p0))
                = delete path (open_files p)
                /\ exists calls,
                     os_log (fst (write_item a path content p0))
                     = os_log p ++ calls ++ [Close fd]
                     /\ Forall (fun c => forall h, c <> Close h) calls).
  { rewrite write_item_unfold. cbv zeta. subst p0.
    cbn [open_files with_write_queue].
    destruct Hfd as [E|(E & Hm & Hopen)]; rewrite E; [|rewrite Hm, Hopen].
    - destruct Hfail as [Hw|Hf].
      + rewrite Hw. cbn. split; [reflexivity|].
        exists [Write fd content]. rewrite <- app_assoc.
        split; [reflexivity | repeat constructor; discriminate].
      + rewrite Hf. destruct (write_ok a); cbn; (split; [reflexivity|]).
        * exists [Write fd content; Flush fd]. rewrite <- !app_assoc.
          split; [reflexivity | repeat constructor; discriminate].
        * exists [Write fd content]. rewrite <- app_assoc.
          split; [reflexivity | repeat constructor; discriminate].
    - destruct Hfail as [Hw|Hf].
      + rewrite Hw. cbn. split; [apply dict_delete_insert_eq|].
        exists [Makedirs (dirname path); OpenAppend path; Write fd content].
        rewrite <- !app_assoc.
        split; [reflexivity | repeat constructor; discriminate].
      + rewrite Hf. destruct (write_ok a); cbn;
          (split; [apply dict_delete_insert_eq|]).
        * exists [Makedirs (dirname path); OpenAppend path;
                  Write fd content; Flush fd].
          rewrite <- !app_assoc.
          split; [reflexivity | repeat constructor; discriminate].
        * exists [Makedirs (dirname path); OpenAppend path; Write fd content].
          rewrite <- !app_assoc.
          split; [reflexivity | repeat constructor; discriminate]. }
  destruct Hp1 as [Hcache Hlog].
  destruct (write_item_frame a path content p0) as (Fq & Fs & _).
  destruct (async_writer_others path others answers
              (Some (path, content2) :: rest)
              (fst (write_item a path content p0)))
    as (R1 & R2 & R3); [| | exact Ho | exact Hlen |].
  { rewrite Fs. exact Hs. }
  { rewrite Fq. subst p0. cbn. rewrite Hq. reflexivity. }
  rewrite Hcache, dict_lookup_delete_eq in R3.
  set (p1 := fst (write_item a path content p0)) in *.
  set (p2 := fst (_async_writer answers p1)) in *.
  rewrite (async_writer_iteration_item a2 path content2 rest p2 R1 R2 Hp Hc2).
  cbn [fst snd].
  repeat (split; [first [reflexivity | assumption]|]).
  rewrite write_item_unfold. cbv zeta.
  cbn [open_files with_write_queue]. rewrite R3, Hmk, Hop, Hwr, Hfl.
  cbn. rewrite <- !app_assoc. auto.
Qed.

Lemma write_error_recovers_witness :
  let a := OsAnswers true (Ok 9%nat) false true true in
  let a2 := OsAnswers true (Ok 7%nat) true true true in
  let p := Plugin ∅
             [Some (lit "/tmp/a.log", lit "one");
              Some (lit "/tmp/b.log", lit "x");
              Some (lit "/tmp/a.log", lit "two")]
             [] false {[ lit "/tmp/a.log" := 5%nat ]} [] [] 0 in
  let p1 := fst (_async_writer_iteration a p) in
  let p2 := fst (_async_writer [a2] p1) in
  let p3 := fst (_async_writer_iteration a2 p2) in
  snd (_async_writer_iteration a p) = Ok Continue
  /\ open_files p1 = delete (lit "/tmp/a.log") (open_files p)
  /\ (exists calls,
        os_log p1 = os_log p ++ calls ++ [Close 5%nat]
        /\ Forall (fun c => forall h, c <> Close h) calls)
  /\ open_files p2 !! lit "/tmp/a.log" = None
  /\ write_queue p2 = Some (lit "/tmp/a.log", lit "two") :: []
  /\ snd (_async_writer_iteration a2 p2) = Ok Continue
  /\ os_log p3
     = os_log p2 ++ [Makedirs (dirname (lit "/tmp/a.log"));
                     OpenAppend (lit "/tmp/a.log");
                     Write 7%nat (lit "two"); Flush 7%nat]
  /\ open_files p3 = <[lit "/tmp/a.log" := 7%nat]> (open_files p2).
Proof.
  cbv zeta.
  apply (write_error_recovers
           (OsAnswers true (Ok 9%nat) false true true)
           (OsAnswers true (Ok 7%nat) true true true)
           (lit "/tmp/a.log") (lit "one") (lit "two") 5%nat 7%nat
           [(lit "/tmp/b.log", lit "x")]
           [OsAnswers true (Ok 7%nat) true true true] []).
  - reflexivity.
  - reflexivity.
  - discriminate.
  - discriminate.
  - discriminate.
  - left. reflexivity.
  - left. reflexivity.
  - constructor; [|constructor]. vm_compute. discriminate.
  - reflexivity.
  - reflexivity.
  - reflexivity.
  - reflexivity.
  - reflexivity.
Defined.

(** The log of the writer in that run: the failed write closes handle 5,
    the item for the other path opens its own file, and the second item
    for the first path re-opens it. *)
Example write_error_recovers_log :
  let a := OsAnswers true (Ok 9%nat) false true true in
  let a2 := OsAnswers true (Ok 7%nat) true true true in
  let p := Plugin ∅
             [Some (lit "/tmp/a.log", lit "one");
              Some (lit "/tmp/b.log", lit "x");
              Some (lit "/tmp/a.log", lit "two")]
             [] false {[ lit "/tmp/a.log" := 5%nat ]} [] [] 0 in
  os_log (fst (_async_writer [a; a2; a2] p))
  = [Write 5%nat (lit "one"); Close 5%nat;
     Makedirs (lit "/tmp"); OpenAppend (lit "/tmp/b.log");
     Write 7%nat (lit "x"); Flush 7%nat;
     Makedirs (lit "/tmp"); OpenAppend (lit "/tmp/a.log");
     Write 7%nat (lit "two"); Flush 7%nat].
Proof. vm_compute. reflexivity. Qed.

(** ** Terminal identifiers *)

Section IdentityFacts.

Local Open Scope Z_scope.

Lemma string_of_uint_no_underscore d :
  Forall (fun c => c <> 95%N) (lit (NilEmpty.string_of_uint d)).
Proof.
  induction d; cbn [NilEmpty.string_of_uint]; [constructor|..];
    (constructor; [discriminate | exact IHd]).
Qed.

Lemma str_of_int_no_underscore n : Forall (fun c => c <> 95%N) (str_of_int n).
Proof.
  unfold str_of_int, NilZero.string_of_int, NilZero.string_of_uint.
  destruct (Z.to_int n) as [d|d].
  - destruct d; try apply string_of_uint_no_underscore.
    repeat constructor; discriminate.
  - constructor; [discriminate|].
    destruct d; try apply string_of_uint_no_underscore.
    repeat constructor; discriminate.
Qed.

Lemma app_pivot_inj (x : N) (a b r r' : str) :
  Forall (fun c => c <> x) a -> Forall (fun c => c <> x) b ->
  a ++ x :: r = b ++ x :: r' -> a = b /\ r = r'.
Proof.
  intros Ha. revert b. induction Ha as [|c a Hc Ha IH]; intros b Hb E.
  - destruct Hb as [|c' b Hc' Hb]; cbn in E.
    + injection E as ->. auto.
    + injection E as -> _. congruence.
  - destruct Hb as [|c' b Hc' Hb]; cbn in E.
    + injection E as -> _. congruence.
    + injection E as -> E. destruct (IH b Hb E) as [-> ->]. auto.
Qed.

Lemma id_with_pts_inj ts fd1 fd2 n1 n2 :
  id_with_pts ts fd1 n1 = id_with_pts ts fd2 n2 -> n1 = n2.
Proof.
  unfold id_with_pts. intros E. apply app_inv_head in E.
  change (lit "_pts") with (95%N :: lit "pts") in E. cbn [app] in E.
  apply app_pivot_inj in E as [_ E]; try apply str_of_int_no_underscore.
  apply app_inv_head in E. apply app_inv_tail in E. exact E.
Qed.

(** [_get_terminal_id] without the monad; [cached] is the final step that
    stores the identifier for the widget. *)
Lemma get_terminal_id_unfold query v r :
  let cached id r' := (with_terminal_ids (insert v id) r', Ok id) in
  let counted :=
    let r' := with_terminal_counter (fun n => n + 1) r in
    cached (id_plain (_global_session_timestamp r') (terminal_counter r')) r' in
  _get_terminal_id query v r =
  match terminal_ids r !! v with
  | Some id => (r, Ok id)
  | None =>
      match query with
      | PtyError => counted
      | Pty fd NoName => cached (id_plain (_global_session_timestamp r) fd) r
      | Pty fd Undecodable => counted
      | Pty fd (Name p) =>
          if is_empty p
          then cached (id_plain (_global_session_timestamp r) fd) r
          else
            match _global_pty_to_terminal_id r !! p with
            | Some id => cached id r
            | None =>
                let id := new_terminal_id (_global_session_timestamp r) fd p in
                cached id (with_global_map (insert p id) r)
            end
      end
  end.
Proof.
  cbv zeta.
  unfold _get_terminal_id, try_except, bind, get, ret, modify, raise,
    any_exception.
  destruct (terminal_ids r !! v); [reflexivity|].
  destruct query as [|fd [| |p]]; try reflexivity.
  destruct (is_empty p); [reflexivity|].
  destruct (_global_pty_to_terminal_id r !! p); reflexivity.
Qed.

Lemma get_terminal_id_timestamp query v r :
  _global_session_timestamp (fst (_get_terminal_id query v r))
  = _global_session_timestamp r.
Proof.
  rewrite get_terminal_id_unfold. cbv zeta.
  destruct (terminal_ids r !! v); [reflexivity|].
  destruct query as [|fd [| |p]]; try reflexivity.
  destruct (is_empty p); [reflexivity|].
  destruct (_global_pty_to_terminal_id r !! p); reflexivity.
Qed.

(** An identifier recorded for a PTY path is never replaced. *)
Lemma get_terminal_id_keeps query v r p id :
  _global_pty_to_terminal_id r !! p = Some id ->
  _global_pty_to_terminal_id (fst (_get_terminal_id query v r)) !! p = Some id.
Proof.
  intros H. rewrite get_terminal_id_unfold. cbv zeta.
  destruct (terminal_ids r !! v); [exact H|].
  destruct query as [|fd [| |q]]; try exact H.
  destruct (is_empty q); [exact H|].
  destruct (_global_pty_to_terminal_id r !! q) eqn:E; [exact H|].
  cbn. rewrite lookup_insert_ne by congruence. exact H.
Qed.

Lemma registry_step_keeps r op p id :
  _global_pty_to_terminal_id r !! p = Some id ->
  _global_pty_to_terminal_id (registry_step r op) !! p = Some id.
Proof.
  destruct op as [query v|v]; [apply get_terminal_id_keeps | exact (fun H => H)].
Qed.

Lemma run_registry_keeps ops : forall r p id,
  _global_pty_to_terminal_id r !! p = Some id ->
  _global_pty_to_terminal_id (run_registry ops r) !! p = Some id.
Proof.
  induction ops as [|op ops IH]; intros r p id H; [exact H|].
  apply IH, registry_step_keeps, H.
Qed.

Lemma registry_step_timestamp r op :
  _global_session_timestamp (registry_step r op) = _global_session_timestamp r.
Proof.
  destruct op as [query v|v]; [apply get_terminal_id_timestamp | reflexivity].
Qed.

Lemma run_registry_timestamp ops : forall r,
  _global_session_timestamp (run_registry ops r) = _global_session_timestamp r.
Proof.
  induction ops as [|op ops IH]; intros r; [reflexivity|].
  change (run_registry (op :: ops) r)
    with (run_registry ops (registry_step r op)).
  rewrite IH. apply registry_step_timestamp.
Qed.

Lemma registry_inv_new ts : registry_inv (new_registry ts).
Proof. intros p id. cbn. rewrite lookup_empty. discriminate. Qed.

Lemma registry_inv_resolve query v r :
  registry_inv r -> registry_inv (fst (_get_terminal_id query v r)).
Proof.
  intros I. rewrite get_terminal_id_unfold. cbv zeta.
  destruct (terminal_ids r !! v) eqn:Hc; [exact I|].
  destruct query as [|fd [| |p]]; try exact I.
  destruct (is_empty p) eqn:Hp; [exact I|].
  destruct (_global_pty_to_terminal_id r !! p) as [id|] eqn:Hg; [exact I|].
  intros p' id'. cbn. destruct (decide (p = p')) as [->|Hne].
  - rewrite lookup_insert_eq. intros [= <-]. eauto.
  - rewrite lookup_insert_ne by exact Hne. apply I.
Qed.

Lemma registry_inv_step r op : registry_inv r -> registry_inv (registry_step r op).
Proof.
  destruct op as [query v|v]; [apply registry_inv_resolve | exact (fun H => H)].
Qed.

Lemma registry_inv_run ops : forall r,
  registry_inv r -> registry_inv (run_registry ops r).
Proof.
  induction ops as [|op ops IH]; intros r H; [exact H|].
  apply IH, registry_inv_step, H.
Qed.

(** A resolution that reads a PTY path gives the identifier recorded for
    that path, and records the one it makes if there was none. *)
Lemma resolve_named v fd p r :
  terminal_ids r !! v = None -> p <> [] ->
  exists id,
    resolve (Pty fd (Name p)) v r = Some id
    /\ _global_pty_to_terminal_id (registry_step r (Resolve (Pty fd (Name p)) v))
         !! p = Some id
    /\ match _global_pty_to_terminal_id r !! p with
       | Some recorded => id = recorded
       | None => id = new_terminal_id (_global_session_timestamp r) fd p
       end.
Proof.
  intros Hc Hp. unfold resolve. cbn [registry_step].
  rewrite get_terminal_id_unfold. cbv zeta.
  rewrite Hc, (is_empty_false _ Hp).
  destruct (_global_pty_to_terminal_id r !! p) as [id|] eqn:Hg.
  - exists id. split; [reflexivity|]. split; [exact Hg | reflexivity].
  - eexists. split; [reflexivity|]. split; [|reflexivity].
    cbn. apply lookup_insert_eq.
Qed.

Lemma lit_inj (s t : string) : lit s = lit t -> s = t.
Proof.
  unfold lit. intros H.
  rewrite <- (string_of_list_ascii_of_string s),
          <- (string_of_list_ascii_of_string t).
  f_equal. revert H.
  generalize (list_ascii_of_string s) (list_ascii_of_string t).
  induction l as [|a l IH]; intros [|b l']; cbn; try discriminate; auto.
  intros [= Hab Hl]. f_equal; [|apply IH, Hl].
  rewrite <- (ascii_N_embedding a), <- (ascii_N_embedding b), Hab. reflexivity.
Qed.

Lemma to_int_proper (n : Z) :
  Z.to_int n <> Decimal.Pos Decimal.Nil /\ Z.to_int n <> Decimal.Neg Decimal.Nil.
Proof.
  destruct n as [|q|q]; cbn; split; try discriminate;
    intros [= H]; apply (Unsigned.to_uint_nonnil q), H.
Qed.

(** [str] of an [int] determines the [int]. *)
Lemma str_of_int_inj (n m : Z) : str_of_int n = str_of_int m -> n = m.
Proof.
  unfold str_of_int. intros H. apply lit_inj in H.
  apply (f_equal NilZero.int_of_string) in H.
  destruct (to_int_proper n) as [N1 N2], (to_int_proper m) as [M1 M2].
  rewrite !NilZero.isi in H by assumption.
  injection H as H. apply to_int_inj, H.
Qed.

Lemma id_plain_inj ts (n m : Z) : id_plain ts n = id_plain ts m -> n = m.
Proof.
  unfold id_plain. intros E. apply app_inv_head in E.
  apply app_inv_tail in E. apply str_of_int_inj, E.
Qed.

Lemma id_with_pts_fd_inj ts fd1 fd2 n1 n2 :
  id_with_pts ts fd1 n1 = id_with_pts ts fd2 n2 -> fd1 = fd2.
Proof.
  unfold id_with_pts. intros E. apply app_inv_head in E.
  change (lit "_pts") with (95%N :: lit "pts") in E. cbn [app] in E.
  apply app_pivot_inj in E as [E _]; try apply str_of_int_no_underscore.
  apply str_of_int_inj, E.
Qed.

(** An identifier with a [pts] part is never one without. *)
Lemma id_with_pts_not_plain ts fd1 fd2 n : id_with_pts ts fd1 n <> id_plain ts fd2.
Proof.
  unfold id_with_pts, id_plain. intros E. apply app_inv_head in E.
  change (lit "_pts") with (95%N :: lit "pts") in E.
  change (lit "_" ++ ts) with (95%N :: ts) in E. cbn [app] in E.
  apply app_pivot_inj in E as [_ E]; try apply str_of_int_no_underscore.
  apply (f_equal (@length N)) in E. rewrite !length_app in E. cbn in E. lia.
Qed.

(** When two identifiers made for PTY paths coincide. *)
Lemma new_terminal_id_eq ts fd1 fd2 p1 p2 :
  new_terminal_id ts fd1 p1 = new_terminal_id ts fd2 p2
  <-> fd1 = fd2
      /\ contains DEV_PTS p1 = contains DEV_PTS p2
      /\ (contains DEV_PTS p1 = true ->
          split_last DEV_PTS p1 = split_last DEV_PTS p2).
Proof.
  unfold new_terminal_id.
  destruct (contains DEV_PTS p1), (contains DEV_PTS p2); split.
  - intros E. split; [eapply id_with_pts_fd_inj, E|].
    split; [reflexivity|]. intros _. eapply id_with_pts_inj, E.
  - intros (-> & _ & ->); reflexivity.
  - intros E. destruct (id_with_pts_not_plain _ _ _ _ E).
  - intros (_ & ? & _). discriminate.
  - intros E. symmetry in E. destruct (id_with_pts_not_plain _ _ _ _ E).
  - intros (_ & ? & _). discriminate.
  - intros E. split; [eapply id_plain_inj, E|].
    split; [reflexivity | discriminate].
  - intros (-> & _); reflexivity.
Qed.

End IdentityFacts.

Lemma find_after_shorter (sep s r : str) :
  sep <> [] -> find_after sep s = Some r -> (length r < length s)%nat.
Proof.
  intros Hsep. induction s as [|c s IH]; cbn [find_after].
  - rewrite startswith_nil_r by exact Hsep. discriminate.
  - destruct (startswith sep (c :: s)) eqn:E.
    + intros [= <-]. rewrite length_drop. destruct sep; [congruence|].
      cbn. lia.
    + intros H. apply IH in H. cbn. lia.
Qed.

(** [split_last] has all the fuel it needs. *)
Lemma split_last_fuel_enough (sep : str) : sep <> [] ->
  forall fuel s, (length s <= fuel)%nat ->
    split_last_fuel fuel sep s = split_last sep s.
Proof.
  intros Hsep. unfold split_last.
  assert (H : forall n m s, (length s <= n)%nat -> (length s <= m)%nat ->
            split_last_fuel n sep s = split_last_fuel m sep s).
  { induction n as [|n IH]; intros m s Hn Hm.
    - destruct s; [|cbn in Hn; lia]. destruct m; cbn; [reflexivity|].
      rewrite startswith_nil_r by exact Hsep. reflexivity.
    - destruct m as [|m].
      + destruct s; [|cbn in Hm; lia]. cbn.
        rewrite startswith_nil_r by exact Hsep. reflexivity.
      + cbn [split_last_fuel]. destruct (find_after sep s) as [r|] eqn:E;
          [|reflexivity].
        apply find_after_shorter in E; [|exact Hsep]. apply IH; lia. }
  intros fuel s Hlen. apply H; [exact Hlen | lia].
Qed.

(** The paths that Linux gives: [/dev/pts/<n>], with no slash in [<n>]. *)
Lemma split_last_dev_pts (n : str) :
  Forall (fun c => c <> 47%N) n -> split_last DEV_PTS (DEV_PTS ++ n) = n.
Proof.
  intros Hn.
  assert (Hnone : forall m, Forall (fun c => c <> 47%N) m ->
            find_after DEV_PTS m = None).
  { induction 1 as [|c m Hc _ IH]; [reflexivity|].
    cbn [find_after]. change DEV_PTS with (47%N :: lit "dev/pts/") at 1.
    cbn [startswith]. destruct (N.eqb_spec 47 c) as [<-|_]; [congruence|].
    exact IH. }
  assert (E : find_after DEV_PTS (DEV_PTS ++ n) = Some n).
  { assert (U : forall s, find_after DEV_PTS s
                = if startswith DEV_PTS s then Some (drop (length DEV_PTS) s)
                  else match s with [] => None | _ :: s' => find_after DEV_PTS s' end)
      by (intros []; reflexivity).
    rewrite U, startswith_app, drop_app_length. reflexivity. }
  unfold split_last.
  replace (length (DEV_PTS ++ n)) with (S (8 + length n))
    by (rewrite length_app; reflexivity).
  cbn [split_last_fuel]. rewrite E.
  destruct (8 + length n)%nat; cbn [split_last_fuel]; [reflexivity|].
  rewrite (Hnone n Hn). reflexivity.
Qed.

(** C2, as amended.  A surface that is in the cache of the instance is
    answered from the cache, whatever its PTY is now.  In every state
    that the instance can reach from a fresh process, whatever was
    resolved or forgotten before and with whatever answers of the host,
    two resolutions that read the PTY path and find the same path give
    the same identifier.  When they find two paths, the identifiers are
    different if exactly one path contains [/dev/pts/], or if both
    contain it and differ in the text after it; and when each resolution
    is the first to record its path, the identifiers are the same exactly
    when the descriptor numbers are the same and the paths agree in
    whether they contain [/dev/pts/] and in the text after it. *)
Theorem terminal_id_stable_and_distinct
    (timestamp : str) (before between : list registry_op)
    (v1 v2 : vte) (fd1 fd2 : Z) (p1 p2 : str) :
  p1 <> [] -> p2 <> [] ->
  let r1 := run_registry before (new_registry timestamp) in
  let r2 :=
    run_registry between (registry_step r1 (Resolve (Pty fd1 (Name p1)) v1)) in
  (forall query id,
     terminal_ids r2 !! v2 = Some id -> resolve query v2 r2 = Some id)
  /\ (terminal_ids r1 !! v1 = None -> terminal_ids r2 !! v2 = None ->
      exists id1 id2,
        resolve (Pty fd1 (Name p1)) v1 r1 = Some id1
        /\ resolve (Pty fd2 (Name p2)) v2 r2 = Some id2
        /\ (p1 = p2 -> id1 = id2)
        /\ (contains DEV_PTS p1 <> contains DEV_PTS p2 -> id1 <> id2)
        /\ (contains DEV_PTS p1 = true -> contains DEV_PTS p2 = true ->
            split_last DEV_PTS p1 <> split_last DEV_PTS p2 -> id1 <> id2)
        /\ (_global_pty_to_terminal_id r1 !! p1 = None ->
            _global_pty_to_terminal_id r2 !! p2 = None ->
            (id1 = id2
             <-> fd1 = fd2
                 /\ contains DEV_PTS p1 = contains DEV_PTS p2
                 /\ (contains DEV_PTS p1 = true ->
                     split_last DEV_PTS p1 = split_last DEV_PTS p2)))).
Proof.
  intros Hp1 Hp2 r1 r2. split.
  { intros query id Hc. unfold resolve.
    rewrite get_terminal_id_unfold. cbv zeta. rewrite Hc. reflexivity. }
  intros Hc1 Hc2.
  assert (T1 : _global_session_timestamp r1 = timestamp)
    by apply run_registry_timestamp.
  assert (T2 : _global_session_timestamp r2 = timestamp).
  { unfold r2. rewrite run_registry_timestamp, registry_step_timestamp.
    exact T1. }
  destruct (resolve_named v1 fd1 p1 r1 Hc1 Hp1) as (id1 & R1 & G1 & N1).
  destruct (resolve_named v2 fd2 p2 r2 Hc2 Hp2) as (id2 & R2 & G2 & N2).
  assert (G1' : _global_pty_to_terminal_id r2 !! p1 = Some id1)
    by apply run_registry_keeps, G1.
  assert (I2 : registry_inv (registry_step r2 (Resolve (Pty fd2 (Name p2)) v2))).
  { apply registry_inv_step, registry_inv_run, registry_inv_step,
      registry_inv_run, registry_inv_new. }
  destruct (I2 p1 id1) as [fa Ea];
    [apply registry_step_keeps, G1'|].
  destruct (I2 p2 id2 G2) as [fb Eb].
  rewrite registry_step_timestamp, T2 in Ea, Eb.
  exists id1, id2. split; [exact R1|]. split; [exact R2|]. split; [|split; [|split]].
  - intros <-. rewrite G1' in N2. congruence.
  - intros Hne E. rewrite Ea, Eb in E.
    apply new_terminal_id_eq in E as (_ & E & _). contradiction.
  - intros C1 C2 Hne E. rewrite Ea, Eb in E.
    apply new_terminal_id_eq in E as (_ & _ & E). auto.
  - intros F1 F2. rewrite F1, T1 in N1. rewrite F2, T2 in N2. subst id1 id2.
    apply new_terminal_id_eq.
Qed.

Lemma terminal_id_stable_and_distinct_witness :
  let r1 := run_registry [Resolve (Pty 7 (Name (lit "/dev/pts/4"))) 3%nat]
              (new_registry (lit "20240101_120000")) in
  let r2 := run_registry [Forget 1%nat]
              (registry_step r1 (Resolve (Pty 7 (Name (lit "/dev/pts/3"))) 1%nat)) in
  exists id1 id2,
    resolve (Pty 7 (Name (lit "/dev/pts/3"))) 1%nat r1 = Some id1
    /\ resolve (Pty 9 (Name (lit "/dev/pts/3"))) 2%nat r2 = Some id2
    /\ (lit "/dev/pts/3" = lit "/dev/pts/3" -> id1 = id2)
    /\ (contains DEV_PTS (lit "/dev/pts/3") <> contains DEV_PTS (lit "/dev/pts/3")
        -> id1 <> id2)
    /\ (contains DEV_PTS (lit "/dev/pts/3") = true ->
        contains DEV_PTS (lit "/dev/pts/3") = true ->
        split_last DEV_PTS (lit "/dev/pts/3")
        <> split_last DEV_PTS (lit "/dev/pts/3") -> id1 <> id2)
    /\ (_global_pty_to_terminal_id r1 !! lit "/dev/pts/3" = None ->
        _global_pty_to_terminal_id r2 !! lit "/dev/pts/3" = None ->
        (id1 = id2
         <-> 7%Z = 9%Z
             /\ contains DEV_PTS (lit "/dev/pts/3")
                = contains DEV_PTS (lit "/dev/pts/3")
             /\ (contains DEV_PTS (lit "/dev/pts/3") = true ->
                 split_last DEV_PTS (lit "/dev/pts/3")
                 = split_last DEV_PTS (lit "/dev/pts/3")))).
Proof.
  cbv zeta.
  apply (proj2 (terminal_id_stable_and_distinct (lit "20240101_120000")
                  [Resolve (Pty 7 (Name (lit "/dev/pts/4"))) 3%nat]
                  [Forget 1%nat] 1%nat 2%nat 7%Z 9%Z
                  (lit "/dev/pts/3") (lit "/dev/pts/3")
                  ltac:(discriminate) ltac:(discriminate)));
    reflexivity.
Defined.

(** C2, as stated, fails in both halves.  Two distinct PTY paths collide:
    a path that is not under [/dev/pts/] leaves no trace in the
    identifier, so a terminal that is opened after another one was
    closed, on another PTY device but with the same descriptor number, is
    given the same identifier.  And two surfaces on the same PTY path are
    given different identifiers when one of them was first resolved while
    its PTY gave no answer: the cache keeps its counter identifier. *)
Lemma terminal_id_collision_counterexample :
  let r0 := new_registry (lit "20240101_120000") in
  let r1 :=
    run_registry [Resolve (Pty 7 (Name (lit "/dev/ttys001"))) 1%nat;
                  Forget 1%nat] r0 in
  let r2 := run_registry [Resolve PtyError 1%nat] r0 in
  lit "/dev/ttys001" <> lit "/dev/ttys002"
  /\ resolve (Pty 7 (Name (lit "/dev/ttys001"))) 1%nat r0
     = Some (lit "terminal_7_20240101_120000")
  /\ resolve (Pty 7 (Name (lit "/dev/ttys002"))) 2%nat r1
     = Some (lit "terminal_7_20240101_120000")
  /\ resolve (Pty 7 (Name (lit "/dev/pts/3"))) 1%nat r2
     = Some (lit "terminal_1_20240101_120000")
  /\ resolve (Pty 7 (Name (lit "/dev/pts/3"))) 2%nat r2
     = Some (lit "terminal_7_pts3_20240101_120000").
Proof.
  cbv zeta. repeat split; try reflexivity. vm_compute. discriminate.
Qed.

(** * Further properties of the code *)

(** ** More on strings *)

Section MoreStringFacts.

Implicit Types (s p k : str) (c : N).

Lemma lstrip_incl s c : In c (lstrip s) -> In c s.
Proof.
  induction s as [|a s IH]; simpl; [tauto|].
  destruct (isspace a); simpl; auto.
Qed.

Lemma rstrip_incl s c : In c (rstrip s) -> In c s.
Proof.
  induction s as [|a s IH]; [tauto|]. rewrite rstrip_cons.
  destruct (is_empty (rstrip s) && isspace a); simpl; [tauto|].
  intros [H|H]; auto.
Qed.

Lemma strip_incl s c : In c (strip s) -> In c s.
Proof. intros H. apply lstrip_incl, rstrip_incl, H. Qed.

Lemma contains_spec p s : contains p s = true <-> exists a k, s = a ++ p ++ k.
Proof.
  split.
  - induction s as [|c s IH]; simpl.
    + rewrite orb_false_r. intros H. apply startswith_spec in H as [k Hk].
      exists [], k. exact Hk.
    + intros H. apply orb_true_iff in H as [H|H].
      * apply startswith_spec in H as [k Hk]. exists [], k. exact Hk.
      * destruct (IH H) as (a & k & ->). exists (c :: a), k. reflexivity.
  - intros (a & k & ->). apply contains_app.
Qed.

Lemma rstrip_nonempty s : strip s <> [] -> rstrip s <> [].
Proof. intros H E. apply H, rstrip_nil_strip, E. Qed.

(** A stripped string neither starts nor ends with whitespace. *)
Lemma lstrip_head s c r : lstrip s = c :: r -> isspace c = false.
Proof.
  induction s as [|a s IH]; simpl; [discriminate|].
  destruct (isspace a) eqn:E; [exact IH | congruence].
Qed.

End MoreStringFacts.

(** ** More on the classifiers *)

Section MoreClassifierFacts.

Implicit Types (s line : str).

Lemma ascii_only_strip s : ascii_only s -> ascii_only (strip s).
Proof.
  unfold ascii_only. rewrite !Forall_forall. intros H c Hc.
  apply H, list_elem_of_In, strip_incl, list_elem_of_In, Hc.
Qed.

Lemma ascii_only_no_glyph s :
  ascii_only s -> ~ In 0xe2 s.
Proof.
  unfold ascii_only. rewrite Forall_forall. intros H Hin.
  apply list_elem_of_In in Hin. specialize (H _ Hin). lia.
Qed.

(** Text without the prompt glyphs of the theme is never a prompt. *)
Lemma ascii_not_prompt s : ascii_only s -> _looks_like_prompt s = false.
Proof.
  intros Ha. apply ascii_only_strip, ascii_only_no_glyph in Ha.
  rewrite looks_like_prompt_markers.
  destruct (startswith PROMPT_TAIL (strip s)) eqn:E1.
  { apply startswith_spec in E1 as [k Hk]. exfalso. apply Ha.
    rewrite Hk. left. reflexivity. }
  destruct (startswith PROMPT_HEAD (strip s)) eqn:E2.
  { apply startswith_spec in E2 as [k Hk]. exfalso. apply Ha.
    rewrite Hk. left. reflexivity. }
  destruct (contains PROMPT_HEAD (strip s)) eqn:E3.
  { apply contains_spec in E3 as (a & k & Hk). exfalso. apply Ha.
    rewrite Hk. apply in_app_iff. right. left. reflexivity. }
  destruct (is_empty s); reflexivity.
Qed.

End MoreClassifierFacts.

(** ** What the filter emits *)

Section EmittedLines.

Implicit Types (st : filter_state) (l e : str) (lines : list str).

Lemma filter_step_appends st l :
  filtered_lines (filter_step st l) = filtered_lines st
  \/ filtered_lines (filter_step st l) = filtered_lines st ++ [rstrip l].
Proof.
  unfold filter_step.
  destruct (_is_context_command (strip l)); [auto|].
  destruct (skip_until_prompt st).
  - destruct (_looks_like_prompt (strip l)); [|auto].
    destruct (_is_empty_prompt (strip l)); cbn; auto.
  - destruct (negb _ && _ && _ && _); cbn; auto.
Qed.

Lemma filter_from_sublist lines : forall st,
  exists new,
    filtered_lines (filter_from st lines) = filtered_lines st ++ new
    /\ new `sublist_of` (rstrip <$> lines).
Proof.
  induction lines as [|l lines IH]; intros st.
  - exists []. split; [symmetry; apply app_nil_r | constructor].
  - cbn [filter_from fold_left]. fold (filter_from (filter_step st l) lines).
    destruct (IH (filter_step st l)) as (new & E & S). rewrite E.
    destruct (filter_step_appends st l) as [-> | ->].
    + exists new. split; [reflexivity|]. cbn. apply sublist_cons, S.
    + exists (rstrip l :: new). rewrite <- app_assoc.
      split; [reflexivity|]. cbn. apply sublist_skip, S.
Qed.

End EmittedLines.

(** X1: every line that the filter emits is non-empty, carries no
    trailing whitespace, and is neither an excluded command, nor an empty
    prompt, nor partial input; a line that begins with the session marker
    can only come through as a prompt line that ends a skipped region. *)
Theorem emitted_lines_clean (lines : list str) (e : str) :
  In e (filter_lines lines) ->
  e <> []
  /\ rstrip e = e
  /\ _is_context_command e = false
  /\ _is_empty_prompt e = false
  /\ _is_partial_command e = false
  /\ (startswith SESSION_MARKER (strip e) = true -> _looks_like_prompt e = true).
Proof.
  intros Hin.
  apply filter_lines_sound in Hin as (l & _ & -> & Hne & Hc & He & Hk).
  assert (Hs : strip (rstrip l) = strip l) by apply strip_rstrip.
  split; [apply rstrip_nonempty, Hne|].
  split; [apply rstrip_idem|].
  split; [rewrite <- is_context_command_strip, Hs; exact Hc|].
  split.
  { rewrite <- is_empty_prompt_strip by (rewrite Hs; exact Hne).
    rewrite Hs. exact He. }
  rewrite <- is_partial_command_strip, <- (looks_like_prompt_strip (rstrip l)), Hs.
  destruct Hk as [Hp|[Hm Hq]].
  - split; [|auto]. unfold _is_partial_command.
    rewrite Hp. destruct (strip l); [congruence | reflexivity].
  - split; [exact Hq | congruence].
Qed.

Lemma emitted_lines_clean_witness :
  lit "a.txt" <> []
  /\ rstrip (lit "a.txt") = lit "a.txt"
  /\ _is_context_command (lit "a.txt") = false
  /\ _is_empty_prompt (lit "a.txt") = false
  /\ _is_partial_command (lit "a.txt") = false
  /\ (startswith SESSION_MARKER (strip (lit "a.txt")) = true ->
      _looks_like_prompt (lit "a.txt") = true).
Proof.
  apply (emitted_lines_clean [lit ""; lit "a.txt   "; lit "l"] (lit "a.txt")).
  vm_compute. left. reflexivity.
Defined.

(** X2: the filter only drops lines: what it emits is a subsequence, in
    the order of the input, of the right-trimmed input lines. *)
Theorem filter_lines_sublist (lines : list str) :
  filter_lines lines `sublist_of` (rstrip <$> lines).
Proof.
  unfold filter_lines.
  destruct (filter_from_sublist lines (FilterState false [])) as (new & E & S).
  rewrite E. exact S.
Qed.

(** X3: outside a skipped region, an ASCII line with more than two
    visible characters is kept, right-trimmed, unless it begins with
    ["context"] or ["==="], ends in ["_"] or ["|"], or contains ["$ "] or
    ["# "]. *)
Theorem ordinary_line_kept (l : str) (kept : list str) :
  ascii_only l ->
  (2 < length (strip l))%nat ->
  startswith CONTEXT (strip l) = false ->
  startswith SESSION_MARKER (strip l) = false ->
  endswith (lit "_") (strip l) = false ->
  endswith (lit "|") (strip l) = false ->
  contains DOLLAR_SP (strip l) = false ->
  contains HASH_SP (strip l) = false ->
  filter_step (FilterState false kept) l = FilterState false (kept ++ [rstrip l]).
Proof.
  intros Ha Hlen Hc Hm Hu Hb Hd Hh.
  assert (Hp : _looks_like_prompt (strip l) = false)
    by apply ascii_not_prompt, ascii_only_strip, Ha.
  assert (Hne : is_empty (strip l) = false)
    by (destruct (strip l); [cbn in Hlen; lia | reflexivity]).
  assert (Hctx : _is_context_command (strip l) = false).
  { unfold _is_context_command. rewrite Hne, strip_idem, Hp. exact Hc. }
  assert (Hemp : _is_empty_prompt (strip l) = false).
  { unfold _is_empty_prompt. rewrite Hne, strip_idem.
    rewrite looks_like_prompt_markers, strip_idem, Hne in Hp.
    cbn [negb andb] in Hp. apply orb_false_iff in Hp as [Hp _].
    apply orb_false_iff in Hp as [Hp _].
    rewrite Hp. cbn [andb].
    destruct (bool_decide (strip l = PROMPT_TAIL)) eqn:E.
    { apply bool_decide_eq_true in E. rewrite E in Hp. discriminate. }
    cbn [empty_after_suffix]. rewrite Hd, Hh. reflexivity. }
  assert (Hpart : _is_partial_command (strip l) = false).
  { unfold _is_partial_command. rewrite Hne, Hp, strip_idem, Hu, Hb.
    apply Nat.leb_gt in Hlen. rewrite Hlen. reflexivity. }
  unfold filter_step. rewrite Hctx. cbn [skip_until_prompt filtered_lines].
  rewrite Hne, Hm, Hemp, Hpart. reflexivity.
Qed.

Lemma ordinary_line_kept_witness :
  filter_step (FilterState false [lit "ls"]) (lit "  a.txt  ")
  = FilterState false ([lit "ls"] ++ [rstrip (lit "  a.txt  ")]).
Proof.
  apply (ordinary_line_kept (lit "  a.txt  ") [lit "ls"]);
    try (vm_compute; reflexivity).
  - unfold ascii_only. vm_compute. repeat constructor.
  - vm_compute. lia.
Defined.

(** X5: on a line whose stripped text is the prompt glyph followed by a
    command, the line is an excluded command exactly when the command text
    begins with ["context"]; any word with that prefix counts. *)
Theorem context_command_after_prompt (line cmd : str) :
  strip line = PROMPT_TAIL ++ cmd ->
  _is_context_command line = startswith CONTEXT (strip cmd).
Proof.
  intros Hs.
  assert (Hp : _looks_like_prompt (strip line) = true).
  { rewrite looks_like_prompt_markers, strip_idem, Hs.
    change (PROMPT_TAIL ++ cmd) with (0xe2 :: (tl PROMPT_TAIL ++ cmd)) at 1.
    cbn [is_empty negb andb]. rewrite startswith_app. reflexivity. }
  unfold _is_context_command. rewrite Hp.
  destruct line as [|c line]; [discriminate Hs|]. cbn [is_empty]. cbv iota.
  unfold command_part. rewrite Hs.
  rewrite (contains_startswith _ _ (startswith_app PROMPT_TAIL cmd)).
  unfold split1_last.
  assert (U : find_after PROMPT_TAIL (PROMPT_TAIL ++ cmd) = Some cmd).
  { assert (V : forall s, find_after PROMPT_TAIL s
                = if startswith PROMPT_TAIL s
                  then Some (drop (length PROMPT_TAIL) s)
                  else match s with
                       | [] => None
                       | _ :: s' => find_after PROMPT_TAIL s'
                       end) by (intros []; reflexivity).
    rewrite V, startswith_app, drop_app_length. reflexivity. }
  rewrite U. reflexivity.
Qed.

Lemma context_command_after_prompt_witness :
  _is_context_command (PROMPT_TAIL ++ lit " contextual-help --all")
  = startswith CONTEXT (strip (lit " contextual-help --all")).
Proof.
  apply (context_command_after_prompt
           (PROMPT_TAIL ++ lit " contextual-help --all")
           (lit " contextual-help --all")).
  vm_compute. reflexivity.
Defined.

(** X6: a line that is classified as a prompt but does not contain the
    glyph that precedes the command is never an excluded command, whatever
    else it contains: the first line of a two-line prompt cannot start a
    skipped region. *)
Theorem prompt_without_tail_not_context (line : str) :
  _looks_like_prompt line = true ->
  contains PROMPT_TAIL (strip line) = false ->
  _is_context_command line = false.
Proof.
  intros Hp Hc. unfold _is_context_command.
  rewrite looks_like_prompt_strip, Hp.
  destruct (is_empty line); [reflexivity|].
  unfold command_part.
  rewrite Hc, strip_endswith_dollar, strip_endswith_hash. reflexivity.
Qed.

Lemma prompt_without_tail_not_context_witness :
  _is_context_command (PROMPT_HEAD ++ lit "(root@kali)-[~/context]") = false.
Proof.
  apply (prompt_without_tail_not_context
           (PROMPT_HEAD ++ lit "(root@kali)-[~/context]"));
    vm_compute; reflexivity.
Defined.

(** ** The chunk *)

Section Chunk.

Lemma split_lines_line (l rest : str) :
  ~ In 10 l -> split_lines (l ++ 10 :: rest) = l :: split_lines rest.
Proof.
  induction l as [|c l IH]; intros Hl; [reflexivity|].
  cbn [app split_lines]. destruct (N.eqb_spec c 10) as [->|_].
  - exfalso. apply Hl. left. reflexivity.
  - rewrite IH by (intros H; apply Hl; right; exact H). reflexivity.
Qed.

Lemma split_lines_no_newline (s : str) :
  Forall (fun l => ~ In 10 l) (split_lines s).
Proof.
  induction s as [|c s IH]; cbn [split_lines].
  - constructor; [tauto | constructor].
  - destruct (N.eqb_spec c 10) as [->|Hc].
    + constructor; [tauto | exact IH].
    + destruct (split_lines s) as [|l ls]; [repeat constructor; cbn; intuition|].
      inversion IH as [|? ? Hl Hls]; subst.
      constructor; [|exact Hls]. cbn. intuition.
Qed.

Lemma split_join_lines (ls : list str) :
  ls <> [] -> Forall (fun l => ~ In 10 l) ls ->
  split_lines (join_lines ls ++ [10]) = ls ++ [[]].
Proof.
  induction ls as [|l ls IH]; [congruence|]. intros _ Hall.
  inversion Hall as [|? ? Hl Hls]; subst.
  destruct ls as [|l2 ls].
  - cbn [join_lines app]. rewrite split_lines_line by exact Hl. reflexivity.
  - change (join_lines (l :: l2 :: ls)) with (l ++ 10 :: join_lines (l2 :: ls)).
    rewrite <- app_assoc. cbn [app].
    rewrite split_lines_line by exact Hl.
    rewrite IH by (congruence || exact Hls). reflexivity.
Qed.

End Chunk.

(** X4: a chunk is the emitted lines, each followed by a newline: split at
    newlines it gives back exactly those lines and one empty string, and
    none of the lines is empty, so the chunk has no blank line. *)
Theorem chunk_round_trip (new_content chunk : str) :
  content_to_log new_content = Some chunk ->
  split_lines chunk = filter_lines (split_lines new_content) ++ [[]]
  /\ Forall (fun l => l <> []) (filter_lines (split_lines new_content)).
Proof.
  unfold content_to_log. intros H.
  assert (Hno : Forall (fun l => ~ In 10 l /\ l <> [])
                  (filter_lines (split_lines new_content))).
  { apply Forall_forall. intros e He. apply list_elem_of_In in He.
    apply filter_lines_sound in He as (l & Hl & -> & Hne & _).
    split; [|apply rstrip_nonempty, Hne].
    intros Hin. apply rstrip_incl in Hin.
    pose proof (split_lines_no_newline new_content) as Hall.
    rewrite Forall_forall in Hall. apply (Hall l); [|exact Hin].
    apply list_elem_of_In, Hl. }
  destruct (filter_lines (split_lines new_content)) as [|e es] eqn:E;
    [discriminate|].
  injection H as <-. split.
  - apply (split_join_lines (e :: es)); [discriminate|].
    eapply Forall_impl; [exact Hno|]. cbn. tauto.
  - eapply Forall_impl; [exact Hno|]. cbn. tauto.
Qed.

Lemma chunk_round_trip_witness :
  let screen := PROMPT_TAIL ++ lit " ls" ++ [10] ++ lit "a.txt  " ++ [10]
                ++ [10] ++ PROMPT_TAIL ++ lit " " in
  let chunk := PROMPT_TAIL ++ lit " ls" ++ [10] ++ lit "a.txt" ++ [10] in
  split_lines chunk = filter_lines (split_lines screen) ++ [[]]
  /\ Forall (fun l => l <> []) (filter_lines (split_lines screen)).
Proof.
  cbv zeta.
  apply (chunk_round_trip
           (PROMPT_TAIL ++ lit " ls" ++ [10] ++ lit "a.txt  " ++ [10]
            ++ [10] ++ PROMPT_TAIL ++ lit " ")
           (PROMPT_TAIL ++ lit " ls" ++ [10] ++ lit "a.txt" ++ [10])).
  vm_compute. reflexivity.
Defined.

(** ** More on the content-change callback *)

Section MoreCallbackFacts.
Local Open Scope Z_scope.

Lemma content_to_log_empty : content_to_log [] = None.
Proof. reflexivity. Qed.

Lemma start_row_max (last : Z) :
  Z.max 0 (if 0 <=? last then last else 0) = Z.max 0 last.
Proof. destruct (Z.leb_spec 0 last); lia. Qed.

Lemma current_line_test (line : str) :
  negb (is_empty line) && _looks_like_prompt (strip line)
  = _looks_like_prompt line.
Proof.
  rewrite looks_like_prompt_strip. destruct line; reflexivity.
Qed.

Lemma ascii_view_content h a b c d :
  ascii_view h -> ascii_only (_get_content h a b c d).
Proof.
  intros Hv. unfold _get_content.
  destruct (get_text_range h a b c d) eqn:E; [eapply Hv, E | constructor].
Qed.

Lemma on_contents_changed_ascii h v p :
  ascii_view h -> _on_contents_changed h v p = (p, Ok tt).
Proof.
  intros Hv. rewrite on_contents_changed_unfold.
  destruct (loggers p !! v) as [info|]; [|reflexivity].
  destruct (get_cursor_position h) as [[[col row]|]|]; try reflexivity.
  destruct (row <=? last_row info); [reflexivity|].
  destruct (get_column_count h) as [columns|]; [|reflexivity].
  cbv zeta. rewrite current_line_test, ascii_not_prompt; [reflexivity|].
  apply ascii_view_content, Hv.
Qed.

(** The record of a session after a callback: the same but for
    [last_row]; and no session appears or disappears. *)
Lemma on_contents_changed_record h v p u :
  match loggers p !! u with
  | None => loggers (fst (_on_contents_changed h v p)) !! u = None
  | Some info =>
      exists row,
        loggers (fst (_on_contents_changed h v p)) !! u
        = Some (set_last_row row info)
        /\ (u <> v -> row = last_row info)
  end.
Proof.
  assert (Hsame : match loggers p !! u with
                  | None => loggers p !! u = None
                  | Some info =>
                      exists row, loggers p !! u = Some (set_last_row row info)
                                  /\ (u <> v -> row = last_row info)
                  end).
  { destruct (loggers p !! u) as [info|]; [|reflexivity].
    exists (last_row info). destruct info; auto. }
  rewrite on_contents_changed_unfold.
  destruct (loggers p !! v) as [info0|] eqn:Hv; [|exact Hsame].
  destruct (get_cursor_position h) as [[[col row]|]|]; try exact Hsame.
  destruct (row <=? last_row info0); [exact Hsame|].
  destruct (get_column_count h) as [columns|]; [|exact Hsame].
  cbv zeta. destruct (negb _ && _); [|exact Hsame].
  cbn [fst with_loggers loggers].
  assert (Hl : forall p1, loggers p1 = loggers p ->
            match loggers p !! u with
            | None => alter (set_last_row row) v (loggers p1) !! u = None
            | Some info =>
                exists row',
                  alter (set_last_row row) v (loggers p1) !! u
                  = Some (set_last_row row' info)
                  /\ (u <> v -> row' = last_row info)
            end).
  { intros p1 ->. destruct (decide (v = u)) as [->|Hne].
    - rewrite lookup_alter_eq, Hv. cbn. exists row. split; [reflexivity|].
      congruence.
    - rewrite lookup_alter_ne by exact Hne.
      destruct (loggers p !! u) as [info|]; [|reflexivity].
      exists (last_row info). destruct info; auto. }
  destruct (is_empty (_get_content _ _ _ _ _)); [apply Hl; reflexivity|].
  destruct (content_to_log _); [|apply Hl; reflexivity].
  apply Hl, enqueue_chunk_loggers.
Qed.

End MoreCallbackFacts.

(** X7: on terminals that show ASCII text only, so with none of the
    prompt glyphs of the theme, no callback ever logs anything: the plugin
    is left exactly as it was. *)
Theorem ascii_terminal_never_logged
    (events : list (vte_view * vte)) (p : plugin) :
  Forall (fun ev => ascii_view ev.1) events ->
  run_callbacks events p = p.
Proof.
  induction 1 as [|[h v] events Hh _ IH]; [reflexivity|].
  cbn [run_callbacks]. rewrite (on_contents_changed_ascii h v p Hh). exact IH.
Qed.

Lemma ascii_terminal_never_logged_witness :
  let bash :=
    VteView (Ok (Some (14, 9)%Z)) (Ok 80%Z)
      (fun row_start _ _ _ =>
         if (row_start =? 9)%Z then Ok (lit "user@host:~$ ")
         else Ok (lit "user@host:~$ ls" ++ [10] ++ lit "a.txt" ++ [10]
                  ++ lit "user@host:~$ ")) in
  run_callbacks [(bash, 1%nat)] (example_plugin [] []) = example_plugin [] [].
Proof.
  cbv zeta.
  apply (ascii_terminal_never_logged
           [(VteView (Ok (Some (14, 9)%Z)) (Ok 80%Z)
               (fun row_start _ _ _ =>
                  if (row_start =? 9)%Z then Ok (lit "user@host:~$ ")
                  else Ok (lit "user@host:~$ ls" ++ [10] ++ lit "a.txt" ++ [10]
                           ++ lit "user@host:~$ ")), 1%nat)]
           (example_plugin [] [])).
  constructor; [|constructor].
  intros a b c d content. cbn.
  destruct (a =? 9)%Z; intros [= <-]; unfold ascii_only; vm_compute;
    repeat constructor.
Defined.

(** X8: a callback changes nothing, not even [last_row], when the
    terminal has no session, when the cursor position is unavailable or
    not past the recorded row, when the column count raises, or when the
    line under the cursor is not a prompt. *)
Theorem on_contents_changed_idle (h : vte_view) (v : vte) (p : plugin) :
  loggers p !! v = None
  \/ (exists e, get_cursor_position h = Raise e)
  \/ get_cursor_position h = Ok None
  \/ (exists info col row,
        loggers p !! v = Some info
        /\ get_cursor_position h = Ok (Some (col, row))
        /\ ((row <= last_row info)%Z
            \/ (exists e, get_column_count h = Raise e)
            \/ (exists columns,
                  get_column_count h = Ok columns
                  /\ _looks_like_prompt (_get_content h row 0 row columns)
                     = false))) ->
  _on_contents_changed h v p = (p, Ok tt).
Proof.
  intros H. rewrite on_contents_changed_unfold.
  destruct (loggers p !! v) as [info|] eqn:Hv; [|reflexivity].
  destruct H as [H|[[e H]|[H|(info' & col & row & Hi & Hc & H)]]];
    [discriminate | rewrite H; reflexivity | rewrite H; reflexivity |].
  injection Hi as <-. rewrite Hc.
  destruct (row <=? last_row info)%Z eqn:Hrow; [reflexivity|].
  destruct H as [H|[[e H]|(columns & Hcol & Hp)]].
  - apply Z.leb_gt in Hrow. lia.
  - rewrite H. reflexivity.
  - rewrite Hcol. cbv zeta. rewrite current_line_test, Hp. reflexivity.
Qed.

Lemma on_contents_changed_idle_witness :
  _on_contents_changed
    (VteView (Ok (Some (0, 9)%Z)) (Ok 80%Z) (fun _ _ _ _ => Ok (lit "make: ***")))
    1%nat (example_plugin [] [])
  = (example_plugin [] [], Ok tt).
Proof.
  apply (on_contents_changed_idle
           (VteView (Ok (Some (0, 9)%Z)) (Ok 80%Z)
              (fun _ _ _ _ => Ok (lit "make: ***")))
           1%nat (example_plugin [] [])).
  right. right. right. exists example_logger, 0%Z, 9%Z.
  split; [reflexivity|]. split; [reflexivity|].
  right. right. exists 80%Z. split; reflexivity.
Defined.

(** The callback when it fires, with room in both queues. *)
Lemma on_contents_changed_fires
    (h : vte_view) (v : vte) (p : plugin) (info : logger_info)
    (col row columns : Z) :
  loggers p !! v = Some info ->
  get_cursor_position h = Ok (Some (col, row)) ->
  (last_row info < row)%Z ->
  get_column_count h = Ok columns ->
  _looks_like_prompt (_get_content h row 0 row columns) = true ->
  full (write_queue p) = false ->
  full (sanitize_queue p) = false ->
  _on_contents_changed h v p =
  (with_loggers (alter (set_last_row row) v)
     match content_to_log
             (_get_content h (Z.max 0 (last_row info)) 0 row columns) with
     | Some chunk =>
         with_sanitize_queue
           (fun q => q ++ [Some (chunk, sanitized_filepath info)])
           (with_write_queue (fun q => q ++ [Some (filepath info, chunk)]) p)
     | None => p
     end,
   Ok tt).
Proof.
  intros Hv Hc Hrow Hcol Hp Hw Hs.
  rewrite on_contents_changed_unfold, Hv, Hc.
  apply Z.leb_gt in Hrow. rewrite Hrow, Hcol. cbv zeta.
  rewrite current_line_test, Hp, start_row_max.
  destruct (_get_content h (Z.max 0 (last_row info)) 0 row columns) as [|c s]
    eqn:E; [reflexivity|]. cbn [is_empty].
  destruct (content_to_log (c :: s)) as [chunk|]; [|reflexivity].
  rewrite enqueue_chunk_unfold, Hw, Hs. reflexivity.
Qed.

(** X9: when the cursor is past the recorded row, on a prompt line, and
    both queues have room, the callback reads the rows from
    [max(0, last_row)] to the cursor row, moves [last_row] to the cursor
    row, and, if any line passes the filter, appends the one chunk to both
    queues: [(filepath, chunk)] to the write queue and
    [(chunk, sanitized_filepath)] to the sanitizer queue; if no line
    passes, only [last_row] moves. *)
Theorem on_contents_changed_logs
    (h : vte_view) (v : vte) (p : plugin) (info : logger_info)
    (col row columns : Z) :
  loggers p !! v = Some info ->
  get_cursor_position h = Ok (Some (col, row)) ->
  (last_row info < row)%Z ->
  get_column_count h = Ok columns ->
  _looks_like_prompt (_get_content h row 0 row columns) = true ->
  full (write_queue p) = false ->
  full (sanitize_queue p) = false ->
  _on_contents_changed h v p =
  (with_loggers (alter (set_last_row row) v)
     match content_to_log
             (_get_content h (Z.max 0 (last_row info)) 0 row columns) with
     | Some chunk =>
         with_sanitize_queue
           (fun q => q ++ [Some (chunk, sanitized_filepath info)])
           (with_write_queue (fun q => q ++ [Some (filepath info, chunk)]) p)
     | None => p
     end,
   Ok tt).
Proof. apply on_contents_changed_fires. Qed.

Lemma on_contents_changed_logs_witness :
  _on_contents_changed example_view 1%nat (example_plugin [] [])
  = (with_loggers (alter (set_last_row 7%Z) 1%nat)
       (with_sanitize_queue
          (fun q => q ++ [Some (PROMPT_TAIL ++ lit " ls" ++ [10] ++ lit "a.txt"
                                ++ [10],
                                sanitized_filepath example_logger)])
          (with_write_queue
             (fun q => q ++ [Some (filepath example_logger,
                                   PROMPT_TAIL ++ lit " ls" ++ [10]
                                   ++ lit "a.txt" ++ [10])])
             (example_plugin [] []))),
     Ok tt).
Proof.
  apply (on_contents_changed_logs example_view 1%nat (example_plugin [] [])
           example_logger 0%Z 7%Z 80%Z);
    try reflexivity.
Defined.

(** X10: over any run of callbacks no session is created or removed, and
    a session keeps its log paths, its identifier, its recorded column and
    its handler; only [last_row] can change. *)
Theorem sessions_fixed (events : list (vte_view * vte)) (p : plugin) (u : vte) :
  match loggers p !! u with
  | None => loggers (run_callbacks events p) !! u = None
  | Some info =>
      exists row,
        loggers (run_callbacks events p) !! u = Some (set_last_row row info)
  end.
Proof.
  revert p. induction events as [|[h v] events IH]; intros p.
  - cbn [run_callbacks]. destruct (loggers p !! u) as [info|]; [|reflexivity].
    exists (last_row info). destruct info; reflexivity.
  - cbn [run_callbacks].
    pose proof (on_contents_changed_record h v p u) as H1.
    specialize (IH (fst (_on_contents_changed h v p))).
    destruct (loggers p !! u) as [info|].
    + destruct H1 as (row & H1 & _). rewrite H1 in IH.
      destruct IH as (row' & IH). exists row'. rewrite IH. reflexivity.
    + rewrite H1 in IH. exact IH.
Qed.

(** X11: a callback for one terminal leaves the session record of every
    other terminal as it is. *)
Theorem other_sessions_untouched (h : vte_view) (v u : vte) (p : plugin) :
  u <> v ->
  loggers (fst (_on_contents_changed h v p)) !! u = loggers p !! u.
Proof.
  intros Hne. pose proof (on_contents_changed_record h v p u) as H.
  destruct (loggers p !! u) as [info|]; [|exact H].
  destruct H as (row & H & Hrow). rewrite H, (Hrow Hne).
  destruct info; reflexivity.
Qed.

Lemma other_sessions_untouched_witness :
  loggers (fst (_on_contents_changed example_view 1%nat
                  (with_loggers (insert 2%nat example_logger)
                     (example_plugin [] [])))) !! 2%nat
  = loggers (with_loggers (insert 2%nat example_logger)
               (example_plugin [] [])) !! 2%nat.
Proof.
  apply (other_sessions_untouched example_view 1%nat 2%nat
           (with_loggers (insert 2%nat example_logger) (example_plugin [] []))).
  discriminate.
Defined.

(** X12: [_write_to_log] ignores blank text and terminals without a
    session; otherwise, when the write queue has room, it appends the
    stripped text and a newline for the raw log file, and nothing else
    changes: the text is never handed to the sanitizer queue. *)
Theorem write_to_log_raw_only (v : vte) (text : str) (p : plugin) :
  full (write_queue p) = false ->
  _write_to_log v text p =
  match loggers p !! v with
  | Some info =>
      if is_empty (strip text) || is_empty (filepath info) then (p, Ok tt)
      else (with_write_queue
              (fun q => q ++ [Some (filepath info, strip text ++ [10])]) p,
            Ok tt)
  | None => (p, Ok tt)
  end.
Proof.
  intros Hw. rewrite write_to_log_unfold, Hw.
  assert (Hs : is_empty text || is_empty (strip text) = is_empty (strip text))
    by (destruct text; [reflexivity | apply orb_false_l]).
  rewrite Hs.
  destruct (loggers p !! v) as [info|];
    destruct (is_empty (strip text)); try reflexivity.
Qed.

Lemma write_to_log_raw_only_witness :
  _write_to_log 1%nat (lit "  note  ") (example_plugin [] [])
  = (with_write_queue
       (fun q => q ++ [Some (filepath example_logger, lit "note" ++ [10])])
       (example_plugin [] []), Ok tt).
Proof.
  apply (write_to_log_raw_only 1%nat (lit "  note  ") (example_plugin [] [])).
  reflexivity.
Defined.

(** ** More on the worker threads *)

Section MoreWorkerFacts.

(** A turn of the writer loop without the monad. *)
Lemma async_writer_iteration_unfold a p :
  _async_writer_iteration a p =
  if _shutdown_writer p then (p, Ok Break)
  else
    match write_queue p with
    | [] => (p, Ok Continue)
    | None :: _ => (with_write_queue (drop 1) p, Ok Break)
    | Some (path, content) :: _ =>
        (if is_empty path || is_empty content
         then with_write_queue (drop 1) p
         else fst (write_item a path content (with_write_queue (drop 1) p)),
         Ok Continue)
    end.
Proof.
  destruct (_shutdown_writer p) eqn:Hs.
  { unfold _async_writer_iteration, bind, get, ret. rewrite Hs. reflexivity. }
  destruct (write_queue p) as [|[[path content]|] rest] eqn:Hq.
  - unfold _async_writer_iteration, try_except, bind, get, ret, raise.
    rewrite Hs, Hq. reflexivity.
  - destruct (is_empty path || is_empty content) eqn:He.
    + apply (async_writer_iteration_skip a path content rest p Hs Hq He).
    + apply orb_false_iff in He as [H1 H2].
      apply (async_writer_iteration_item a path content rest p Hs Hq);
        intros ->; discriminate.
  - unfold _async_writer_iteration, try_except, bind, get, ret, modify.
    rewrite Hs, Hq. reflexivity.
Qed.

(** A turn of the sanitizer loop without the monad. *)
Lemma async_sanitizer_iteration_unfold run p :
  _async_sanitizer_iteration run p =
  if _shutdown_writer p then (p, Ok Break)
  else
    match sanitize_queue p with
    | [] => (p, Ok Continue)
    | None :: _ => (with_sanitize_queue (drop 1) p, Ok Break)
    | Some (content, out) :: _ =>
        (if is_empty content || is_empty out
         then with_sanitize_queue (drop 1) p
         else log_sanitizer (Invocation out content run)
                (with_sanitize_queue (drop 1) p),
         Ok Continue)
    end.
Proof.
  unfold _async_sanitizer_iteration, try_except, bind, get, ret, modify,
    sanitize, raise.
  destruct (_shutdown_writer p); [reflexivity|].
  destruct (sanitize_queue p) as [|[[content out]|] rest]; try reflexivity.
  destruct (is_empty content || is_empty out); [reflexivity|].
  destruct run; reflexivity.
Qed.

Lemma foldr_log_os l p :
  os_log (foldr log_os p l) = os_log p ++ rev l
  /\ loggers (foldr log_os p l) = loggers p
  /\ write_queue (foldr log_os p l) = write_queue p
  /\ sanitize_queue (foldr log_os p l) = sanitize_queue p
  /\ _shutdown_writer (foldr log_os p l) = _shutdown_writer p
  /\ open_files (foldr log_os p l) = open_files p
  /\ sanitizer_log (foldr log_os p l) = sanitizer_log p
  /\ waited_ms (foldr log_os p l) = waited_ms p.
Proof.
  induction l as [|c l IH]; cbn [foldr rev].
  - rewrite app_nil_r. repeat split.
  - destruct IH as (H1 & H2 & H3 & H4 & H5 & H6 & H7 & H8).
    cbn [log_os os_log loggers write_queue sanitize_queue _shutdown_writer
         open_files sanitizer_log waited_ms].
    rewrite H1, app_assoc. repeat split; assumption.
Qed.

Lemma close_all_spec p :
  os_log (close_all p) = os_log p ++ (Close <$> values (open_files p))
  /\ loggers (close_all p) = loggers p
  /\ write_queue (close_all p) = write_queue p
  /\ sanitize_queue (close_all p) = sanitize_queue p
  /\ _shutdown_writer (close_all p) = _shutdown_writer p
  /\ open_files (close_all p) = open_files p
  /\ sanitizer_log (close_all p) = sanitizer_log p
  /\ waited_ms (close_all p) = waited_ms p.
Proof.
  unfold close_all.
  pose proof (foldr_log_os (rev (Close <$> values (open_files p))) p)
    as H.
  rewrite rev_involutive in H. exact H.
Qed.

(** [write_item] touches nothing but the handle cache and the log of OS
    calls. *)
Lemma write_item_rest a path content p :
  let p' := fst (write_item a path content p) in
  loggers p' = loggers p
  /\ sanitize_queue p' = sanitize_queue p
  /\ sanitizer_log p' = sanitizer_log p
  /\ waited_ms p' = waited_ms p.
Proof.
  cbv zeta. rewrite write_item_unfold. cbv zeta.
  destruct (open_files p !! path) as [fd|];
    [|destruct (makedirs_ok a); [destruct (open_result a) as [fd|e]|]];
    try destruct (write_ok a); try destruct (flush_ok a);
    repeat split.
Qed.

End MoreWorkerFacts.

(** X13: the writer thread ends at the first turn that sees the shutdown
    flag set or takes the sentinel from the queue.  It then closes every
    cached handle, in the order in which the files were opened, and does
    nothing else to the file system: with the flag set, the items still in
    the queue stay there, unwritten. *)
Theorem writer_exit (a : os_answers) (script : list os_answers) (p : plugin) :
  _shutdown_writer p = true
  \/ (exists rest, write_queue p = None :: rest) ->
  let p' := fst (_async_writer (a :: script) p) in
  snd (_async_writer (a :: script) p) = Break
  /\ os_log p' = os_log p ++ (Close <$> values (open_files p))
  /\ write_queue p'
     = (if _shutdown_writer p then write_queue p else drop 1 (write_queue p)).
Proof.
  intros H. cbv zeta. cbn [_async_writer].
  rewrite async_writer_iteration_unfold.
  destruct (_shutdown_writer p) eqn:Hs.
  - destruct (close_all_spec p) as (H1 & _ & H3 & _). cbn [fst snd].
    auto.
  - destruct H as [H|[rest Hq]]; [discriminate|]. rewrite Hq.
    destruct (close_all_spec (with_write_queue (drop 1) p))
      as (H1 & _ & H3 & _).
    cbn [fst snd]. rewrite H1, H3. cbn. rewrite Hq. auto.
Qed.

Lemma writer_exit_witness :
  let p := Plugin ∅ [Some (lit "/tmp/a.log", lit "pending")] [] true
             {[ lit "/tmp/a.log" := 5%nat ]} [] [] 0 in
  let a := OsAnswers true (Ok 9%nat) true true true in
  let p' := fst (_async_writer [a] p) in
  snd (_async_writer [a] p) = Break
  /\ os_log p' = os_log p ++ (Close <$> values (open_files p))
  /\ write_queue p'
     = (if _shutdown_writer p then write_queue p else drop 1 (write_queue p)).
Proof.
  cbv zeta.
  apply (writer_exit (OsAnswers true (Ok 9%nat) true true true) []
           (Plugin ∅ [Some (lit "/tmp/a.log", lit "pending")] [] true
              {[ lit "/tmp/a.log" := 5%nat ]} [] [] 0)).
  left. reflexivity.
Defined.

Section WriterOrder.


End WriterOrder.



(** X15: when the directory cannot be created or the file cannot be
    opened, the chunk is lost without a write: the turn ends normally, no
    handle is cached or closed, and the item has left the queue, so the
    next chunk for that path tries to open the file again. *)
Theorem open_failure_drops_item
    (a : os_answers) (path content : str) (rest : list item) (p : plugin) :
  _shutdown_writer p = false ->
  write_queue p = Some (path, content) :: rest ->
  path <> [] -> content <> [] ->
  open_files p !! path = None ->
  makedirs_ok a = false \/ (exists e, open_result a = Raise e) ->
  let p' := fst (_async_writer_iteration a p) in
  snd (_async_writer_iteration a p) = Ok Continue
  /\ write_queue p' = rest
  /\ open_files p' = open_files p
  /\ os_log p'
     = os_log p ++ (if makedirs_ok a
                    then [Makedirs (dirname path); OpenAppend path]
                    else [Makedirs (dirname path)]).
Proof.
  intros Hs Hq Hp Hc Hfd Hfail. cbv zeta.
  rewrite (async_writer_iteration_item a path content rest p Hs Hq Hp Hc).
  cbn [fst snd]. rewrite write_item_unfold. cbv zeta.
  cbn [open_files with_write_queue]. rewrite Hfd.
  destruct (makedirs_ok a) eqn:Hm.
  - destruct Hfail as [Hfail|[e He]]; [discriminate|]. rewrite He.
    cbn. rewrite Hq, <- app_assoc. auto.
  - cbn. rewrite Hq. auto.
Qed.

Lemma open_failure_drops_item_witness :
  let a := OsAnswers false (Ok 4%nat) true true true in
  let p := Plugin ∅ [Some (lit "/gone/a.log", lit "one")] [] false ∅ [] [] 0 in
  let p' := fst (_async_writer_iteration a p) in
  snd (_async_writer_iteration a p) = Ok Continue
  /\ write_queue p' = []
  /\ open_files p' = open_files p
  /\ os_log p'
     = os_log p ++ (if makedirs_ok a
                    then [Makedirs (dirname (lit "/gone/a.log"));
                          OpenAppend (lit "/gone/a.log")]
                    else [Makedirs (dirname (lit "/gone/a.log"))]).
Proof.
  cbv zeta.
  apply (open_failure_drops_item (OsAnswers false (Ok 4%nat) true true true)
           (lit "/gone/a.log") (lit "one") []);
    try reflexivity; try discriminate.
  left. reflexivity.
Defined.

Section WorkerFrames.

Local Ltac frame :=
  repeat match goal with |- _ /\ _ => split end;
  try reflexivity;
  try (left; reflexivity); try (right; reflexivity);
  try (exists (@nil os_call); symmetry; apply app_nil_r);
  try (exists (@nil invocation); symmetry; apply app_nil_r);
  try (exists 0%nat; reflexivity);
  try (eexists; reflexivity).

Lemma async_writer_iteration_frame a p :
  let p' := fst (_async_writer_iteration a p) in
  loggers p' = loggers p
  /\ sanitize_queue p' = sanitize_queue p
  /\ sanitizer_log p' = sanitizer_log p
  /\ waited_ms p' = waited_ms p
  /\ _shutdown_writer p' = _shutdown_writer p
  /\ (write_queue p' = write_queue p \/ write_queue p' = drop 1 (write_queue p))
  /\ exists calls, os_log p' = os_log p ++ calls.
Proof.
  cbv zeta. rewrite async_writer_iteration_unfold.
  destruct (_shutdown_writer p) eqn:Hs; [cbn [fst]; rewrite ?Hs; frame|].
  destruct (write_queue p) as [|[[path content]|] rest] eqn:Hq;
    [cbn [fst]; rewrite ?Hs, ?Hq; frame | |
     cbn; rewrite ?Hs, ?Hq; frame].
  cbn [fst]. destruct (is_empty path || is_empty content);
    [cbn; rewrite ?Hs, ?Hq; frame|].
  destruct (write_item_rest a path content (with_write_queue (drop 1) p))
    as (W1 & W2 & W3 & W4).
  destruct (write_item_frame a path content (with_write_queue (drop 1) p))
    as (F1 & F2 & _).
  rewrite W1, W2, W3, W4, F1, F2.
  split; [reflexivity|]. split; [reflexivity|]. split; [reflexivity|].
  split; [reflexivity|]. split; [exact Hs|].
  split; [right; cbn; rewrite Hq; reflexivity|].
  rewrite write_item_unfold. cbv zeta.
  destruct (open_files (with_write_queue (drop 1) p) !! path) as [fd|];
    [|destruct (makedirs_ok a); [destruct (open_result a) as [fd|e]|]];
    try destruct (write_ok a); try destruct (flush_ok a);
    cbn [os_log log_os with_open_files with_write_queue];
    rewrite <- ?app_assoc; eexists; reflexivity.
Qed.

Lemma async_sanitizer_iteration_frame run p :
  let p' := fst (_async_sanitizer_iteration run p) in
  loggers p' = loggers p
  /\ raw_pipeline p' = raw_pipeline p
  /\ waited_ms p' = waited_ms p
  /\ _shutdown_writer p' = _shutdown_writer p
  /\ (sanitize_queue p' = sanitize_queue p
      \/ sanitize_queue p' = drop 1 (sanitize_queue p))
  /\ exists runs, sanitizer_log p' = sanitizer_log p ++ runs.
Proof.
  cbv zeta. rewrite async_sanitizer_iteration_unfold.
  destruct (_shutdown_writer p) eqn:Hs; [cbn [fst]; rewrite ?Hs; frame|].
  destruct (sanitize_queue p) as [|[[content out]|] rest] eqn:Hq;
    [cbn [fst]; rewrite ?Hs, ?Hq; frame | |
     cbn; rewrite ?Hs, ?Hq; frame].
  cbn [fst]. destruct (is_empty content || is_empty out);
    cbn; rewrite ?Hs, ?Hq; frame.
Qed.

Lemma frame_base_os (p : plugin) : exists calls, os_log p = os_log p ++ calls.
Proof. exists []. symmetry. apply app_nil_r. Qed.

Lemma frame_base_runs (p : plugin) :
  exists runs, sanitizer_log p = sanitizer_log p ++ runs.
Proof. exists []. symmetry. apply app_nil_r. Qed.

End WorkerFrames.

(** X16: however long the writer thread runs and whatever the operating
    system answers, it never touches the session records, the sanitizer
    queue or the record of sanitizer runs, it never sets or clears the
    shutdown flag, it only takes items from the head of its queue, and
    what it has done to the file system is only added to. *)
Theorem writer_thread_frame (script : list os_answers) (p : plugin) :
  let p' := fst (_async_writer script p) in
  loggers p' = loggers p
  /\ sanitize_queue p' = sanitize_queue p
  /\ sanitizer_log p' = sanitizer_log p
  /\ waited_ms p' = waited_ms p
  /\ _shutdown_writer p' = _shutdown_writer p
  /\ (exists n, write_queue p' = drop n (write_queue p))
  /\ (exists calls, os_log p' = os_log p ++ calls).
Proof.
  cbv zeta. revert p. induction script as [|a script IH]; intros p.
  - cbn [_async_writer fst].
    split; [reflexivity|]. split; [reflexivity|]. split; [reflexivity|].
    split; [reflexivity|]. split; [reflexivity|].
    split; [exists 0%nat; reflexivity | apply frame_base_os].
  - cbn [_async_writer].
    destruct (async_writer_iteration_frame a p)
      as (F1 & F2 & F3 & F4 & F5 & F6 & calls & F7).
    assert (Hq : exists n, write_queue (fst (_async_writer_iteration a p))
                           = drop n (write_queue p)).
    { destruct F6 as [-> | ->]; [exists 0%nat | exists 1%nat]; reflexivity. }
    destruct (_async_writer_iteration a p) as [p1 [[]|e]]; cbn [fst] in *.
    + destruct (IH p1) as (I1 & I2 & I3 & I4 & I5 & [n I6] & calls' & I7).
      rewrite I1, I2, I3, I4, I5, I6, I7, F1, F2, F3, F4, F5, F7.
      destruct Hq as [m ->]. rewrite drop_drop, <- app_assoc.
      repeat (split; [reflexivity|]). split; eexists; reflexivity.
    + destruct (close_all_spec p1) as (C1 & C2 & C3 & C4 & C5 & _ & C7 & C8).
      rewrite C1, C2, C3, C4, C5, C7, C8, F1, F2, F3, F4, F5, F7.
      rewrite <- app_assoc. destruct Hq as [m Hm].
      repeat (split; [reflexivity|]).
      split; [exists m; exact Hm | eexists; reflexivity].
    + destruct (IH p1) as (I1 & I2 & I3 & I4 & I5 & [n I6] & calls' & I7).
      rewrite I1, I2, I3, I4, I5, I6, I7, F1, F2, F3, F4, F5, F7.
      destruct Hq as [m ->]. rewrite drop_drop, <- app_assoc.
      repeat (split; [reflexivity|]). split; eexists; reflexivity.
Qed.

(** X17: however long the sanitizer thread runs and however its runs end,
    it never touches the raw pipeline (the write queue, the handle cache,
    the file system) or the session records; it only takes items from the
    head of its queue. *)
Theorem sanitizer_thread_frame (script : list sanitizer_run) (p : plugin) :
  let p' := fst (_async_sanitizer script p) in
  raw_pipeline p' = raw_pipeline p
  /\ loggers p' = loggers p
  /\ waited_ms p' = waited_ms p
  /\ _shutdown_writer p' = _shutdown_writer p
  /\ (exists n, sanitize_queue p' = drop n (sanitize_queue p))
  /\ (exists runs, sanitizer_log p' = sanitizer_log p ++ runs).
Proof.
  cbv zeta. revert p. induction script as [|run script IH]; intros p.
  - cbn [_async_sanitizer fst].
    split; [reflexivity|]. split; [reflexivity|]. split; [reflexivity|].
    split; [reflexivity|].
    split; [exists 0%nat; reflexivity | apply frame_base_runs].
  - cbn [_async_sanitizer].
    destruct (async_sanitizer_iteration_frame run p)
      as (F1 & F2 & F3 & F4 & F5 & runs & F6).
    assert (Hq : exists n,
              sanitize_queue (fst (_async_sanitizer_iteration run p))
              = drop n (sanitize_queue p)).
    { destruct F5 as [-> | ->]; [exists 0%nat | exists 1%nat]; reflexivity. }
    destruct (_async_sanitizer_iteration run p) as [p1 [[]|e]];
      cbn [fst] in *.
    + destruct (IH p1) as (I1 & I2 & I3 & I4 & [n I5] & runs' & I6).
      rewrite I1, I2, I3, I4, I5, I6, F1, F2, F3, F4, F6.
      destruct Hq as [m ->]. rewrite drop_drop, <- app_assoc.
      repeat (split; [reflexivity|]). split; eexists; reflexivity.
    + rewrite F1, F2, F3, F4, F6. destruct Hq as [m Hm].
      repeat (split; [reflexivity|]).
      split; [exists m; exact Hm | eexists; reflexivity].
    + destruct (IH p1) as (I1 & I2 & I3 & I4 & [n I5] & runs' & I6).
      rewrite I1, I2, I3, I4, I5, I6, F1, F2, F3, F4, F6.
      destruct Hq as [m ->]. rewrite drop_drop, <- app_assoc.
      repeat (split; [reflexivity|]). split; eexists; reflexivity.
Qed.

(** X18: the sanitizer thread hands every well-formed chunk of its queue
    to the external sanitizer exactly once, in queue order, with the chunk
    on standard input and the sanitized log file as output, whatever the
    earlier runs did: a failed run neither stops the thread nor is
    repeated. *)
Theorem sanitizer_in_order
    (items : list (str * str)) (runs : list sanitizer_run)
    (rest : list item) (p : plugin) :
  _shutdown_writer p = false ->
  sanitize_queue p = (Some <$> items) ++ rest ->
  Forall (fun it : str * str => it.1 <> [] /\ it.2 <> []) items ->
  length runs = length items ->
  let p' := fst (_async_sanitizer runs p) in
  snd (_async_sanitizer runs p) = Continue
  /\ sanitizer_log p' = sanitizer_log p ++ invocations items runs
  /\ sanitize_queue p' = rest.
Proof.
  cbv zeta. revert runs p.
  induction items as [|[content out] items IH]; intros runs p Hs Hq Hwf Hlen.
  - destruct runs; [|discriminate]. cbn. rewrite app_nil_r. auto.
  - destruct runs as [|run runs]; [discriminate|]. injection Hlen as Hlen.
    inversion Hwf as [|? ? [Hc Ho] Hwf']; subst. cbn in Hc, Ho.
    cbn [fmap list_fmap app] in Hq. cbn [_async_sanitizer].
    rewrite (async_sanitizer_iteration_item run content out _ p Hs Hq Hc Ho).
    cbv beta iota.
    destruct (IH runs (log_sanitizer (Invocation out content run)
                         (with_sanitize_queue (drop 1) p)))
      as (R0 & R1 & R2); [exact Hs | | exact Hwf' | exact Hlen |].
    { cbn. rewrite Hq. reflexivity. }
    split; [exact R0|]. split; [|exact R2].
    rewrite R1. cbn. rewrite <- app_assoc. reflexivity.
Qed.

Lemma sanitizer_in_order_witness :
  let p := Plugin ∅ [] [Some (lit "one", lit "/tmp/t.log");
                        Some (lit "two", lit "/tmp/t.log"); None]
             false ∅ [] [] 0 in
  let p' := fst (_async_sanitizer [TimedOut; Exited 0] p) in
  snd (_async_sanitizer [TimedOut; Exited 0] p) = Continue
  /\ sanitizer_log p'
     = sanitizer_log p
       ++ invocations [(lit "one", lit "/tmp/t.log");
                       (lit "two", lit "/tmp/t.log")] [TimedOut; Exited 0]
  /\ sanitize_queue p' = [None].
Proof.
  cbv zeta.
  apply (sanitizer_in_order
           [(lit "one", lit "/tmp/t.log"); (lit "two", lit "/tmp/t.log")]
           [TimedOut; Exited 0] [None]);
    try reflexivity.
  repeat constructor; discriminate.
Defined.

(** X19: the sanitizer thread ends at the first turn that sees the
    shutdown flag set or takes the sentinel; it starts no sanitizer run
    then, and with the flag set the chunks still in its queue are never
    sanitized. *)
Theorem sanitizer_exit
    (run : sanitizer_run) (script : list sanitizer_run) (p : plugin) :
  _shutdown_writer p = true
  \/ (exists rest, sanitize_queue p = None :: rest) ->
  let p' := fst (_async_sanitizer (run :: script) p) in
  snd (_async_sanitizer (run :: script) p) = Break
  /\ sanitizer_log p' = sanitizer_log p
  /\ sanitize_queue p'
     = (if _shutdown_writer p then sanitize_queue p
        else drop 1 (sanitize_queue p)).
Proof.
  intros H. cbv zeta. cbn [_async_sanitizer].
  rewrite async_sanitizer_iteration_unfold.
  destruct (_shutdown_writer p) eqn:Hs; [cbn; auto|].
  destruct H as [H|[rest Hq]]; [discriminate|]. rewrite Hq. cbn.
  rewrite Hq. auto.
Qed.

Lemma sanitizer_exit_witness :
  let p := Plugin ∅ [] [Some (lit "pending", lit "/tmp/t.log")]
             true ∅ [] [] 0 in
  let p' := fst (_async_sanitizer [Exited 0] p) in
  snd (_async_sanitizer [Exited 0] p) = Break
  /\ sanitizer_log p' = sanitizer_log p
  /\ sanitize_queue p'
     = (if _shutdown_writer p then sanitize_queue p
        else drop 1 (sanitize_queue p)).
Proof.
  cbv zeta.
  apply (sanitizer_exit (Exited 0) []
           (Plugin ∅ [] [Some (lit "pending", lit "/tmp/t.log")]
              true ∅ [] [] 0)).
  left. reflexivity.
Defined.

Section EndToEnd.

Lemma content_to_log_nonempty (new_content chunk : str) :
  content_to_log new_content = Some chunk -> chunk <> [].
Proof.
  unfold content_to_log.
  destruct (filter_lines (split_lines new_content)); [discriminate|].
  intros [= <-]. intros E. apply app_eq_nil in E as [_ E]. discriminate.
Qed.

End EndToEnd.

(** X20: from capture to both logs.  When a callback emits a chunk into
    empty queues, the next turn of the writer opens the raw log file of
    the session in append mode and writes and flushes exactly that chunk,
    and the next turn of the sanitizer thread starts one sanitizer run
    with exactly that chunk on standard input and the sanitized log file
    of the session as output; both queues are empty again. *)
Theorem chunk_reaches_both_logs
    (h : vte_view) (v : vte) (p : plugin) (info : logger_info)
    (col row columns : Z) (chunk : str)
    (a : os_answers) (fd : handle) (run : sanitizer_run) :
  loggers p !! v = Some info ->
  get_cursor_position h = Ok (Some (col, row)) ->
  (last_row info < row)%Z ->
  get_column_count h = Ok columns ->
  _looks_like_prompt (_get_content h row 0 row columns) = true ->
  content_to_log (_get_content h (Z.max 0 (last_row info)) 0 row columns)
  = Some chunk ->
  write_queue p = [] -> sanitize_queue p = [] ->
  _shutdown_writer p = false ->
  filepath info <> [] -> sanitized_filepath info <> [] ->
  open_files p !! filepath info = None ->
  opens_ok fd a -> writes_ok a ->
  let p1 := fst (_on_contents_changed h v p) in
  let p2 := fst (_async_writer_iteration a p1) in
  let p3 := fst (_async_sanitizer_iteration run p2) in
  os_log p3
  = os_log p ++ [Makedirs (dirname (filepath info)); OpenAppend (filepath info);
                 Write fd chunk; Flush fd]
  /\ sanitizer_log p3
     = sanitizer_log p ++ [Invocation (sanitized_filepath info) chunk run]
  /\ write_queue p3 = [] /\ sanitize_queue p3 = [].
Proof.
  intros Hv Hc Hrow Hcol Hp Hchunk Hwq Hsq Hs Hf Hsf Hfd [Hm Ho] [Hw Hfl].
  cbv zeta.
  rewrite (on_contents_changed_fires h v p info col row columns Hv Hc Hrow
             Hcol Hp) by (rewrite ?Hwq, ?Hsq; reflexivity).
  rewrite Hchunk. cbn [fst].
  pose proof (content_to_log_nonempty _ _ Hchunk) as Hne.
  set (p1 := with_loggers _ _).
  rewrite (async_writer_iteration_item a (filepath info) chunk [] p1);
    [| exact Hs | subst p1; cbn; rewrite Hwq; reflexivity | exact Hf | exact Hne].
  cbn [fst]. rewrite write_item_unfold. cbv zeta.
  change (open_files (with_write_queue (drop 1) p1)) with (open_files p).
  rewrite Hfd, Hm, Ho, Hw, Hfl.
  set (p2 := log_os _ _).
  rewrite (async_sanitizer_iteration_item run chunk (sanitized_filepath info)
             [] p2);
    [| exact Hs | subst p2 p1; cbn; rewrite Hsq; reflexivity | exact Hne
     | exact Hsf].
  subst p2 p1. cbn. rewrite Hwq, Hsq, <- !app_assoc. auto.
Qed.

Lemma chunk_reaches_both_logs_witness :
  let a := OsAnswers true (Ok 4%nat) true true true in
  let chunk := PROMPT_TAIL ++ lit " ls" ++ [10] ++ lit "a.txt" ++ [10] in
  let p := example_plugin [] [] in
  let p1 := fst (_on_contents_changed example_view 1%nat p) in
  let p2 := fst (_async_writer_iteration a p1) in
  let p3 := fst (_async_sanitizer_iteration (Exited 0) p2) in
  os_log p3
  = os_log p ++ [Makedirs (dirname (filepath example_logger));
                 OpenAppend (filepath example_logger);
                 Write 4%nat chunk; Flush 4%nat]
  /\ sanitizer_log p3
     = sanitizer_log p
       ++ [Invocation (sanitized_filepath example_logger) chunk (Exited 0)]
  /\ write_queue p3 = [] /\ sanitize_queue p3 = [].
Proof.
  cbv zeta.
  apply (chunk_reaches_both_logs example_view 1%nat (example_plugin [] [])
           example_logger 0%Z 7%Z 80%Z
           (PROMPT_TAIL ++ lit " ls" ++ [10] ++ lit "a.txt" ++ [10])
           (OsAnswers true (Ok 4%nat) true true true) 4%nat (Exited 0));
    try reflexivity; try discriminate.
  - split; reflexivity.
  - split; reflexivity.
Defined.

(** ** More on terminal identifiers *)

Section MoreIdentityFacts.
Local Open Scope Z_scope.

Lemma get_terminal_id_counter query v r :
  terminal_counter r <= terminal_counter (fst (_get_terminal_id query v r)).
Proof.
  rewrite get_terminal_id_unfold. cbv zeta.
  destruct (terminal_ids r !! v); [cbn; lia|].
  destruct query as [|fd [| |p]]; cbn; try lia.
  destruct (is_empty p); [cbn; lia|].
  destruct (_global_pty_to_terminal_id r !! p); cbn; lia.
Qed.

Lemma run_registry_counter ops : forall r,
  terminal_counter r <= terminal_counter (run_registry ops r).
Proof.
  induction ops as [|op ops IH]; intros r; [cbn; lia|].
  change (run_registry (op :: ops) r)
    with (run_registry ops (registry_step r op)).
  etransitivity; [|apply IH].
  destruct op as [query v|v]; [apply get_terminal_id_counter | cbn; lia].
Qed.

(** The fallback: the counter moves on by one and names the terminal. *)
Lemma get_terminal_id_fallback query v r :
  terminal_ids r !! v = None -> pty_unavailable query ->
  _get_terminal_id query v r
  = (with_terminal_ids
       (insert v (id_plain (_global_session_timestamp r)
                    (terminal_counter r + 1)))
       (with_terminal_counter (fun n => n + 1) r),
     Ok (id_plain (_global_session_timestamp r) (terminal_counter r + 1))).
Proof.
  intros Hc Hq. rewrite get_terminal_id_unfold. cbv zeta. rewrite Hc.
  destruct query as [|fd [| |p]]; try contradiction; reflexivity.
Qed.

End MoreIdentityFacts.


(** X22: over the life of the process an identifier recorded for a PTY
    path is never removed or replaced, the session timestamp stays the
    same, and the fallback counter never goes down, whatever terminals are
    resolved or forgotten and whatever the host answers about their
    PTYs. *)
Theorem registry_only_grows (ops : list registry_op) (r : registry) :
  (forall p id,
     _global_pty_to_terminal_id r !! p = Some id ->
     _global_pty_to_terminal_id (run_registry ops r) !! p = Some id)
  /\ _global_session_timestamp (run_registry ops r)
     = _global_session_timestamp r
  /\ (terminal_counter r <= terminal_counter (run_registry ops r))%Z.
Proof.
  split; [|split].
  - intros p id. apply run_registry_keeps.
  - apply run_registry_timestamp.
  - apply run_registry_counter.
Qed.



(** X24: the counter fallback and a PTY without a name share one form of
    identifier: the terminal that falls back to the counter gets the
    identifier that a terminal with no PTY name and with the descriptor
    number equal to the new counter value gets. *)
Theorem fallback_collides_with_unnamed
    (query : pty_query) (v1 v2 : vte) (r : registry) :
  pty_unavailable query ->
  terminal_ids r !! v1 = None -> terminal_ids r !! v2 = None -> v1 <> v2 ->
  let r1 := fst (_get_terminal_id query v1 r) in
  snd (_get_terminal_id (Pty (terminal_counter r + 1) NoName) v2 r1)
  = snd (_get_terminal_id query v1 r).
Proof.
  intros Hq H1 H2 Hne. cbv zeta.
  rewrite (get_terminal_id_fallback query v1 r H1 Hq). cbn [fst snd].
  rewrite get_terminal_id_unfold. cbv zeta. cbn [terminal_ids with_terminal_ids
    with_terminal_counter].
  rewrite lookup_insert_ne by exact Hne. rewrite H2. reflexivity.
Qed.

Lemma fallback_collides_with_unnamed_witness :
  let r := new_registry (lit "20240101_120000") in
  let r1 := fst (_get_terminal_id PtyError 1%nat r) in
  snd (_get_terminal_id (Pty (terminal_counter r + 1) NoName) 2%nat r1)
  = snd (_get_terminal_id PtyError 1%nat r).
Proof.
  cbv zeta.
  apply (fallback_collides_with_unnamed PtyError 1%nat 2%nat
           (new_registry (lit "20240101_120000")));
    try exact I; try reflexivity. discriminate.
Defined.

(** ** The life of a session *)

Section LifecycleFacts.
Local Open Scope Z_scope.

Lemma full_room (q : list item) (x : item) :
  (length q + 2 <= MAXSIZE)%nat -> full q = false /\ full (q ++ [x]) = false.
Proof.
  intros H. unfold full. rewrite length_app. cbn [length].
  split; apply Nat.leb_gt; lia.
Qed.

Lemma get_terminal_id_ok query v r :
  exists id,
    snd (_get_terminal_id query v r) = Ok id
    /\ terminal_ids (fst (_get_terminal_id query v r)) !! v = Some id.
Proof.
  rewrite get_terminal_id_unfold. cbv zeta.
  destruct (terminal_ids r !! v) as [id|] eqn:Hc; [eauto|].
  destruct query as [|fd [| |p]];
    try (eexists; split; [reflexivity | apply lookup_insert_eq]).
  destruct (is_empty p);
    [eexists; split; [reflexivity | apply lookup_insert_eq]|].
  destruct (_global_pty_to_terminal_id r !! p);
    eexists; split; try reflexivity; apply lookup_insert_eq.
Qed.

(** A cached identifier is answered from the cache. *)
Lemma get_terminal_id_hit query v r id :
  terminal_ids r !! v = Some id -> _get_terminal_id query v r = (r, Ok id).
Proof.
  intros H. rewrite get_terminal_id_unfold. cbv zeta. rewrite H. reflexivity.
Qed.

(** Cached identifiers are never replaced by [_get_terminal_id]. *)
Lemma get_terminal_id_cache_grows query v r u id :
  terminal_ids r !! u = Some id ->
  terminal_ids (fst (_get_terminal_id query v r)) !! u = Some id.
Proof.
  intros H. rewrite get_terminal_id_unfold. cbv zeta.
  destruct (terminal_ids r !! v) eqn:Hv; [exact H|].
  assert (Hne : v <> u) by congruence.
  destruct query as [|fd [| |p]]; cbn;
    try (rewrite lookup_insert_ne by exact Hne; exact H).
  destruct (is_empty p); cbn;
    [rewrite lookup_insert_ne by exact Hne; exact H|].
  destruct (_global_pty_to_terminal_id r !! p); cbn;
    rewrite lookup_insert_ne by exact Hne; exact H.
Qed.

Lemma queues_only_refl self : queues_only self self.
Proof. repeat split. Qed.

Lemma queues_only_trans s1 s2 s3 :
  queues_only s1 s2 -> queues_only s2 s3 -> queues_only s1 s3.
Proof.
  unfold queues_only. intros (?&?&?&?&?&?&?) (?&?&?&?&?&?&?).
  repeat split; congruence.
Qed.

Lemma enqueues_ret {A} (a : A) : enqueues (ret a).
Proof. intros self. apply queues_only_refl. Qed.

Lemma enqueues_call {A} (r : result A) : enqueues (call r).
Proof. intros self. apply queues_only_refl. Qed.

Lemma enqueues_bind {A B} (m : M autologger A) (k : A -> M autologger B) :
  enqueues m -> (forall a, enqueues (k a)) -> enqueues (bind m k).
Proof.
  intros Hm Hk self. unfold bind. specialize (Hm self).
  destruct (m self) as [s' [a|e]]; [|exact Hm].
  eapply queues_only_trans; [exact Hm | apply Hk].
Qed.

Lemma enqueues_try {A} (m handler : M autologger A) handles :
  enqueues m -> enqueues handler -> enqueues (try_except m handles handler).
Proof.
  intros Hm Hh self. unfold try_except. specialize (Hm self).
  destruct (m self) as [s' [a|e]]; [exact Hm|].
  destruct (handles e); [|exact Hm].
  eapply queues_only_trans; [exact Hm | apply Hh].
Qed.

Lemma enqueues_put_write x timeout : enqueues (in_core (put_write x timeout)).
Proof.
  intros self. unfold in_core, put_write.
  destruct (full (write_queue (core self))); repeat split.
Qed.

Lemma enqueues_put_sanitize x timeout :
  enqueues (in_core (put_sanitize x timeout)).
Proof.
  intros self. unfold in_core, put_sanitize.
  destruct (full (sanitize_queue (core self))); repeat split.
Qed.

Lemma enqueues_start_banner fs now t original sanitized :
  enqueues (start_banner fs now t original sanitized).
Proof.
  unfold start_banner.
  apply enqueues_try; [|apply enqueues_ret].
  apply enqueues_bind.
  { destruct (path_exists fs original);
      [apply enqueues_call | apply enqueues_ret]. }
  intros size. destruct (negb _ || _); [|apply enqueues_ret].
  apply enqueues_bind; [apply enqueues_put_write|]. intros _.
  apply enqueues_bind; [apply enqueues_put_sanitize|]. intros _.
  apply enqueues_bind; [apply enqueues_call|]. intros rows.
  apply enqueues_bind; [apply enqueues_call|]. intros columns.
  cbv zeta. destruct (is_empty _); [apply enqueues_ret|].
  destruct (content_to_log _); [|apply enqueues_ret].
  apply enqueues_bind; [apply enqueues_put_write|]. intros _.
  apply enqueues_put_sanitize.
Qed.

Lemma start_banner_ok fs now t original sanitized self :
  snd (start_banner fs now t original sanitized self) = Ok tt.
Proof.
  unfold start_banner, try_except.
  match goal with |- context [match ?m self with _ => _ end] =>
    destruct (m self) as [s' [[]|e]] end; reflexivity.
Qed.

(** [_start_logging] without the monad. *)
Lemma start_logging_unfold fs now t self :
  _start_logging fs now t self =
  match loggers (core self) !! get_vte t with
  | Some _ => (self, Ok tt)
  | None =>
      let r := _get_terminal_id (get_pty t) (get_vte t) (names self) in
      match snd r, get_cursor_position (vte_widget t), connect t with
      | Ok id, Ok cursor_pos, Ok handler =>
          let original := original_logfile (log_directory self) id in
          let sanitized := sanitized_logfile (log_directory self) id in
          (fst (start_banner fs now t original sanitized
                  (AutoLogger
                     (with_loggers
                        (insert (get_vte t)
                           (LoggerInfo original sanitized id
                              (default (0, 0) cursor_pos).1
                              (default (0, 0) cursor_pos).2 handler))
                        (core self))
                     (fst r) (log_directory self))),
           Ok tt)
      | _, _, _ => (AutoLogger (core self) (fst r) (log_directory self), Ok tt)
      end
  end.
Proof.
  unfold _start_logging, try_except, bind, get.
  destruct (loggers (core self) !! get_vte t); [reflexivity|].
  unfold in_names at 1. cbv zeta.
  destruct (_get_terminal_id (get_pty t) (get_vte t) (names self))
    as [r [id|e]]; [|reflexivity].
  cbn [fst snd]. unfold call at 1.
  destruct (get_cursor_position (vte_widget t)) as [cursor_pos|e];
    [|reflexivity].
  assert (E : match cursor_pos with Some position => position | None => (0, 0) end
              = ((default (0, 0) cursor_pos).1, (default (0, 0) cursor_pos).2)).
  { destruct cursor_pos as [[col row]|]; reflexivity. }
  rewrite E. clear E. cbv beta iota.
  unfold call at 1. destruct (connect t) as [handler|e]; [|reflexivity].
  unfold in_core at 1, modify. cbn [fst snd core names log_directory].
  match goal with |- context [start_banner ?a ?b ?c ?d ?e ?s] =>
    pose proof (start_banner_ok a b c d e s) as Hok;
    destruct (start_banner a b c d e s) as [s' res] end.
  cbn [snd] in Hok. subst res. reflexivity.
Qed.

(** The session that a start registers. *)
Lemma start_logging_loggers fs now t self :
  loggers (core self) !! get_vte t = None ->
  exists id,
    snd (_get_terminal_id (get_pty t) (get_vte t) (names self)) = Ok id
    /\ names (fst (_start_logging fs now t self))
       = fst (_get_terminal_id (get_pty t) (get_vte t) (names self))
    /\ log_directory (fst (_start_logging fs now t self)) = log_directory self
    /\ loggers (core (fst (_start_logging fs now t self))) =
       match get_cursor_position (vte_widget t), connect t with
       | Ok cursor_pos, Ok handler =>
           <[get_vte t :=
               LoggerInfo (original_logfile (log_directory self) id)
                 (sanitized_logfile (log_directory self) id) id
                 (default (0, 0) cursor_pos).1 (default (0, 0) cursor_pos).2
                 handler]> (loggers (core self))
       | _, _ => loggers (core self)
       end.
Proof.
  intros Hv. rewrite start_logging_unfold, Hv. cbv zeta.
  destruct (get_terminal_id_ok (get_pty t) (get_vte t) (names self))
    as (id & Hid & _).
  exists id. split; [exact Hid|]. rewrite Hid.
  destruct (get_cursor_position (vte_widget t)) as [cursor_pos|e];
    [|repeat split].
  destruct (connect t) as [handler|e]; [|repeat split].
  cbn [fst].
  match goal with |- context [start_banner ?a ?b ?c ?d ?e ?s] =>
    destruct (enqueues_start_banner a b c d e s) as (Hn & Hd & Hl & _) end.
  rewrite Hn, Hd, Hl. repeat split.
Qed.

Lemma start_logging_ok fs now t self : snd (_start_logging fs now t self) = Ok tt.
Proof.
  rewrite start_logging_unfold.
  destruct (loggers (core self) !! get_vte t); [reflexivity|]. cbv zeta.
  destruct (snd (_get_terminal_id (get_pty t) (get_vte t) (names self)));
    [|reflexivity].
  destruct (get_cursor_position (vte_widget t)); [|reflexivity].
  destruct (connect t); reflexivity.
Qed.


(** The inner [try] for a log file that has content already, or whose
    size cannot be read. *)
Lemma start_banner_skip fs now t original sanitized self :
  path_exists fs original = true ->
  path_getsize fs original <> Ok 0 ->
  start_banner fs now t original sanitized self = (self, Ok tt).
Proof.
  intros Hex Hsize. unfold start_banner, try_except, bind. rewrite Hex.
  unfold call. destruct (path_getsize fs original) as [size|e]; [|reflexivity].
  destruct (size =? 0) eqn:E; [|reflexivity].
  apply Z.eqb_eq in E. congruence.
Qed.

(** The chunks of a start on a fresh log file: the banner, and the
    snapshot of the visible buffer if any line of it passes the filter. *)
Lemma start_banner_fresh fs now t original sanitized self :
  path_exists fs original = false \/ path_getsize fs original = Ok 0 ->
  (length (write_queue (core self)) + 2 <= MAXSIZE)%nat ->
  (length (sanitize_queue (core self)) + 2 <= MAXSIZE)%nat ->
  let snapshot :=
    match get_row_count t, get_column_count (vte_widget t) with
    | Ok rows, Ok columns =>
        option_list (content_to_log (_get_content (vte_widget t) 0 0 rows columns))
    | _, _ => []
    end in
  let self' := fst (start_banner fs now t original sanitized self) in
  write_queue (core self')
  = write_queue (core self) ++ items_for original (session_start now :: snapshot)
  /\ sanitize_queue (core self')
     = sanitize_queue (core self)
       ++ ((fun content => Some (content, sanitized))
             <$> session_start now :: snapshot)
  /\ waited_ms (core self') = waited_ms (core self).
Proof.
  intros Hfresh Hw Hs. cbv zeta.
  destruct (full_room _ (Some (original, session_start now)) Hw) as [Hw1 Hw2].
  destruct (full_room _ (Some (session_start now, sanitized)) Hs) as [Hs1 Hs2].
  destruct self as [[lg wq sq sh ofs ol sl ms] r dir].
  cbn [core write_queue sanitize_queue waited_ms] in Hw1, Hw2, Hs1, Hs2 |- *.
  set (snapshot :=
         match get_row_count t, get_column_count (vte_widget t) with
         | Ok rows, Ok columns =>
             option_list
               (content_to_log (_get_content (vte_widget t) 0 0 rows columns))
         | _, _ => []
         end).
  assert (H : fst (start_banner fs now t original sanitized
                     (AutoLogger (Plugin lg wq sq sh ofs ol sl ms) r dir))
              = AutoLogger
                  (Plugin lg
                     (wq ++ items_for original (session_start now :: snapshot))
                     (sq ++ ((fun content => Some (content, sanitized))
                               <$> session_start now :: snapshot))
                     sh ofs ol sl ms) r dir);
    [|rewrite H; auto].
  unfold start_banner, try_except. unfold bind at 1.
  assert (Hsize : exists size,
            (if path_exists fs original
             then call (path_getsize fs original) else ret 0)
              (AutoLogger (Plugin lg wq sq sh ofs ol sl ms) r dir)
            = (AutoLogger (Plugin lg wq sq sh ofs ol sl ms) r dir, Ok size)
            /\ negb (path_exists fs original) || (size =? 0) = true).
  { exists 0. destruct Hfresh as [H|H].
    - rewrite H. split; reflexivity.
    - destruct (path_exists fs original); [|split; reflexivity].
      rewrite H. split; reflexivity. }
  destruct Hsize as (size & -> & ->).
  unfold bind, in_core, put_write, put_sanitize, call, ret,
    with_write_queue, with_sanitize_queue.
  cbn [core names log_directory loggers write_queue sanitize_queue
       _shutdown_writer open_files os_log sanitizer_log waited_ms fst snd].
  rewrite Hw1.
  cbn [core names log_directory loggers write_queue sanitize_queue
       _shutdown_writer open_files os_log sanitizer_log waited_ms fst snd].
  rewrite Hs1.
  cbn [core names log_directory loggers write_queue sanitize_queue
       _shutdown_writer open_files os_log sanitizer_log waited_ms fst snd].
  subst snapshot.
  destruct (get_row_count t) as [rows|e]; [|reflexivity].
  destruct (get_column_count (vte_widget t)) as [columns|e]; [|reflexivity].
  destruct (_get_content (vte_widget t) 0 0 rows columns) as [|c content] eqn:E.
  { rewrite content_to_log_empty. reflexivity. }
  cbn [is_empty].
  destruct (content_to_log (c :: content)) as [initial_log|]; [|reflexivity].
  cbn [core names log_directory loggers write_queue sanitize_queue
       _shutdown_writer open_files os_log sanitizer_log waited_ms fst snd].
  rewrite Hw2.
  cbn [core names log_directory loggers write_queue sanitize_queue
       _shutdown_writer open_files os_log sanitizer_log waited_ms fst snd].
  rewrite Hs2.
  cbn [core names log_directory loggers write_queue sanitize_queue
       _shutdown_writer open_files os_log sanitizer_log waited_ms fst snd].
  rewrite <- !app_assoc. reflexivity.
Qed.

(** [_stop_logging] without the monad. *)
Lemma stop_logging_unfold t self :
  _stop_logging t self =
  match loggers (core self) !! get_vte t, disconnect t with
  | Some _, Ok _ =>
      (AutoLogger (with_loggers (delete (get_vte t)) (core self))
         (with_terminal_ids (delete (get_vte t)) (names self))
         (log_directory self),
       Ok tt)
  | _, _ => (self, Ok tt)
  end.
Proof.
  unfold _stop_logging, bind, get, try_except, call, in_core, in_names, modify.
  destruct (loggers (core self) !! get_vte t); [|reflexivity].
  destruct (disconnect t) as [[]|e]; reflexivity.
Qed.

Lemma stop_logging_ok t self : snd (_stop_logging t self) = Ok tt.
Proof.
  rewrite stop_logging_unfold.
  destruct (loggers (core self) !! get_vte t); [|reflexivity].
  destruct (disconnect t); reflexivity.
Qed.

(** The guard of the poll repeats the first test of [_start_logging]. *)
Lemma start_new_unfold fs now t rest self :
  start_new fs now (t :: rest) self
  = start_new fs now rest (fst (_start_logging fs now t self)).
Proof.
  cbn [start_new]. unfold bind at 1. unfold bind at 1. unfold get at 1.
  pose proof (start_logging_ok fs now t self) as Hok.
  destruct (loggers (core self) !! get_vte t) eqn:E.
  - rewrite start_logging_unfold, E. reflexivity.
  - destruct (_start_logging fs now t self) as [s' res]. cbn [snd] in Hok.
    subst res. reflexivity.
Qed.

Lemma start_new_ok fs now ts : forall self,
  snd (start_new fs now ts self) = Ok tt.
Proof.
  induction ts as [|t ts IH]; intros self; [reflexivity|].
  rewrite start_new_unfold. apply IH.
Qed.

Lemma check_for_new_terminals_unfold fs now terminals self :
  _check_for_new_terminals fs now terminals self =
  (match terminals with
   | Ok ts => fst (start_new fs now ts self)
   | Raise _ => self
   end,
   Ok true).
Proof.
  unfold _check_for_new_terminals, try_except, bind, call, ret.
  destruct terminals as [ts|e]; [|reflexivity].
  pose proof (start_new_ok fs now ts self) as Hok.
  destruct (start_new fs now ts self) as [s' res]. cbn [snd] in Hok.
  subst res. reflexivity.
Qed.

(** *** Sessions are named by the registry *)

Lemma ids_by_path_resolve pty_of v r :
  ids_by_path pty_of r ->
  ids_by_path pty_of (fst (_get_terminal_id (pty_of v) v r)).
Proof.
  intros I. rewrite get_terminal_id_unfold. cbv zeta.
  destruct (terminal_ids r !! v) eqn:Hc; [exact I|].
  assert (Hplain : forall id r',
    _global_pty_to_terminal_id r' = _global_pty_to_terminal_id r ->
    terminal_ids r' = terminal_ids r ->
    (forall fd p, pty_of v = Pty fd (Name p) -> p <> [] ->
       _global_pty_to_terminal_id r !! p = Some id) ->
    ids_by_path pty_of (with_terminal_ids (insert v id) r')).
  { intros id r' Hg Hi Hv u id' fd p. cbn. rewrite Hg, Hi. intros Hu Hq Hp.
    destruct (decide (v = u)) as [->|Hne].
    - rewrite lookup_insert_eq in Hu. injection Hu as <-. eauto.
    - rewrite lookup_insert_ne in Hu by exact Hne. eauto. }
  destruct (pty_of v) as [|fd [| |p]] eqn:Hq; cbn [fst];
    try (apply Hplain; [reflexivity..|]; intros; discriminate).
  destruct (is_empty p) eqn:Hp.
  { apply Hplain; [reflexivity..|]. intros fd' p' E Hne.
    injection E as <- <-. destruct p; [congruence | discriminate]. }
  destruct (_global_pty_to_terminal_id r !! p) as [id|] eqn:Hg.
  { apply Hplain; [reflexivity..|]. intros fd' p' E _.
    injection E as <- <-. exact Hg. }
  intros u id' fd' p' Hu Hq' Hp'. cbn in Hu |- *.
  destruct (decide (v = u)) as [->|Hne].
  - rewrite lookup_insert_eq in Hu. injection Hu as <-.
    rewrite Hq in Hq'. injection Hq' as <- <-. apply lookup_insert_eq.
  - rewrite lookup_insert_ne in Hu by exact Hne.
    pose proof (I u id' fd' p' Hu Hq' Hp') as Hold.
    rewrite lookup_insert_ne by congruence. exact Hold.
Qed.

Lemma named_by_start pty_of fs now t self :
  get_pty t = pty_of (get_vte t) ->
  named_by pty_of self -> named_by pty_of (fst (_start_logging fs now t self)).
Proof.
  intros Hq [Hs Hi].
  destruct (loggers (core self) !! get_vte t) as [info|] eqn:Hv.
  { rewrite start_logging_unfold, Hv. split; assumption. }
  destruct (start_logging_loggers fs now t self Hv) as (id & Hid & Hn & Hd & Hl).
  destruct (get_terminal_id_ok (get_pty t) (get_vte t) (names self))
    as (id' & Hid' & Hc).
  rewrite Hid in Hid'. injection Hid' as <-.
  split.
  - intros u info Hu. rewrite Hn, Hd.
    assert (Hold : loggers (core self) !! u = Some info ->
              terminal_ids
                (fst (_get_terminal_id (get_pty t) (get_vte t) (names self)))
                !! u = Some (terminal_id info)
              /\ filepath info
                 = original_logfile (log_directory self) (terminal_id info)
              /\ sanitized_filepath info
                 = sanitized_logfile (log_directory self) (terminal_id info)).
    { intros H. destruct (Hs u info H) as (H1 & H2 & H3).
      split; [apply get_terminal_id_cache_grows, H1 | auto]. }
    rewrite Hl in Hu.
    destruct (get_cursor_position (vte_widget t)) as [cursor_pos|e];
      [|exact (Hold Hu)].
    destruct (connect t) as [handler|e]; [|exact (Hold Hu)].
    destruct (decide (get_vte t = u)) as [<-|Hne].
    + rewrite lookup_insert_eq in Hu. injection Hu as <-. cbn. auto.
    + rewrite lookup_insert_ne in Hu by exact Hne. exact (Hold Hu).
  - rewrite Hn, Hq. apply ids_by_path_resolve, Hi.
Qed.

Lemma named_by_stop pty_of t self :
  named_by pty_of self -> named_by pty_of (fst (_stop_logging t self)).
Proof.
  intros [Hs Hi]. rewrite stop_logging_unfold.
  destruct (loggers (core self) !! get_vte t); [|split; assumption].
  destruct (disconnect t); [|split; assumption].
  split.
  - intros u info Hu. cbn in Hu |- *.
    apply lookup_delete_Some in Hu as [Hne Hu].
    rewrite lookup_delete_ne by exact Hne. apply Hs, Hu.
  - intros u id fd p Hu. cbn in Hu |- *.
    apply lookup_delete_Some in Hu as [_ Hu]. eauto.
Qed.

Lemma named_by_changed pty_of h v self :
  named_by pty_of self ->
  named_by pty_of (fst (in_core (_on_contents_changed h v) self)).
Proof.
  intros [Hs Hi]. split; [|exact Hi].
  intros u info Hu. cbn in Hu |- *.
  pose proof (on_contents_changed_record h v (core self) u) as Hr.
  destruct (loggers (core self) !! u) as [old|] eqn:Ho; [|congruence].
  destruct Hr as (row & Hr & _). rewrite Hr in Hu. injection Hu as <-.
  destruct (Hs u old Ho) as (H1 & H2 & H3). cbn. auto.
Qed.

Lemma named_by_start_new pty_of fs now ts : forall self,
  Forall (fun t => get_pty t = pty_of (get_vte t)) ts ->
  named_by pty_of self -> named_by pty_of (fst (start_new fs now ts self)).
Proof.
  induction ts as [|t ts IH]; intros self Hts H; [exact H|].
  inversion Hts as [|? ? Ht Hts']; subst.
  rewrite start_new_unfold. apply IH; [exact Hts'|].
  apply named_by_start; assumption.
Qed.

Lemma named_by_step pty_of op self :
  Forall (fun t => get_pty t = pty_of (get_vte t)) (started_by op) ->
  named_by pty_of self -> named_by pty_of (lifecycle_step self op).
Proof.
  intros Hop H. destruct op as [fs now [ts|e]|fs now t|t|h v];
    cbn [lifecycle_step started_by] in *.
  - rewrite check_for_new_terminals_unfold. cbn [fst].
    apply named_by_start_new; assumption.
  - rewrite check_for_new_terminals_unfold. exact H.
  - inversion Hop; subst. apply named_by_start; assumption.
  - apply named_by_stop, H.
  - apply named_by_changed, H.
Qed.

Lemma named_by_run pty_of ops : forall self,
  ptys_fixed pty_of ops ->
  named_by pty_of self -> named_by pty_of (run_lifecycle ops self).
Proof.
  induction ops as [|op ops IH]; intros self Hops H; [exact H|].
  inversion Hops as [|? ? Hop Hops']; subst.
  apply IH; [exact Hops'|]. apply named_by_step; assumption.
Qed.

Lemma named_by_new pty_of tmpdir now known timestamp dir_exists :
  named_by pty_of (new_autologger tmpdir now known timestamp dir_exists).
Proof.
  split.
  - intros v info. cbn. rewrite lookup_empty. discriminate.
  - intros v id fd p. cbn. rewrite lookup_empty. discriminate.
Qed.

(** *** The poll *)

Lemma settled_noop fs now t self :
  settled t self -> _start_logging fs now t self = (self, Ok tt).
Proof.
  intros [H|[Hc Hf]]; rewrite start_logging_unfold.
  - destruct (loggers (core self) !! get_vte t); [reflexivity | congruence].
  - destruct (loggers (core self) !! get_vte t); [reflexivity|]. cbv zeta.
    destruct (terminal_ids (names self) !! get_vte t) as [id|] eqn:E;
      [|congruence].
    rewrite (get_terminal_id_hit _ _ _ _ E). cbn [fst snd].
    unfold start_fails in Hf.
    destruct (get_cursor_position (vte_widget t)), (connect t);
      try contradiction; destruct self; reflexivity.
Qed.

Lemma settled_start fs now t self :
  settled t (fst (_start_logging fs now t self)).
Proof.
  destruct (loggers (core self) !! get_vte t) as [info|] eqn:Hv.
  { rewrite start_logging_unfold, Hv. left. cbn. congruence. }
  destruct (start_logging_loggers fs now t self Hv) as (id & Hid & Hn & _ & Hl).
  destruct (get_terminal_id_ok (get_pty t) (get_vte t) (names self))
    as (id' & _ & Hc).
  unfold settled, start_fails. rewrite Hl, Hn, Hc.
  destruct (get_cursor_position (vte_widget t)), (connect t);
    try (right; split; [discriminate | exact I]).
  left. rewrite lookup_insert_eq. discriminate.
Qed.

Lemma settled_mono fs now t u self :
  settled u self -> settled u (fst (_start_logging fs now t self)).
Proof.
  intros Hu.
  destruct (loggers (core self) !! get_vte t) as [info|] eqn:Hv.
  { rewrite start_logging_unfold, Hv. exact Hu. }
  destruct (start_logging_loggers fs now t self Hv) as (id & Hid & Hn & _ & Hl).
  unfold settled in *. rewrite Hl, Hn.
  destruct Hu as [Hu|[Hu Hf]].
  - left. destruct (get_cursor_position (vte_widget t)), (connect t);
      try exact Hu.
    destruct (decide (get_vte t = get_vte u)) as [E|Hne].
    + rewrite E, lookup_insert_eq. discriminate.
    + rewrite lookup_insert_ne by exact Hne. exact Hu.
  - right. split; [|exact Hf].
    destruct (terminal_ids (names self) !! get_vte u) as [idu|] eqn:E;
      [|congruence].
    rewrite (get_terminal_id_cache_grows _ _ _ _ _ E). discriminate.
Qed.

Lemma settled_start_new fs now u ts : forall self,
  settled u self -> settled u (fst (start_new fs now ts self)).
Proof.
  induction ts as [|t ts IH]; intros self H; [exact H|].
  rewrite start_new_unfold. apply IH, settled_mono, H.
Qed.

Lemma start_new_settles fs now ts : forall self,
  Forall (fun t => settled t (fst (start_new fs now ts self))) ts.
Proof.
  induction ts as [|t ts IH]; intros self; [constructor|].
  rewrite start_new_unfold. constructor; [|apply IH].
  apply settled_start_new, settled_start.
Qed.

Lemma start_new_noop fs now ts self :
  Forall (fun t => settled t self) ts -> start_new fs now ts self = (self, Ok tt).
Proof.
  induction 1 as [|t ts Ht _ IH]; [reflexivity|].
  rewrite start_new_unfold, (settled_noop fs now t self Ht). exact IH.
Qed.

End LifecycleFacts.

(** X25: [_start_logging] never raises.  For a terminal without a session
    it resolves the identifier of the terminal and, if the cursor query
    and [connect] both return, registers the session: the raw log file
    [<log_directory>/<id>_original.log], the sanitized log file
    [<log_directory>/<id>.log], the cursor position ([(0, 0)] when the
    widget gives none) and the handler; this does not depend on the file
    system or on the room in the queues.  If either call raises, no
    session is registered, but the identifier stays resolved.  The
    sessions of other terminals are as before. *)
Theorem start_logging_session
    (fs : file_view) (now : str) (t : terminal) (self : autologger) :
  loggers (core self) !! get_vte t = None ->
  let self' := fst (_start_logging fs now t self) in
  exists id,
    snd (_get_terminal_id (get_pty t) (get_vte t) (names self)) = Ok id
    /\ snd (_start_logging fs now t self) = Ok tt
    /\ names self' = fst (_get_terminal_id (get_pty t) (get_vte t) (names self))
    /\ loggers (core self') =
       match get_cursor_position (vte_widget t), connect t with
       | Ok cursor_pos, Ok handler =>
           <[get_vte t :=
               LoggerInfo (original_logfile (log_directory self) id)
                 (sanitized_logfile (log_directory self) id) id
                 (default (0, 0)%Z cursor_pos).1
                 (default (0, 0)%Z cursor_pos).2
                 handler]> (loggers (core self))
       | _, _ => loggers (core self)
       end.
Proof.
  intros Hv. cbv zeta.
  destruct (start_logging_loggers fs now t self Hv) as (id & H1 & H2 & _ & H3).
  exists id. split; [exact H1|]. split; [apply start_logging_ok|].
  split; assumption.
Qed.

Lemma start_logging_session_witness :
  let self' :=
    fst (_start_logging example_files (lit "2024-01-01 12:00:00")
           example_terminal example_autologger) in
  exists id,
    snd (_get_terminal_id (get_pty example_terminal) (get_vte example_terminal)
           (names example_autologger)) = Ok id
    /\ snd (_start_logging example_files (lit "2024-01-01 12:00:00")
              example_terminal example_autologger) = Ok tt
    /\ names self'
       = fst (_get_terminal_id (get_pty example_terminal)
                (get_vte example_terminal) (names example_autologger))
    /\ loggers (core self') =
       match get_cursor_position (vte_widget example_terminal),
             connect example_terminal with
       | Ok cursor_pos, Ok handler =>
           <[get_vte example_terminal :=
               LoggerInfo
                 (original_logfile (log_directory example_autologger) id)
                 (sanitized_logfile (log_directory example_autologger) id) id
                 (default (0, 0)%Z cursor_pos).1
                 (default (0, 0)%Z cursor_pos).2
                 handler]> (loggers (core example_autologger))
       | _, _ => loggers (core example_autologger)
       end.
Proof.
  apply (start_logging_session example_files (lit "2024-01-01 12:00:00")
           example_terminal example_autologger).
  reflexivity.
Defined.

(** X26: a start on a log file that has content already enqueues nothing:
    when the raw log file of the terminal exists and its size is not
    zero, or its size cannot be read, [_start_logging] leaves both queues
    as they are and waits for neither; no second banner and no snapshot
    are written. *)
Theorem start_on_existing_log_enqueues_nothing
    (fs : file_view) (now : str) (t : terminal) (self : autologger) (id : str) :
  snd (_get_terminal_id (get_pty t) (get_vte t) (names self)) = Ok id ->
  path_exists fs (original_logfile (log_directory self) id) = true ->
  path_getsize fs (original_logfile (log_directory self) id) <> Ok 0%Z ->
  let self' := fst (_start_logging fs now t self) in
  write_queue (core self') = write_queue (core self)
  /\ sanitize_queue (core self') = sanitize_queue (core self)
  /\ waited_ms (core self') = waited_ms (core self).
Proof.
  intros Hid Hex Hsize. cbv zeta. rewrite start_logging_unfold.
  destruct (loggers (core self) !! get_vte t); [auto|]. cbv zeta.
  rewrite Hid.
  destruct (get_cursor_position (vte_widget t)) as [cursor_pos|e]; [|auto].
  destruct (connect t) as [handler|e]; [|auto].
  rewrite start_banner_skip by assumption. auto.
Qed.

Lemma start_on_existing_log_enqueues_nothing_witness :
  let fs := FileView (fun _ => true) (fun _ => Ok 57%Z) in
  let self' :=
    fst (_start_logging fs (lit "2024-01-01 12:00:00") example_terminal
           example_autologger) in
  write_queue (core self') = write_queue (core example_autologger)
  /\ sanitize_queue (core self') = sanitize_queue (core example_autologger)
  /\ waited_ms (core self') = waited_ms (core example_autologger).
Proof.
  apply (start_on_existing_log_enqueues_nothing
           (FileView (fun _ => true) (fun _ => Ok 57%Z))
           (lit "2024-01-01 12:00:00") example_terminal example_autologger
           (lit "terminal_7_pts3_20240101_120000")).
  - reflexivity.
  - reflexivity.
  - discriminate.
Defined.

(** X27: a start on a fresh log file.  When the terminal has no session,
    the cursor query and [connect] return, the raw log file is missing or
    empty, and both queues have room for two entries, [_start_logging]
    appends to the write queue the banner and then the snapshot of the
    visible buffer, both for the raw log file, and to the sanitizer queue
    the same two chunks for the sanitized log file.  The snapshot is the
    buffer from row 0 to the row count, passed through the line filter;
    it is left out when no line passes or when the row or column count
    raises. *)
Theorem start_on_fresh_log_enqueues_banner
    (fs : file_view) (now : str) (t : terminal) (self : autologger)
    (id : str) (cursor_pos : option (Z * Z)) (handler : nat) :
  loggers (core self) !! get_vte t = None ->
  snd (_get_terminal_id (get_pty t) (get_vte t) (names self)) = Ok id ->
  get_cursor_position (vte_widget t) = Ok cursor_pos ->
  connect t = Ok handler ->
  let original := original_logfile (log_directory self) id in
  let sanitized := sanitized_logfile (log_directory self) id in
  path_exists fs original = false \/ path_getsize fs original = Ok 0%Z ->
  (length (write_queue (core self)) + 2 <= MAXSIZE)%nat ->
  (length (sanitize_queue (core self)) + 2 <= MAXSIZE)%nat ->
  let snapshot :=
    match get_row_count t, get_column_count (vte_widget t) with
    | Ok rows, Ok columns =>
        option_list
          (content_to_log (_get_content (vte_widget t) 0 0 rows columns))
    | _, _ => []
    end in
  let self' := fst (_start_logging fs now t self) in
  write_queue (core self')
  = write_queue (core self) ++ items_for original (session_start now :: snapshot)
  /\ sanitize_queue (core self')
     = sanitize_queue (core self)
       ++ ((fun content => Some (content, sanitized))
             <$> session_start now :: snapshot).
Proof.
  intros Hv Hid Hc Hh original sanitized Hfresh Hw Hs. cbv zeta.
  rewrite start_logging_unfold, Hv. cbv zeta. rewrite Hid, Hc, Hh. cbn [fst].
  match goal with |- context [start_banner _ _ _ _ _ ?s] =>
    destruct (start_banner_fresh fs now t original sanitized s Hfresh Hw Hs)
      as (H1 & H2 & _) end.
  split; [exact H1 | exact H2].
Qed.

Lemma start_on_fresh_log_enqueues_banner_witness :
  let now := lit "2024-01-01 12:00:00" in
  let original :=
    lit "/tmp/terminator_logs/terminal_7_pts3_20240101_120000_original.log" in
  let sanitized :=
    lit "/tmp/terminator_logs/terminal_7_pts3_20240101_120000.log" in
  let snapshot := PROMPT_TAIL ++ lit " ls" ++ [10] ++ lit "a.txt" ++ [10] in
  let self' :=
    fst (_start_logging example_files now example_terminal example_autologger) in
  write_queue (core self')
  = [Some (original, session_start now); Some (original, snapshot)]
  /\ sanitize_queue (core self')
     = [Some (session_start now, sanitized); Some (snapshot, sanitized)].
Proof.
  cbv zeta.
  apply (start_on_fresh_log_enqueues_banner example_files
           (lit "2024-01-01 12:00:00") example_terminal example_autologger
           (lit "terminal_7_pts3_20240101_120000") (Some (0, 2)%Z) 11%nat).
  - reflexivity.
  - reflexivity.
  - reflexivity.
  - reflexivity.
  - left. reflexivity.
  - cbn. unfold MAXSIZE. lia.
  - cbn. unfold MAXSIZE. lia.
Defined.

(** X28: [_stop_logging] never raises and touches neither the queues nor
    the identifiers recorded for PTY paths, nor anything of another
    terminal.  For a terminal with a session whose [disconnect] returns,
    it removes the session and the cached identifier, and from then on a
    content-change callback for that widget does nothing.  Without a
    session, or when [disconnect] raises, the instance is left exactly as
    it was: after a failed [disconnect] the session is still there. *)
Theorem stop_logging_effect (t : terminal) (self : autologger) :
  let self' := fst (_stop_logging t self) in
  snd (_stop_logging t self) = Ok tt
  /\ write_queue (core self') = write_queue (core self)
  /\ sanitize_queue (core self') = sanitize_queue (core self)
  /\ _global_pty_to_terminal_id (names self')
     = _global_pty_to_terminal_id (names self)
  /\ terminal_counter (names self') = terminal_counter (names self)
  /\ (forall u, u <> get_vte t ->
        loggers (core self') !! u = loggers (core self) !! u
        /\ terminal_ids (names self') !! u = terminal_ids (names self) !! u)
  /\ match loggers (core self) !! get_vte t, disconnect t with
     | Some _, Ok _ =>
         loggers (core self') !! get_vte t = None
         /\ terminal_ids (names self') !! get_vte t = None
         /\ forall h, _on_contents_changed h (get_vte t) (core self')
                      = (core self', Ok tt)
     | _, _ => self' = self
     end.
Proof.
  cbv zeta. split; [apply stop_logging_ok|].
  rewrite stop_logging_unfold.
  destruct (loggers (core self) !! get_vte t) as [info|];
    [|repeat split; reflexivity].
  destruct (disconnect t) as [[]|e]; [|repeat split; reflexivity].
  cbn [fst core names with_loggers with_terminal_ids write_queue
       sanitize_queue _global_pty_to_terminal_id terminal_counter loggers
       terminal_ids].
  split; [reflexivity|]. split; [reflexivity|]. split; [reflexivity|].
  split; [reflexivity|]. split.
  - intros u Hu. rewrite !lookup_delete_ne by congruence. split; reflexivity.
  - rewrite !lookup_delete_eq. split; [reflexivity|]. split; [reflexivity|].
    intros h. rewrite on_contents_changed_unfold.
    cbn [loggers with_loggers]. rewrite lookup_delete_eq. reflexivity.
Qed.

(** X29: a terminal that is stopped and started again goes on in the
    same log files.  In every state that an instance reaches from
    [__init__] by polls, starts, stops and content-change callbacks, with
    the PTY of every widget staying the same, a terminal with a session
    and a PTY path whose [disconnect], cursor query and [connect] return
    has, after [_stop_logging] and [_start_logging], a session with the
    same identifier, the same raw log file and the same sanitized log
    file as before. *)
Theorem restart_keeps_log_files
    (pty_of : vte -> pty_query) (tmpdir now0 : str) (known : gmap str str)
    (timestamp : option str) (dir_exists : bool) (ops : list lifecycle_op)
    (fs : file_view) (now : str) (t : terminal) (info : logger_info)
    (fd : Z) (p : str) (cursor_pos : option (Z * Z)) (handler : nat) :
  ptys_fixed pty_of ops ->
  let self :=
    run_lifecycle ops (new_autologger tmpdir now0 known timestamp dir_exists) in
  loggers (core self) !! get_vte t = Some info ->
  get_pty t = pty_of (get_vte t) ->
  get_pty t = Pty fd (Name p) -> p <> [] ->
  disconnect t = Ok tt ->
  get_cursor_position (vte_widget t) = Ok cursor_pos ->
  connect t = Ok handler ->
  let self' := fst (_start_logging fs now t (fst (_stop_logging t self))) in
  exists info',
    loggers (core self') !! get_vte t = Some info'
    /\ terminal_id info' = terminal_id info
    /\ filepath info' = filepath info
    /\ sanitized_filepath info' = sanitized_filepath info.
Proof.
  intros Hops self Hv Hq Hpty Hp Hd Hc Hh. cbv zeta.
  destruct (named_by_run pty_of ops _ Hops
              (named_by_new pty_of tmpdir now0 known timestamp dir_exists))
    as [Hs Hi].
  fold self in Hs, Hi.
  destruct (Hs _ _ Hv) as (Hid & Hf & Hsf).
  assert (Hg : _global_pty_to_terminal_id (names self) !! p
               = Some (terminal_id info)).
  { apply (Hi (get_vte t) _ fd p Hid); [congruence | exact Hp]. }
  rewrite stop_logging_unfold, Hv, Hd. cbn [fst].
  set (stopped := AutoLogger _ _ _).
  assert (Hv' : loggers (core stopped) !! get_vte t = None)
    by apply lookup_delete_eq.
  destruct (start_logging_loggers fs now t stopped Hv')
    as (id & Hid' & _ & _ & Hl).
  rewrite Hl, Hc, Hh, lookup_insert_eq.
  assert (E : id = terminal_id info).
  { revert Hid'. rewrite get_terminal_id_unfold. cbv zeta.
    cbn [names stopped terminal_ids with_terminal_ids
         _global_pty_to_terminal_id].
    rewrite lookup_delete_eq, Hpty, (is_empty_false _ Hp), Hg.
    cbn [snd]. congruence. }
  subst id. eexists. split; [reflexivity|]. cbn. auto.
Qed.

Lemma restart_keeps_log_files_witness :
  let self :=
    run_lifecycle
      [Poll example_files (lit "2024-01-01 12:00:00") (Ok [example_terminal])]
      example_autologger in
  let self' :=
    fst (_start_logging example_files (lit "2024-01-01 12:05:00")
           example_terminal (fst (_stop_logging example_terminal self))) in
  exists info',
    loggers (core self') !! get_vte example_terminal = Some info'
    /\ terminal_id info' = lit "terminal_7_pts3_20240101_120000"
    /\ filepath info'
       = lit "/tmp/terminator_logs/terminal_7_pts3_20240101_120000_original.log"
    /\ sanitized_filepath info'
       = lit "/tmp/terminator_logs/terminal_7_pts3_20240101_120000.log".
Proof.
  cbv zeta.
  apply (restart_keeps_log_files (fun _ => get_pty example_terminal)
           (lit "/tmp") (lit "20240101_120000") ∅ None true
           [Poll example_files (lit "2024-01-01 12:00:00")
              (Ok [example_terminal])]
           example_files (lit "2024-01-01 12:05:00") example_terminal
           (LoggerInfo
              (lit "/tmp/terminator_logs/terminal_7_pts3_20240101_120000_original.log")
              (lit "/tmp/terminator_logs/terminal_7_pts3_20240101_120000.log")
              (lit "terminal_7_pts3_20240101_120000") 0%Z 2%Z 11%nat)
           7%Z (lit "/dev/pts/3") (Some (0, 2)%Z) 11%nat).
  - repeat constructor.
  - vm_compute. reflexivity.
  - reflexivity.
  - reflexivity.
  - discriminate.
  - reflexivity.
  - reflexivity.
  - reflexivity.
Defined.

(** X30: the poll is idempotent and never raises.
    [_check_for_new_terminals] returns [True] whatever happens, also when
    the host cannot list its terminals; and a second poll over the same
    terminals, at any later time and with any state of the file system,
    changes nothing: terminals that have a session are skipped, and a
    terminal whose start failed fails again without a new identifier. *)
Theorem poll_idempotent
    (fs fs' : file_view) (now now' : str)
    (terminals : result (list terminal)) (self : autologger) :
  let polled := fst (_check_for_new_terminals fs now terminals self) in
  snd (_check_for_new_terminals fs now terminals self) = Ok true
  /\ _check_for_new_terminals fs' now' terminals polled = (polled, Ok true).
Proof.
  cbv zeta. rewrite !check_for_new_terminals_unfold. cbn [fst snd].
  split; [reflexivity|].
  destruct terminals as [ts|e]; [|reflexivity].
  rewrite start_new_noop; [reflexivity | apply start_new_settles].
Qed.
